(** * kdp.stats: streaming statistics accumulators

    A shallow embedding of [kdp/stats.py]: the Welford, categorical, text
    and date accumulators, the [DatasetStatistics] engine that drives them,
    and the JSON persistence of the finalized report.

    Modelling conventions.
    - [float32] tensors and NumPy floats are carried as exact rationals ([Q],
      compared with [==]) and [tf.cast] to [float32] keeps the value; the
      rounding of the code is modelled in [WelfordAccumulator32], the same
      update in IEEE binary32.  What is stated of the values the code
      computes is stated there; what is stated over [Q] is about the exact
      algorithm, or about what the engine does with its numbers whatever
      their values.  [int32] values are integers ([Z]); the code never does
      arithmetic on them.
    - TensorFlow variables held by an object are fields of a record and
      every [update] returns the new record (state passing).
    - A Python [dict] is an insertion-ordered association list with unique
      keys ([dict_set] overwrites in place or appends).
    - A Python exception is the [Raise] outcome of the [result] type. *)

From Stdlib Require Import ZArith QArith Qfield Lqa Lia.
From Stdlib Require Import Ascii String DecimalString DecimalZ.
From Stdlib Require Import Floats.SpecFloat.
From stdpp Require Import base list strings gmap sorting.

Set Default Proof Using "Type".
Open Scope Q_scope.

(** ** Python runtime: exceptions *)

Inductive exn : Type :=
| ValueError (msg : string)
| KeyError (key : string)
| TypeError (msg : string)
| AttributeError (msg : string)
| UnicodeDecodeError
| OpError (msg : string).

Inductive result (A : Type) : Type :=
| Ok (a : A)
| Raise (e : exn).
Arguments Ok {A} a.
Arguments Raise {A} e.

Global Instance result_ret : MRet result := λ A a, Ok a.
Global Instance result_bind : MBind result := λ A B k r,
  match r with
  | Ok a => k a
  | Raise e => Raise e
  end.

(** An exception raised by a method leaves the receiver as it was: the
    accumulators assign their variables only after the type test. *)
Definition commit {A : Type} (self : A) (r : result A) : A :=
  match r with
  | Ok self' => self'
  | Raise _ => self
  end.

(** [for x in xs: self = body(self, x)], stopping at the first exception. *)
Fixpoint for_each {S X : Type} (body : S → X → result S) (xs : list X) (s : S)
  : result S :=
  match xs with
  | [] => Ok s
  | x :: xs' => s' ← body s x; for_each body xs' s'
  end.

(** ** Tensors *)

Inductive DType : Type :=
| tf_string | tf_int32 | tf_int64 | tf_float32 | tf_float64 | tf_bool.

Global Instance DType_eq_dec : EqDecision DType.
Proof. solve_decision. Defined.

(** [DType.name] *)
Definition DType_name (d : DType) : string :=
  match d with
  | tf_string => "string"
  | tf_int32 => "int32"
  | tf_int64 => "int64"
  | tf_float32 => "float32"
  | tf_float64 => "float64"
  | tf_bool => "bool"
  end.

(** [str(dtype)], as interpolated into the error messages. *)
Definition DType_str (d : DType) : string :=
  "<dtype: '" +:+ DType_name d +:+ "'>".

(** A batch column: a rank-1 tensor of one element kind, or the rank-2
    [[batch_size, 3]] float tensor of a date feature. *)
Inductive Tensor : Type :=
| StringTensor (v : list string)
| Int32Tensor (v : list Z)
| Int64Tensor (v : list Z)
| Float32Tensor (v : list Q)
| Float64Tensor (v : list Q)
| BoolTensor (v : list bool)
| DateTensor (rows : list (Q * Q * Q)).

Definition dtype (t : Tensor) : DType :=
  match t with
  | StringTensor _ => tf_string
  | Int32Tensor _ => tf_int32
  | Int64Tensor _ => tf_int64
  | Float32Tensor _ => tf_float32
  | Float64Tensor _ => tf_float64
  | BoolTensor _ => tf_bool
  | DateTensor _ => tf_float32
  end.

(** [tf.unique(x)[0]]: the distinct elements in order of first occurrence.
    [seen] holds the elements already emitted. *)
Fixpoint unique_from `{EqDecision A} (seen : list A) (l : list A) : list A :=
  match l with
  | [] => []
  | x :: l' =>
      if decide (x ∈ seen) then unique_from seen l'
      else x :: unique_from (x :: seen) l'
  end.

Definition tf_unique `{EqDecision A} (l : list A) : list A := unique_from [] l.

(** [tf.reduce_sum] of a rank-1 float tensor. *)
Definition reduce_sum (l : list Q) : Q := foldr Qplus 0 l.

(** [tf.cast(tf.size(values), tf.float32)] *)
Definition tf_size (l : list Q) : Q := inject_Z (Z.of_nat (length l)).

(** ** WelfordAccumulator *)

Module WelfordAccumulator.

Record t : Type := Build { n : Q; mean : Q; M2 : Q; var : Q }.

(** [__init__] *)
Definition init : t := {| n := 0; mean := 0; M2 := 0; var := 0 |}.

(** [update]: [values] is the column after [tf.cast(values, tf.float32)]. *)
Definition update (self : t) (values : list Q) : t :=
  let n' := n self + tf_size values in
  let delta := map (λ v, v - mean self) values in
  let mean' := mean self + reduce_sum (map (λ d, d / n') delta) in
  let M2' := M2 self + reduce_sum (zip_with (λ d v, d * (v - mean')) delta values) in
  {| n := n'; mean := mean'; M2 := M2'; var := var self |}.

(** [variance] property *)
Definition variance (self : t) : Q :=
  if Qlt_le_dec 1 (n self) then M2 self / (n self - 1) else var self.

(** [count] property *)
Definition count (self : t) : Q := n self.

(** Componentwise equality of rationals. *)
Definition equiv (a b : t) : Prop :=
  n a == n b ∧ mean a == mean b ∧ M2 a == M2 b ∧ var a == var b.

End WelfordAccumulator.

(** ** WelfordAccumulator in IEEE binary32 *)

(** The same accumulator on [float32] values as the specification of
    floating-point arithmetic gives them (24 bits of precision, round to
    nearest even).  TensorFlow does not fix the order in which
    [tf.reduce_sum] adds, so the order is a parameter. *)
Module WelfordAccumulator32.

Definition float32 : Type := spec_float.

Definition add : float32 → float32 → float32 := SFadd 24 128.
Definition sub : float32 → float32 → float32 := SFsub 24 128.
Definition mul : float32 → float32 → float32 := SFmul 24 128.
Definition div : float32 → float32 → float32 := SFdiv 24 128.

Definition zero : float32 := S754_zero false.

(** [tf.cast] of an integer to [float32]. *)
Definition of_Z (z : Z) : float32 :=
  match z with
  | Z0 => zero
  | Zpos p => binary_normalize 24 128 (Zpos p) 0 false
  | Zneg p => binary_normalize 24 128 (Zpos p) 0 true
  end.

Inductive sum_order : Type := left_to_right | right_to_left.

(** [tf.reduce_sum] *)
Definition reduce_sum (order : sum_order) (l : list float32) : float32 :=
  match order with
  | left_to_right => foldl add zero l
  | right_to_left => foldr add zero l
  end.

Record t : Type := Build { n : float32; mean : float32; M2 : float32; var : float32 }.

(** [__init__] *)
Definition init : t := {| n := zero; mean := zero; M2 := zero; var := zero |}.

(** [update] *)
Definition update (order : sum_order) (self : t) (values : list float32) : t :=
  let n' := add (n self) (of_Z (Z.of_nat (length values))) in
  let delta := map (λ v, sub v (mean self)) values in
  let mean' := add (mean self) (reduce_sum order (map (λ d, div d n') delta)) in
  let M2' :=
    add (M2 self)
      (reduce_sum order (zip_with (λ d v, mul d (sub v mean')) delta values)) in
  {| n := n'; mean := mean'; M2 := M2'; var := var self |}.

(** [variance] property *)
Definition variance (self : t) : float32 :=
  if SFltb (of_Z 1) (n self) then div (M2 self) (sub (n self) (of_Z 1))
  else var self.

(** [count] property *)
Definition count (self : t) : float32 := n self.

End WelfordAccumulator32.

(** ** Strings *)

Local Open Scope char_scope.

(** [absl::ascii_isspace], the separator test of [tf.strings.split] when no
    separator is given: space, \t, \n, \v, \f, \r. *)
Definition ascii_isspace (c : ascii) : bool :=
  bool_decide (c = " ") || bool_decide (c = "009") || bool_decide (c = "010")
  || bool_decide (c = "011") || bool_decide (c = "012") || bool_decide (c = "013").

(** The RE2 class [\s]: space, \t, \n, \f, \r (no vertical tab). *)
Definition re2_space (c : ascii) : bool :=
  bool_decide (c = " ") || bool_decide (c = "009") || bool_decide (c = "010")
  || bool_decide (c = "012") || bool_decide (c = "013").

(** ASCII lower-casing of one byte, as [tf.strings.lower] does with its
    default [encoding=""]. *)
Definition ascii_lower (c : ascii) : ascii :=
  let k := nat_of_ascii c in
  if (65 <=? k)%nat && (k <=? 90)%nat then ascii_of_nat (k + 32) else c.

Local Close Scope char_scope.

(** [tf.strings.regex_replace(s, r"\s+", " ")]: each maximal run of [\s]
    characters becomes one space.  [in_run] tells that the previous
    character belonged to the run being replaced. *)
Fixpoint collapse_runs (in_run : bool) (s : string) : string :=
  match s with
  | EmptyString => EmptyString
  | String c s' =>
      if re2_space c then
        if in_run then collapse_runs true s'
        else String " " (collapse_runs true s')
      else String c (collapse_runs false s')
  end.

Definition regex_replace_spaces (s : string) : string := collapse_runs false s.

(** The character that follows ends the current token. *)
Definition at_token_end (s : string) : bool :=
  match s with
  | EmptyString => true
  | String c _ => ascii_isspace c
  end.

(** Put [c] in front of the first token of [ws]. *)
Definition extend_first (c : ascii) (ws : list string) : list string :=
  match ws with
  | [] => [String c EmptyString]
  | w :: ws' => String c w :: ws'
  end.

(** [tf.strings.split(s)] for one string: the maximal runs of characters
    that are not whitespace, in order; no empty token. *)
Fixpoint tf_strings_split (s : string) : list string :=
  match s with
  | EmptyString => []
  | String c s' =>
      if ascii_isspace c then tf_strings_split s'
      else if at_token_end s' then String c EmptyString :: tf_strings_split s'
      else extend_first c (tf_strings_split s')
  end.

(** [tf.strings.lower] *)
Fixpoint tf_strings_lower (s : string) : string :=
  match s with
  | EmptyString => EmptyString
  | String c s' => String (ascii_lower c) (tf_strings_lower s')
  end.

(** [tf.strings.as_string] of an [int32]: its decimal numeral. *)
Definition tf_strings_as_string (z : Z) : string :=
  NilZero.string_of_int (Z.to_int z).

(** Python's [int(b)] on a byte string holding a decimal numeral with an
    optional minus sign, the only form [tf.strings.as_string] produces.
    Anything else is reported as [ValueError]: [int] also reads a plus
    sign, surrounding blanks and underscores between digits, spellings that
    the numerals of an [int32] column never have. *)
Definition py_int (b : string) : result Z :=
  match NilZero.int_of_string b with
  | Some d => Ok (Z.of_int d)
  | None => Raise (ValueError ("invalid literal for int() with base 10: " +:+ b))
  end.

(** The elements of a string tensor, of an [int32] tensor. *)
Definition string_values (t : Tensor) : list string :=
  match t with StringTensor v => v | _ => [] end.

Definition int32_values (t : Tensor) : list Z :=
  match t with Int32Tensor v => v | _ => [] end.

(** ** CategoricalAccumulator *)

Module CategoricalAccumulator.

Record t : Type := Build { values : list string; int_values : list Z }.

(** [__init__] *)
Definition init : t := {| values := []; int_values := [] |}.

(** [update] *)
Definition update (self : t) (new_values : Tensor) : result t :=
  if decide (dtype new_values = tf_string) then
    let updated_values := tf_unique (values self ++ string_values new_values) in
    Ok {| values := updated_values; int_values := int_values self |}
  else if decide (dtype new_values = tf_int32) then
    let updated_values := tf_unique (int_values self ++ int32_values new_values) in
    Ok {| values := values self; int_values := updated_values |}
  else
    Raise (ValueError ("Unsupported data type for categorical features: "
                       +:+ DType_str (dtype new_values))).

(** [get_unique_values]: a list of byte strings. *)
Definition get_unique_values (self : t) : list string :=
  let all_values := values self ++ map tf_strings_as_string (int_values self) in
  tf_unique all_values.

End CategoricalAccumulator.

(** ** TextAccumulator *)

Module TextAccumulator.

Record t : Type := Build { words : list string }.

(** [__init__] *)
Definition init : t := {| words := [] |}.

(** [update] *)
Definition update (self : t) (new_texts : Tensor) : result t :=
  if decide (dtype new_texts ≠ tf_string) then
    Raise (ValueError ("Unsupported data type for text features: "
                       +:+ DType_str (dtype new_texts)))
  else
    let new_texts := map regex_replace_spaces (string_values new_texts) in
    let split_words := flat_map tf_strings_split new_texts in
    let split_words := map tf_strings_lower split_words in
    let updated_words := tf_unique (words self ++ split_words) in
    Ok {| words := updated_words |}.

(** [get_unique_words]: a list of byte strings. *)
Definition get_unique_words (self : t) : list string := words self.

End TextAccumulator.

(** ** Python values *)

(** A [dict] with string keys, in insertion order. *)
Definition dict (V : Type) : Type := list (string * V).

(** [k in d] and [d.get(k)] *)
Fixpoint dict_get {V : Type} (d : dict V) (k : string) : option V :=
  match d with
  | [] => None
  | (k', v) :: d' => if decide (k' = k) then Some v else dict_get d' k
  end.

(** [d.get(k, default)] *)
Definition dict_get_default {V : Type} (d : dict V) (k : string) (default : V) : V :=
  match dict_get d k with
  | Some v => v
  | None => default
  end.

(** [d[k]] *)
Definition dict_item {V : Type} (d : dict V) (k : string) : result V :=
  match dict_get d k with
  | Some v => Ok v
  | None => Raise (KeyError k)
  end.

(** [d[k] = v]: an existing key keeps its place, a new one goes last. *)
Fixpoint dict_set {V : Type} (d : dict V) (k : string) (v : V) : dict V :=
  match d with
  | [] => [(k, v)]
  | (k', v') :: d' =>
      if decide (k' = k) then (k, v) :: d' else (k', v') :: dict_set d' k v
  end.

(** Iterating a dict yields its keys. *)
Definition dict_keys {V : Type} (d : dict V) : list string := map fst d.

(** [{col: make() for col in cols}] *)
Definition dict_from_keys {V : Type} (cols : list string) (make : V) : dict V :=
  foldl (λ d col, dict_set d col make) [] cols.

(** The values that occur in a statistics report and in its serialization:
    Python scalars and containers, NumPy scalars and arrays, byte strings
    and TensorFlow dtype objects.  [PyStr] and [PyBytes] both carry the
    UTF-8 bytes of the text. *)
#[local] Set Warnings "-register-all".
Inductive pyval : Type :=
| PyInt (z : Z)
| PyFloat (q : Q)
| PyStr (s : string)
| PyBytes (b : string)
| PyList (l : list pyval)
| PyDict (d : list (string * pyval))
| NpInteger (z : Z)
| NpFloating (q : Q)
| NpArray (l : list pyval)
| TfDType (d : DType).

(** ** DateAccumulator *)

(** [tf.math.sin] and [tf.math.cos].  They are not rational functions; the
    development holds for every choice of them. *)
Class Trig : Type := { tf_sin : Q → Q; tf_cos : Q → Q }.

(** [tf.math.pi]: the module [tf.math] has no attribute [pi], so the lookup
    raises. *)
Definition tf_math_pi : result Q := Raise (AttributeError "pi").

Module DateAccumulator.

Record t : Type := Build {
  year_accumulator : WelfordAccumulator.t;
  month_sin_accumulator : WelfordAccumulator.t;
  month_cos_accumulator : WelfordAccumulator.t;
  day_of_week_sin_accumulator : WelfordAccumulator.t;
  day_of_week_cos_accumulator : WelfordAccumulator.t }.

(** [__init__] *)
Definition init : t :=
  {| year_accumulator := WelfordAccumulator.init;
     month_sin_accumulator := WelfordAccumulator.init;
     month_cos_accumulator := WelfordAccumulator.init;
     day_of_week_sin_accumulator := WelfordAccumulator.init;
     day_of_week_cos_accumulator := WelfordAccumulator.init |}.

(** [update]: [dates] holds the rows [[year, month, day_of_week]].  The
    lookup of [tf.math.pi] comes before the five children are updated, so
    every call raises and leaves them as they were. *)
Definition update {trig : Trig} (self : t) (dates : list (Q * Q * Q)) : result t :=
  let year := map (λ r, r.1.1) dates in
  let month := map (λ r, r.1.2) dates in
  let day_of_week := map (λ r, r.2) dates in
  pi ← tf_math_pi;
  let month_sin := map (λ m, tf_sin (2 * pi * m / 12)) month in
  let month_cos := map (λ m, tf_cos (2 * pi * m / 12)) month in
  let day_of_week_sin := map (λ d, tf_sin (2 * pi * d / 7)) day_of_week in
  let day_of_week_cos := map (λ d, tf_cos (2 * pi * d / 7)) day_of_week in
  Ok {| year_accumulator := WelfordAccumulator.update (year_accumulator self) year;
        month_sin_accumulator :=
          WelfordAccumulator.update (month_sin_accumulator self) month_sin;
        month_cos_accumulator :=
          WelfordAccumulator.update (month_cos_accumulator self) month_cos;
        day_of_week_sin_accumulator :=
          WelfordAccumulator.update (day_of_week_sin_accumulator self) day_of_week_sin;
        day_of_week_cos_accumulator :=
          WelfordAccumulator.update (day_of_week_cos_accumulator self)
            day_of_week_cos |}.

(** [mean] property; [.numpy()] of a float variable is a NumPy float. *)
Definition mean (self : t) : dict pyval :=
  [ ("year", NpFloating (WelfordAccumulator.mean (year_accumulator self)));
    ("month_sin", NpFloating (WelfordAccumulator.mean (month_sin_accumulator self)));
    ("month_cos", NpFloating (WelfordAccumulator.mean (month_cos_accumulator self)));
    ("day_of_week_sin",
      NpFloating (WelfordAccumulator.mean (day_of_week_sin_accumulator self)));
    ("day_of_week_cos",
      NpFloating (WelfordAccumulator.mean (day_of_week_cos_accumulator self))) ].

(** [variance] property *)
Definition variance (self : t) : dict pyval :=
  [ ("year", NpFloating (WelfordAccumulator.variance (year_accumulator self)));
    ("month_sin",
      NpFloating (WelfordAccumulator.variance (month_sin_accumulator self)));
    ("month_cos",
      NpFloating (WelfordAccumulator.variance (month_cos_accumulator self)));
    ("day_of_week_sin",
      NpFloating (WelfordAccumulator.variance (day_of_week_sin_accumulator self)));
    ("day_of_week_cos",
      NpFloating (WelfordAccumulator.variance (day_of_week_cos_accumulator self))) ].

End DateAccumulator.

(** ** JSON persistence *)

(** A JSON document, the content of the statistics file.  The textual
    encoding is left to the [json] module; numbers keep the distinction
    between integer and real literals that the module preserves. *)
Inductive json : Type :=
| JInt (z : Z)
| JFloat (q : Q)
| JString (s : string)
| JArray (items : list json)
| JObject (members : list (string * json)).

Local Open Scope char_scope.

Definition hex_digit (k : nat) : ascii :=
  nth k ["0"; "1"; "2"; "3"; "4"; "5"; "6"; "7"; "8"; "9";
         "a"; "b"; "c"; "d"; "e"; "f"] "0".

Fixpoint contains_char (c : ascii) (s : string) : bool :=
  match s with
  | EmptyString => false
  | String c' s' => bool_decide (c' = c) || contains_char c s'
  end.

(** The escaped body of [repr(b)] for a bytes object [b]; "092" is the
    backslash. *)
Fixpoint bytes_repr_body (quote : ascii) (b : string) : string :=
  match b with
  | EmptyString => EmptyString
  | String c b' =>
      let k := nat_of_ascii c in
      let rest := bytes_repr_body quote b' in
      if bool_decide (c = quote) || bool_decide (c = "092") then
        String "092" (String c rest)
      else if bool_decide (c = "009") then String "092" (String "t" rest)
      else if bool_decide (c = "010") then String "092" (String "n" rest)
      else if bool_decide (c = "013") then String "092" (String "r" rest)
      else if (k <? 32)%nat || (127 <=? k)%nat then
        String "092" (String "x"
          (String (hex_digit (k / 16)) (String (hex_digit (k mod 16)) rest)))
      else String c rest
  end.

(** [str(b)] for a bytes object: its [repr], the letter b and the quoted,
    escaped content ("039" is the single quote, "034" the double quote,
    chosen when the bytes hold a single quote and no double quote). *)
Definition bytes_repr (b : string) : string :=
  let quote :=
    if contains_char "039" b && negb (contains_char "034" b) then "034" else "039" in
  String "b" (String quote (bytes_repr_body quote b +:+ String quote EmptyString)).

Local Close Scope char_scope.

(** [DatasetStatistics._custom_serializer].  An [NpArray] carries the list
    that its [tolist()] returns. *)
Definition _custom_serializer (obj : pyval) : result pyval :=
  match obj with
  | TfDType d => Ok (PyStr (DType_name d))
  | NpInteger z => Ok (PyInt z)
  | NpFloating q => Ok (PyFloat q)
  | PyBytes b => Ok (PyStr (bytes_repr b))
  | NpArray l => Ok (PyList l)
  | _ => Raise (TypeError "Type not serializable")
  end.

(** The encoder of [json.dump]: integers, floats, strings, lists and dicts
    are encoded structurally, any other object is handed to [default]. *)
Fixpoint json_encode (default : pyval → result json) (o : pyval) : result json :=
  match o with
  | PyInt z => Ok (JInt z)
  | PyFloat q => Ok (JFloat q)
  | PyStr s => Ok (JString s)
  | PyList l =>
      items ← (fix each (l : list pyval) : result (list json) :=
                 match l with
                 | [] => Ok []
                 | x :: l' =>
                     x' ← json_encode default x; r ← each l'; Ok (x' :: r)
                 end) l;
      Ok (JArray items)
  | PyDict d =>
      members ← (fix each (d : list (string * pyval)) : result (list (string * json)) :=
                   match d with
                   | [] => Ok []
                   | kv :: d' =>
                       v' ← json_encode default kv.2; r ← each d'; Ok ((kv.1, v') :: r)
                   end) d;
      Ok (JObject members)
  | _ => default o
  end.

(** [json.dump(o, f, default=_custom_serializer)]: what [default] returns
    is encoded in turn; every value [_custom_serializer] returns is made of
    integers, floats, strings and lists only. *)
Definition json_dump (o : pyval) : result json :=
  json_encode
    (λ x, x' ← _custom_serializer x;
          json_encode (λ _, Raise (TypeError "Object is not JSON serializable")) x')
    o.

(** [json.load] *)
Fixpoint json_load (j : json) : pyval :=
  match j with
  | JInt z => PyInt z
  | JFloat q => PyFloat q
  | JString s => PyStr s
  | JArray items => PyList (map json_load items)
  | JObject members => PyDict (map (λ kv, (kv.1, json_load kv.2)) members)
  end.

Definition all_dtypes : list DType :=
  [tf_string; tf_int32; tf_int64; tf_float32; tf_float64; tf_bool].

(** [tf.dtypes.as_dtype], on a dtype object or on the name of one of the six
    dtypes modelled here, which are those a finalized report can hold;
    TensorFlow knows more names. *)
Definition as_dtype (v : pyval) : result DType :=
  match v with
  | TfDType d => Ok d
  | PyStr s =>
      match filter (λ d, DType_name d = s) all_dtypes with
      | d :: _ => Ok d
      | [] => Raise (TypeError ("Cannot convert the argument to a TensorFlow DType: " +:+ s))
      end
  | _ => Raise (TypeError "Cannot convert the argument to a TensorFlow DType")
  end.

(** The number denoted by a Python or NumPy scalar. *)
Definition py_number (v : pyval) : option Q :=
  match v with
  | PyInt z | NpInteger z => Some (inject_Z z)
  | PyFloat q | NpFloating q => Some q
  | _ => None
  end.

(** Python's [a == b] on report values: numbers compare by value across
    the integer and float types, [str] and [bytes] never compare equal, a
    dtype equals the dtypes and names that [as_dtype] maps to it, lists
    compare elementwise and dicts by key, whatever the order.  The numbers
    of [pyval] are finite: a NaN, which is unequal to itself, has no
    counterpart here. *)
Fixpoint py_eq (a b : pyval) {struct a} : bool :=
  match a, b with
  | PyStr s, PyStr s' => bool_decide (s = s')
  | PyBytes s, PyBytes s' => bool_decide (s = s')
  | TfDType d, (TfDType _ | PyStr _) =>
      match as_dtype b with Ok d' => bool_decide (d = d') | Raise _ => false end
  | PyStr _, TfDType d' =>
      match as_dtype a with Ok d => bool_decide (d = d') | Raise _ => false end
  | PyList la, PyList lb =>
      (fix all2 (la lb : list pyval) : bool :=
         match la, lb with
         | [], [] => true
         | x :: la', y :: lb' => py_eq x y && all2 la' lb'
         | _, _ => false
         end) la lb
  | PyDict da, PyDict db =>
      bool_decide (length da = length db)
      && (fix all (da : list (string * pyval)) : bool :=
            match da with
            | [] => true
            | kv :: da' =>
                match dict_get db kv.1 with
                | Some v => py_eq kv.2 v
                | None => false
                end && all da'
            end) da
  | _, _ =>
      match py_number a, py_number b with
      | Some x, Some y => Qeq_bool x y
      | _, _ => false
      end
  end.

(** ** DatasetStatistics *)

(** [tf.cast(values, tf.float32)] followed by the flattening that
    [tf.size] and [tf.reduce_sum] perform.  The value is kept as it is (see
    the conventions): the rounding of an integer beyond 24 bits is not
    modelled. *)
Definition tf_cast_float32 (t : Tensor) : result (list Q) :=
  match t with
  | StringTensor _ => Raise (OpError "Cast string to float is not supported")
  | Int32Tensor v | Int64Tensor v => Ok (map inject_Z v)
  | Float32Tensor v | Float64Tensor v => Ok v
  | BoolTensor v => Ok (map (λ b : bool, if b then 1 else 0) v)
  | DateTensor rows => Ok (flat_map (λ r, [r.1.1; r.1.2; r.2]) rows)
  end.

(** The rows of a rank-2 tensor; slicing [dates[:, 0]] fails on rank 1. *)
Definition date_rows (t : Tensor) : result (list (Q * Q * Q)) :=
  match t with
  | DateTensor rows => Ok rows
  | _ => Raise (ValueError "Index out of range using input dim 1; input has only 1 dims")
  end.

Local Open Scope nat_scope.

(** The byte [c] lies between [lo] and [hi]. *)
Definition byte_between (c : ascii) (lo hi : nat) : bool :=
  (lo <=? nat_of_ascii c) && (nat_of_ascii c <=? hi).

(** Well-formed UTF-8, as the strict decoder of [bytes.decode] accepts it:
    shortest form only, no surrogates, nothing above U+10FFFF. *)
Fixpoint utf8_valid (b : string) : bool :=
  match b with
  | EmptyString => true
  | String c0 b1 =>
      let k := nat_of_ascii c0 in
      if k <? 128 then utf8_valid b1
      else if (194 <=? k) && (k <=? 223) then
        match b1 with
        | String c1 b2 => byte_between c1 128 191 && utf8_valid b2
        | _ => false
        end
      else if (224 <=? k) && (k <=? 239) then
        match b1 with
        | String c1 (String c2 b3) =>
            byte_between c1 (if k =? 224 then 160 else 128)
                            (if k =? 237 then 159 else 191)
            && byte_between c2 128 191 && utf8_valid b3
        | _ => false
        end
      else if (240 <=? k) && (k <=? 244) then
        match b1 with
        | String c1 (String c2 (String c3 b4)) =>
            byte_between c1 (if k =? 240 then 144 else 128)
                            (if k =? 244 then 143 else 191)
            && byte_between c2 128 191 && byte_between c3 128 191 && utf8_valid b4
        | _ => false
        end
      else false
  end.

Local Close Scope nat_scope.

(** [b.decode("utf-8")]; the text is kept as its UTF-8 bytes. *)
Definition bytes_decode (b : string) : result string :=
  if utf8_valid b then Ok b else Raise UnicodeDecodeError.

(** [needle in hay] for two strings. *)
Fixpoint str_contains (needle hay : string) : bool :=
  String.prefix needle hay
  || match hay with
     | EmptyString => false
     | String _ hay' => str_contains needle hay'
     end.

(** [[f(x) for x in xs]] for an [f] that may raise. *)
Fixpoint list_comprehension {X Y : Type} (f : X → result Y) (xs : list X)
  : result (list Y) :=
  match xs with
  | [] => Ok []
  | x :: xs' => y ← f x; ys ← list_comprehension f xs'; Ok (y :: ys)
  end.

(** A feature specification of [kdp.features]; the statistics read its
    [dtype] only. *)
Record FeatureSpec : Type := { spec_dtype : DType }.

Module DatasetStatistics.

Record t : Type := Build {
  numeric_features : list string;
  categorical_features : list string;
  text_features : list string;
  date_features : list string;
  features_specs : dict FeatureSpec;
  overwrite_stats : bool;
  numeric_stats : dict WelfordAccumulator.t;
  categorical_stats : dict CategoricalAccumulator.t;
  text_stats : dict TextAccumulator.t;
  date_stats : dict DateAccumulator.t;
  (** [None] until [calculate_dataset_statistics] or [_load_stats] sets
      the attribute. *)
  features_stats : option pyval }.

(** [__init__]; the data path, the batch size and the path of the
    statistics file play no part in the statistics themselves. *)
Definition init (features_specs : dict FeatureSpec)
    (numeric_features categorical_features text_features date_features : list string)
    (overwrite_stats : bool) : t :=
  {| numeric_features := numeric_features;
     categorical_features := categorical_features;
     text_features := text_features;
     date_features := date_features;
     features_specs := features_specs;
     overwrite_stats := overwrite_stats;
     numeric_stats := dict_from_keys numeric_features WelfordAccumulator.init;
     categorical_stats := dict_from_keys categorical_features CategoricalAccumulator.init;
     text_stats := dict_from_keys text_features TextAccumulator.init;
     date_stats := dict_from_keys date_features DateAccumulator.init;
     features_stats := None |}.

Definition set_numeric_stats (self : t) (d : dict WelfordAccumulator.t) : t :=
  Build (numeric_features self) (categorical_features self) (text_features self)
    (date_features self) (features_specs self) (overwrite_stats self)
    d (categorical_stats self) (text_stats self) (date_stats self)
    (features_stats self).

Definition set_categorical_stats (self : t) (d : dict CategoricalAccumulator.t) : t :=
  Build (numeric_features self) (categorical_features self) (text_features self)
    (date_features self) (features_specs self) (overwrite_stats self)
    (numeric_stats self) d (text_stats self) (date_stats self)
    (features_stats self).

Definition set_text_stats (self : t) (d : dict TextAccumulator.t) : t :=
  Build (numeric_features self) (categorical_features self) (text_features self)
    (date_features self) (features_specs self) (overwrite_stats self)
    (numeric_stats self) (categorical_stats self) d (date_stats self)
    (features_stats self).

Definition set_date_stats (self : t) (d : dict DateAccumulator.t) : t :=
  Build (numeric_features self) (categorical_features self) (text_features self)
    (date_features self) (features_specs self) (overwrite_stats self)
    (numeric_stats self) (categorical_stats self) (text_stats self) d
    (features_stats self).

Definition set_features_stats (self : t) (stats : pyval) : t :=
  Build (numeric_features self) (categorical_features self) (text_features self)
    (date_features self) (features_specs self) (overwrite_stats self)
    (numeric_stats self) (categorical_stats self) (text_stats self)
    (date_stats self) (Some stats).

(** [_process_batch] *)
Definition _process_batch {trig : Trig} (self : t) (batch : dict Tensor) : result t :=
  self ← for_each (λ self feature,
      acc ← dict_item (numeric_stats self) feature;
      column ← dict_item batch feature;
      values ← tf_cast_float32 column;
      Ok (set_numeric_stats self
            (dict_set (numeric_stats self) feature
               (WelfordAccumulator.update acc values))))
    (numeric_features self) self;
  self ← for_each (λ self feature,
      acc ← dict_item (categorical_stats self) feature;
      column ← dict_item batch feature;
      acc' ← CategoricalAccumulator.update acc column;
      Ok (set_categorical_stats self (dict_set (categorical_stats self) feature acc')))
    (categorical_features self) self;
  self ← for_each (λ self feature,
      acc ← dict_item (text_stats self) feature;
      column ← dict_item batch feature;
      acc' ← TextAccumulator.update acc column;
      Ok (set_text_stats self (dict_set (text_stats self) feature acc')))
    (text_features self) self;
  for_each (λ self feature,
      acc ← dict_item (date_stats self) feature;
      column ← dict_item batch feature;
      dates ← date_rows column;
      acc' ← DateAccumulator.update acc dates;
      Ok (set_date_stats self (dict_set (date_stats self) feature acc')))
    (date_features self) self.

(** The record of one numeric feature. *)
Definition numeric_record (self : t) (feature : string) : result pyval :=
  acc ← dict_item (numeric_stats self) feature;
  spec ← dict_item (features_specs self) feature;
  Ok (PyDict [ ("mean", NpFloating (WelfordAccumulator.mean acc));
               ("count", NpFloating (WelfordAccumulator.count acc));
               ("var", NpFloating (WelfordAccumulator.variance acc));
               ("dtype", TfDType (spec_dtype spec)) ]).

(** The record of one categorical feature; [list.sort] is a merge sort. *)
Definition categorical_record (self : t) (feature : string) : result pyval :=
  spec ← dict_item (features_specs self) feature;
  let _dtype := spec_dtype spec in
  acc ← dict_item (categorical_stats self) feature;
  if decide (_dtype = tf_int32) then
    unique_values ←
      list_comprehension py_int (CategoricalAccumulator.get_unique_values acc);
    let unique_values := merge_sort Z.le unique_values in
    Ok (PyDict [ ("size", PyInt (Z.of_nat (length unique_values)));
                 ("vocab", PyList (map PyInt unique_values));
                 ("dtype", TfDType _dtype) ])
  else
    let _unique_values := CategoricalAccumulator.get_unique_values acc in
    unique_values ← list_comprehension bytes_decode _unique_values;
    Ok (PyDict [ ("size", PyInt (Z.of_nat (length unique_values)));
                 ("vocab", PyList (map PyStr unique_values));
                 ("dtype", TfDType _dtype) ]).

(** The record of one text feature; the words stay byte strings. *)
Definition text_record (self : t) (feature : string) : result pyval :=
  acc ← dict_item (text_stats self) feature;
  let unique_words := TextAccumulator.get_unique_words acc in
  spec ← dict_item (features_specs self) feature;
  Ok (PyDict [ ("size", PyInt (Z.of_nat (length unique_words)));
               ("vocab", PyList (map PyBytes unique_words));
               ("dtype", TfDType (spec_dtype spec)) ]).

(** The record of one date feature: both loops store under
    ["mean_" + feat_name] what [.get("feat_name", 0)] returns. *)
Definition date_record (self : t) (feature : string) : result pyval :=
  let record : dict pyval := [] in
  acc ← dict_item (date_stats self) feature;
  let _means_data := DateAccumulator.mean acc in
  let record :=
    foldl (λ record feat_name,
             dict_set record ("mean_" +:+ feat_name)
               (dict_get_default _means_data "feat_name" (PyInt 0)))
      record (dict_keys _means_data) in
  let _vars_data := DateAccumulator.variance acc in
  let record :=
    foldl (λ record feat_name,
             dict_set record ("mean_" +:+ feat_name)
               (dict_get_default _vars_data "feat_name" (PyInt 0)))
      record (dict_keys _vars_data) in
  Ok (PyDict record).

(** One loop of [_compute_final_statistics]:
    [final_stats[category][feature] = record]. *)
Definition collect (record : string → result pyval) (features : list string)
  : result (dict pyval) :=
  for_each (λ stats feature, r ← record feature; Ok (dict_set stats feature r))
    features [].

(** [_compute_final_statistics] *)
Definition _compute_final_statistics (self : t) : result pyval :=
  numeric ← collect (numeric_record self) (numeric_features self);
  categorical ← collect (categorical_record self) (categorical_features self);
  text ← collect (text_record self) (text_features self);
  date ← collect (date_record self) (date_features self);
  Ok (PyDict [ ("numeric_stats", PyDict numeric);
               ("categorical_stats", PyDict categorical);
               ("text_stats", PyDict text);
               ("date_stats", PyDict date) ]).

(** [calculate_dataset_statistics]: the engine after the pass and the
    report it returns. *)
Definition calculate_dataset_statistics {trig : Trig} (self : t) (dataset : list (dict Tensor))
  : result (t * pyval) :=
  self ← for_each _process_batch dataset self;
  stats ← _compute_final_statistics self;
  Ok (set_features_stats self stats, stats).

(** [_save_stats]: the document written to the statistics file. *)
Definition _save_stats (self : t) : result json :=
  match features_stats self with
  | Some stats => json_dump stats
  | None => Raise (AttributeError "features_stats")
  end.

(** [feature_stats["dtype"] = tf.dtypes.as_dtype(feature_stats["dtype"])]
    when ["dtype" in feature_stats].  On a dict the test looks for the key;
    on a string it looks for the substring and on a list for an element
    equal to it, and then indexing with a string raises; a number cannot be
    searched. *)
Definition restore_dtype (feature_stats : pyval) : result pyval :=
  match feature_stats with
  | PyDict d =>
      match dict_get d "dtype" with
      | Some v => dt ← as_dtype v; Ok (PyDict (dict_set d "dtype" (TfDType dt)))
      | None => Ok feature_stats
      end
  | PyStr s =>
      if str_contains "dtype" s then
        Raise (TypeError "string indices must be integers")
      else Ok feature_stats
  | PyList l =>
      if existsb (py_eq (PyStr "dtype")) l then
        Raise (TypeError "list indices must be integers or slices, not str")
      else Ok feature_stats
  | _ => Raise (TypeError "argument is not iterable")
  end.

(** The two nested loops of [_load_stats] over the loaded document. *)
Definition restore_dtypes (features_stats : pyval) : result pyval :=
  match features_stats with
  | PyDict categories =>
      categories ← list_comprehension (λ kv : string * pyval,
          match kv.2 with
          | PyDict stats_type =>
              stats_type ← list_comprehension (λ fv : string * pyval,
                  feature_stats ← restore_dtype fv.2; Ok (fv.1, feature_stats))
                stats_type;
              Ok (kv.1, PyDict stats_type)
          | _ => Raise (AttributeError "items")
          end) categories;
      Ok (PyDict categories)
  | _ => Raise (AttributeError "values")
  end.

(** [_load_stats]; [file] is the document in the statistics file, if the
    file exists. *)
Definition _load_stats (self : t) (file : option json) : result (t * pyval) :=
  if overwrite_stats self then Ok (self, PyDict [])
  else
    match file with
    | Some document =>
        stats ← restore_dtypes (json_load document);
        Ok (set_features_stats self stats, stats)
    | None => Ok (set_features_stats self (PyDict []), PyDict [])
    end.

End DatasetStatistics.

(** ** Notions used to state the properties *)

(** The sum of the squares of a sequence. *)
Definition sum_squares (l : list Q) : Q := reduce_sum (map (λ v, v * v) l).

(** The accumulator holds the count, the mean and the sum of squared
    deviations from the mean of the sequence [l]; a quotient by the count of
    an empty sequence is [0 / 0 == 0]. *)
Definition summarizes (self : WelfordAccumulator.t) (l : list Q) : Prop :=
  WelfordAccumulator.n self == tf_size l
  ∧ WelfordAccumulator.mean self == reduce_sum l / tf_size l
  ∧ WelfordAccumulator.M2 self
    == sum_squares l - reduce_sum l * reduce_sum l / tf_size l
  ∧ WelfordAccumulator.var self == 0.

(** The token read so far, if it has a character. *)
Definition flush (cur : string) : list string :=
  if decide (cur = EmptyString) then [] else [cur].

(** Splitting a text on runs of whitespace, in one pass from left to right:
    [cur] is the token being read; a whitespace character ends it. *)
Fixpoint scan_tokens (cur : string) (s : string) : list string :=
  match s with
  | EmptyString => flush cur
  | String c s' =>
      if ascii_isspace c then flush cur ++ scan_tokens EmptyString s'
      else scan_tokens (cur +:+ String c EmptyString) s'
  end.

Definition split_whitespace (s : string) : list string := scan_tokens EmptyString s.

(** The words of a text as the specification describes them: split on runs
    of whitespace, each token in lower case. *)
Definition words_of_text (text : string) : list string :=
  map tf_strings_lower (split_whitespace text).

(** Every character of the string is whitespace. *)
Fixpoint all_whitespace (s : string) : bool :=
  match s with
  | EmptyString => true
  | String c s' => ascii_isspace c && all_whitespace s'
  end.

(** Polynomial stand-ins for the trigonometric functions, to run examples. *)
Definition polynomial_trig : Trig :=
  {| tf_sin := λ x, x - x * x * x / 6;
     tf_cos := λ x, 1 - x * x / 2 |}.

(** An engine that declares one feature of the given category. *)
Definition numeric_engine (feature : string) : DatasetStatistics.t :=
  DatasetStatistics.init [(feature, {| spec_dtype := tf_float32 |})]
    [feature] [] [] [] false.

Definition categorical_engine (feature : string) (d : DType) : DatasetStatistics.t :=
  DatasetStatistics.init [(feature, {| spec_dtype := d |})]
    [] [feature] [] [] false.

Definition text_engine (feature : string) : DatasetStatistics.t :=
  DatasetStatistics.init [(feature, {| spec_dtype := tf_string |})]
    [] [] [feature] [] false.

Definition date_engine (feature : string) : DatasetStatistics.t :=
  DatasetStatistics.init [] [] [] [] [feature] false.

(** A date accumulator after [year_accumulator.update] was called on it
    with the years 2020 and 2022. *)
Definition sample_date_accumulator : DateAccumulator.t :=
  {| DateAccumulator.year_accumulator :=
       WelfordAccumulator.update WelfordAccumulator.init [2020; 2022];
     DateAccumulator.month_sin_accumulator := WelfordAccumulator.init;
     DateAccumulator.month_cos_accumulator := WelfordAccumulator.init;
     DateAccumulator.day_of_week_sin_accumulator := WelfordAccumulator.init;
     DateAccumulator.day_of_week_cos_accumulator := WelfordAccumulator.init |}.

(** A dataset whose batches hold one column. *)
Definition column_dataset (feature : string) (columns : list Tensor)
  : list (dict Tensor) :=
  map (λ column, [(feature, column)]) columns.

(** [report[category][feature]] *)
Definition report_record (report : pyval) (category feature : string) : option pyval :=
  match report with
  | PyDict categories =>
      match dict_get categories category with
      | Some (PyDict records) => dict_get records feature
      | _ => None
      end
  | _ => None
  end.

(** [record[key]] *)
Definition record_field (record : pyval) (key : string) : option pyval :=
  match record with
  | PyDict fields => dict_get fields key
  | _ => None
  end.

(** The date record that the finalization produces. *)
Definition zero_date_record : pyval :=
  PyDict [ ("mean_year", PyInt 0); ("mean_month_sin", PyInt 0);
           ("mean_month_cos", PyInt 0); ("mean_day_of_week_sin", PyInt 0);
           ("mean_day_of_week_cos", PyInt 0) ].

(** The five subfields of a date feature. *)
Definition date_subfields : list string :=
  ["year"; "month_sin"; "month_cos"; "day_of_week_sin"; "day_of_week_cos"].

(** The four categories of a report. *)
Definition report_of (numeric categorical text date : dict pyval) : pyval :=
  PyDict [ ("numeric_stats", PyDict numeric);
           ("categorical_stats", PyDict categorical);
           ("text_stats", PyDict text);
           ("date_stats", PyDict date) ].

(** The record of a numeric feature. *)
Definition numeric_record_of (mean count var : Q) (d : DType) : pyval :=
  PyDict [ ("mean", NpFloating mean); ("count", NpFloating count);
           ("var", NpFloating var); ("dtype", TfDType d) ].

(** The record of a categorical or text feature. *)
Definition vocabulary_record (vocab : list pyval) (d : DType) : pyval :=
  PyDict [ ("size", PyInt (Z.of_nat (length vocab)));
           ("vocab", PyList vocab);
           ("dtype", TfDType d) ].

(** Persisting the report of an engine and loading it again. *)
Definition persist_then_load (self : DatasetStatistics.t) : result pyval :=
  document ← DatasetStatistics._save_stats self;
  loaded ← DatasetStatistics._load_stats self (Some document);
  Ok loaded.2.

(** ** Further notions *)

(** What one batch does to the numeric accumulator of the feature [f] when
    the batch is processed twice. *)
Definition fed_twice (f : string) (acc : WelfordAccumulator.t) (batch : dict Tensor)
  : result WelfordAccumulator.t :=
  column ← dict_item batch f;
  values ← tf_cast_float32 column;
  Ok (WelfordAccumulator.update (WelfordAccumulator.update acc values) values).

(** No character of the string is whitespace. *)
Fixpoint whitespace_free (s : string) : bool :=
  match s with
  | EmptyString => true
  | String c s' => negb (ascii_isspace c) && whitespace_free s'
  end.

(** The column is of a kind the categorical accumulator takes. *)
Definition categorical_kind (t : Tensor) : Prop :=
  dtype t = tf_string ∨ dtype t = tf_int32.

(** The features an engine declares, whatever their category. *)
Definition declared_features (self : DatasetStatistics.t) : list string :=
  DatasetStatistics.numeric_features self ++ DatasetStatistics.categorical_features self
  ++ DatasetStatistics.text_features self ++ DatasetStatistics.date_features self.

(** The two engines declare the same features with the same specifications. *)
Definition same_declarations (a b : DatasetStatistics.t) : Prop :=
  DatasetStatistics.numeric_features a = DatasetStatistics.numeric_features b
  ∧ DatasetStatistics.categorical_features a = DatasetStatistics.categorical_features b
  ∧ DatasetStatistics.text_features a = DatasetStatistics.text_features b
  ∧ DatasetStatistics.date_features a = DatasetStatistics.date_features b
  ∧ DatasetStatistics.features_specs a = DatasetStatistics.features_specs b.

(** Dumping one record as [_save_stats] dumps the report and restoring its
    dtype as [_load_stats] does gives [r']. *)
Definition record_restored (r r' : pyval) : Prop :=
  ∃ document, json_dump r = Ok document
              ∧ DatasetStatistics.restore_dtype (json_load document) = Ok r'.

(** The records of numeric, categorical and date features. *)
Definition plain_record (r : pyval) : Prop :=
  (∃ mean count var d, r = numeric_record_of mean count var d)
  ∨ (∃ vocab d, r = vocabulary_record (map PyInt vocab) d)
  ∨ (∃ vocab d, r = vocabulary_record (map PyStr vocab) d)
  ∨ r = zero_date_record.

(** The records that hold no float: those of categorical and date features,
    and of text features without a word. *)
Definition float_free_record (r : pyval) : Prop :=
  (∃ vocab d, r = vocabulary_record (map PyInt vocab) d)
  ∨ (∃ vocab d, r = vocabulary_record (map PyStr vocab) d)
  ∨ r = zero_date_record.

(** The records of a finalized report: the plain ones and that of a text
    feature, whose words are byte strings. *)
Definition finalized_record (r : pyval) : Prop :=
  plain_record r ∨ ∃ words d, r = vocabulary_record (map PyBytes words) d.

(** A report value as it is once saved and loaded: a NumPy scalar is the
    Python number of the same value, a byte string the text of its [repr],
    an array a list; a dtype stays a dtype, which is so for the ones under
    the key [dtype] of a record, where [_load_stats] restores them. *)
Fixpoint python_view (v : pyval) : pyval :=
  match v with
  | NpInteger z => PyInt z
  | NpFloating q => PyFloat q
  | PyBytes b => PyStr (bytes_repr b)
  | NpArray l => PyList l
  | PyList l => PyList (map python_view l)
  | PyDict d => PyDict (map (λ kv, (kv.1, python_view kv.2)) d)
  | _ => v
  end.

(** The entries of two dicts, paired in order. *)
Definition paired_values (d' d : dict pyval) : list (pyval * pyval) :=
  zip (map snd d') (map snd d).

(** The column of a feature in each batch of a dataset. *)
Definition feature_columns (feature : string) (dataset : list (dict Tensor))
  : result (list Tensor) :=
  list_comprehension (λ batch, dict_item batch feature) dataset.

(** An engine with a numeric, two categorical and a text feature, two
    batches for it, and what the pass over them returns. *)
Definition sample_engine : DatasetStatistics.t :=
  DatasetStatistics.init
    [ ("age", {| spec_dtype := tf_float32 |}); ("code", {| spec_dtype := tf_int32 |});
      ("city", {| spec_dtype := tf_string |}); ("title", {| spec_dtype := tf_string |}) ]
    ["age"] ["code"; "city"] ["title"] [] false.

Definition sample_dataset : list (dict Tensor) :=
  [ [ ("age", Float32Tensor [1; 2; 3]); ("code", Int32Tensor [3; 1]%Z);
      ("city", StringTensor ["Rome"; "Oslo"]); ("title", StringTensor ["The Quick"]) ];
    [ ("age", Float32Tensor [4; 5]); ("code", Int32Tensor [1; 2]%Z);
      ("city", StringTensor ["Rome"; "Bonn"]); ("title", StringTensor ["quick fox"]) ] ].

Definition sample_pass : DatasetStatistics.t * pyval :=
  Eval vm_compute in
    match DatasetStatistics.calculate_dataset_statistics (trig := polynomial_trig)
            sample_engine sample_dataset with
    | Ok pass => pass
    | Raise _ => (sample_engine, PyDict [])
    end.

(** What a pass over the first batch alone returns. *)
Definition sample_first_pass : DatasetStatistics.t * pyval :=
  Eval vm_compute in
    match DatasetStatistics.calculate_dataset_statistics (trig := polynomial_trig)
            sample_engine (take 1 sample_dataset) with
    | Ok pass => pass
    | Raise _ => (sample_engine, PyDict [])
    end.

(** * Properties *)

(** ** The Welford accumulator *)

Section welford.
Import WelfordAccumulator.

Lemma tf_size_cons v l : tf_size (v :: l) == 1 + tf_size l.
Proof.
  unfold tf_size. cbn [length]. rewrite Nat2Z.inj_succ, <- Z.add_1_l.
  by rewrite inject_Z_plus.
Qed.

Lemma tf_size_nonneg l : 0 <= tf_size l.
Proof.
  unfold tf_size. change 0 with (inject_Z 0). rewrite <- Zle_Qle. lia.
Qed.

Lemma tf_size_app l1 l2 : tf_size (l1 ++ l2) == tf_size l1 + tf_size l2.
Proof.
  unfold tf_size. by rewrite length_app, Nat2Z.inj_add, inject_Z_plus.
Qed.

Lemma reduce_sum_cons v l : reduce_sum (v :: l) = v + reduce_sum l.
Proof. reflexivity. Qed.

Lemma reduce_sum_app l1 l2 :
  reduce_sum (l1 ++ l2) == reduce_sum l1 + reduce_sum l2.
Proof.
  induction l1 as [|v l1 IH].
  - change (reduce_sum l2 == 0 + reduce_sum l2). ring.
  - rewrite <- app_comm_cons, !reduce_sum_cons, IH. ring.
Qed.

Lemma sum_squares_app l1 l2 :
  sum_squares (l1 ++ l2) == sum_squares l1 + sum_squares l2.
Proof. unfold sum_squares. by rewrite map_app, reduce_sum_app. Qed.

Lemma sum_mean_terms μ k b :
  reduce_sum (map (λ d, d / k) (map (λ v, v - μ) b))
  == (reduce_sum b - tf_size b * μ) / k.
Proof.
  induction b as [|v b IH].
  - change (0 == (0 - 0 * μ) / k). unfold Qdiv. ring.
  - rewrite !map_cons, !reduce_sum_cons, IH, tf_size_cons. unfold Qdiv. ring.
Qed.

Lemma sum_M2_terms μ μ' b :
  reduce_sum (zip_with (λ d v, d * (v - μ')) (map (λ v, v - μ) b) b)
  == sum_squares b - (μ + μ') * reduce_sum b + tf_size b * μ * μ'.
Proof.
  induction b as [|v b IH].
  - change (0 == 0 - (μ + μ') * 0 + 0 * μ * μ'). ring.
  - unfold sum_squares in *. rewrite !map_cons. cbn [zip_with].
    rewrite !reduce_sum_cons, IH, tf_size_cons. ring.
Qed.

Lemma summarizes_init : summarizes init [].
Proof. split; [|split; [|split]]; reflexivity. Qed.

Lemma update_nil self : equiv (update self []) self.
Proof.
  unfold equiv, update; cbn [n mean M2 var map zip_with].
  change (reduce_sum []) with 0. change (tf_size []) with 0.
  split; [|split; [|split]]; ring.
Qed.

Lemma summarizes_equiv a b l : equiv a b → summarizes b l → summarizes a l.
Proof.
  intros (Hn & Hmean & HM2 & Hvar) (Hn' & Hmean' & HM2' & Hvar').
  split; [|split; [|split]]; etrans; eauto.
Qed.

Lemma summarizes_update self l b :
  summarizes self l → summarizes (update self b) (l ++ b).
Proof.
  intros Hself.
  destruct b as [|v b].
  { rewrite app_nil_r. eapply summarizes_equiv; [apply update_nil | done]. }
  destruct Hself as (Hn & Hmean & HM2 & Hvar).
  set (b' := v :: b) in *.
  assert (Hpos : 0 < tf_size b').
  { pose proof (tf_size_nonneg b). unfold b'. rewrite tf_size_cons. lra. }
  unfold summarizes, update; cbn [n mean M2 var].
  rewrite sum_M2_terms, sum_mean_terms, tf_size_app, reduce_sum_app, sum_squares_app.
  destruct l as [|w l].
  - change (mean self == 0) in Hmean. change (M2 self == 0) in HM2.
    change (n self == 0) in Hn.
    change (tf_size []) with 0. change (reduce_sum []) with 0.
    change (sum_squares []) with 0.
    rewrite Hn, HM2, Hmean.
    split; [|split; [|split]]; [ring | field; lra | field; lra | done].
  - assert (0 < tf_size (w :: l)).
    { pose proof (tf_size_nonneg l). rewrite tf_size_cons. lra. }
    rewrite Hn, HM2, Hmean.
    split; [|split; [|split]]; [ring | field; lra | field; lra | done].
Qed.

Lemma summarizes_foldl batches self l :
  summarizes self l → summarizes (foldl update self batches) (l ++ concat batches).
Proof.
  revert self l. induction batches as [|b batches IH]; intros self l Hself; cbn.
  - by rewrite app_nil_r.
  - rewrite app_assoc. by apply IH, summarizes_update.
Qed.

Lemma summarizes_unique a b l : summarizes a l → summarizes b l → equiv a b.
Proof.
  intros (Hn & Hmean & HM2 & Hvar) (Hn' & Hmean' & HM2' & Hvar').
  split; [|split; [|split]]; etrans; eauto; by symmetry.
Qed.

Lemma variance_equiv a b : equiv a b → variance a == variance b.
Proof.
  intros (Hn & Hmean & HM2 & Hvar). unfold variance.
  destruct (Qlt_le_dec 1 (n a)), (Qlt_le_dec 1 (n b)); try lra.
  by rewrite Hn, HM2.
Qed.

(** Over the rationals, feeding a sequence to a fresh accumulator as one
    batch, or as any split of it into consecutive batches, gives the same
    mean, the same variance and the same count: the update is the exact
    algorithm, and what separates the two ways in the code is rounding. *)
Lemma welford_exact_one_batch_or_many (batches : list (list Q)) :
  let one := update init (concat batches) in
  let many := foldl update init batches in
  mean one == mean many ∧ variance one == variance many ∧ count one == count many.
Proof.
  intros one many.
  assert (equiv one many) as Heq.
  { apply (summarizes_unique _ _ (concat batches)).
    - apply (summarizes_update init [] (concat batches)), summarizes_init.
    - apply (summarizes_foldl batches init []), summarizes_init. }
  split; [apply Heq | split; [by apply variance_equiv | apply Heq]].
Qed.

End welford.

(** C1 (what the code does where the claim fails).  In binary32, as the code
    computes, one batch and a split of it give different statistics,
    whichever way [tf.reduce_sum] adds.  The values 16777216 and 16777218
    (sample variance 2) give mean 16777216 and variance 33554436 as one
    batch, and variance 4 one at a time.  The three floats nearest 100000.1,
    100000.2 and 100000.3 give a negative variance as one batch and a
    positive one when fed one at a time. *)
Theorem welford_float32_batching (order : WelfordAccumulator32.sum_order) :
  let near_2_24 := map WelfordAccumulator32.of_Z [16777216; 16777218]%Z in
  let near_1e5 :=
    map (λ z, WelfordAccumulator32.div (WelfordAccumulator32.of_Z z)
                (WelfordAccumulator32.of_Z 10))
      [1000001; 1000002; 1000003]%Z in
  let one_batch values :=
    WelfordAccumulator32.update order WelfordAccumulator32.init values in
  let one_by_one values :=
    foldl (WelfordAccumulator32.update order) WelfordAccumulator32.init
      (map (λ v, [v]) values) in
  WelfordAccumulator32.mean (one_batch near_2_24)
  = WelfordAccumulator32.of_Z 16777216
  ∧ WelfordAccumulator32.variance (one_batch near_2_24)
    = WelfordAccumulator32.of_Z 33554436
  ∧ WelfordAccumulator32.variance (one_by_one near_2_24)
    = WelfordAccumulator32.of_Z 4
  ∧ SFltb (WelfordAccumulator32.variance (one_batch near_1e5))
      WelfordAccumulator32.zero = true
  ∧ SFltb WelfordAccumulator32.zero
      (WelfordAccumulator32.variance (one_by_one near_1e5)) = true.
Proof. by destruct order; vm_compute. Qed.

(** ** First-occurrence deduplication *)

Section unique.
Context `{EqDecision A}.
Implicit Types (l seen : list A) (x : A).

Lemma elem_of_unique_from seen l x :
  x ∈ unique_from seen l ↔ x ∈ l ∧ x ∉ seen.
Proof.
  revert seen. induction l as [|y l IH]; intros seen; cbn.
  - rewrite !elem_of_nil. tauto.
  - case_decide as Hy.
    + rewrite IH, elem_of_cons. split; [tauto|].
      intros [[->|?] ?]; [done | tauto].
    + rewrite !elem_of_cons, IH, elem_of_cons. split.
      * intros [->|[? ?]]; tauto.
      * intros [[->|?] ?]; [by left|].
        destruct (decide (x = y)); [by left | right; tauto].
Qed.

Lemma NoDup_unique_from seen l : NoDup (unique_from seen l).
Proof.
  revert seen. induction l as [|y l IH]; intros seen; cbn.
  - constructor.
  - case_decide; [done|]. constructor; [|done].
    rewrite elem_of_unique_from, elem_of_cons. tauto.
Qed.

Lemma elem_of_tf_unique l x : x ∈ tf_unique l ↔ x ∈ l.
Proof.
  unfold tf_unique. rewrite elem_of_unique_from, elem_of_nil. tauto.
Qed.

Lemma NoDup_tf_unique l : NoDup (tf_unique l).
Proof. apply NoDup_unique_from. Qed.

End unique.

Lemma tf_unique_set `{Countable A} (l : list A) :
  list_to_set (tf_unique l) =@{gset A} list_to_set l.
Proof. apply set_eq. intros x. by rewrite !elem_of_list_to_set, elem_of_tf_unique. Qed.

(** ** Tokenization *)

Lemma re2_space_isspace c : re2_space c = true → ascii_isspace c = true.
Proof.
  unfold re2_space, ascii_isspace. rewrite !orb_true_iff. tauto.
Qed.

Lemma at_token_end_collapse s :
  at_token_end (collapse_runs false s) = at_token_end s.
Proof.
  destruct s as [|c s]; [done|]. cbn.
  destruct (re2_space c) eqn:Hc; [|done].
  cbn. symmetry. by apply re2_space_isspace.
Qed.

Lemma split_collapse in_run s :
  tf_strings_split (collapse_runs in_run s) = tf_strings_split s.
Proof.
  revert in_run. induction s as [|c s IH]; intros in_run; [done|].
  cbn [collapse_runs tf_strings_split].
  destruct (re2_space c) eqn:Hc.
  - rewrite (re2_space_isspace c Hc). destruct in_run; [apply IH|].
    cbn [tf_strings_split]. change (ascii_isspace " ") with true. apply IH.
  - cbn [tf_strings_split]. rewrite at_token_end_collapse, IH. done.
Qed.

Lemma split_regex_replace s :
  tf_strings_split (regex_replace_spaces s) = tf_strings_split s.
Proof. apply split_collapse. Qed.

Lemma append_snoc cur c w :
  (cur +:+ String c EmptyString) +:+ w = cur +:+ String c w.
Proof.
  unfold String.app. induction cur as [|d cur IH]; [done|].
  cbn [append]. by rewrite IH.
Qed.

Lemma snoc_nonempty cur c : cur +:+ String c EmptyString ≠ EmptyString.
Proof. by destruct cur. Qed.

Lemma scan_tokens_split cur s :
  scan_tokens cur s =
    if decide (cur = EmptyString) then tf_strings_split s
    else if at_token_end s then cur :: tf_strings_split s
    else match tf_strings_split s with
         | w :: ws => (cur +:+ w) :: ws
         | [] => [cur]
         end.
Proof.
  revert cur. induction s as [|c s IH]; intros cur.
  - cbn. unfold flush. by case_decide.
  - cbn [scan_tokens tf_strings_split at_token_end].
    destruct (ascii_isspace c) eqn:Hc.
    + rewrite IH, decide_True by done. unfold flush. by case_decide.
    + rewrite IH, decide_False by apply snoc_nonempty.
      destruct (at_token_end s) eqn:Hend.
      * case_decide as Hcur; [by subst|done].
      * case_decide as Hcur.
        { subst. cbn. by destruct (tf_strings_split s). }
        destruct (tf_strings_split s) as [|w ws]; cbn; [done|].
        by rewrite append_snoc.
Qed.

Lemma split_whitespace_split s : split_whitespace s = tf_strings_split s.
Proof. unfold split_whitespace. by rewrite scan_tokens_split. Qed.

Lemma split_all_whitespace s : all_whitespace s = true → tf_strings_split s = [].
Proof.
  induction s as [|c s IH]; [done|]. cbn. intros [Hc Hs]%andb_true_iff.
  rewrite Hc. auto.
Qed.

(** ** Decimal numerals *)

Lemma py_int_as_string z : py_int (tf_strings_as_string z) = Ok z.
Proof.
  unfold py_int, tf_strings_as_string. rewrite NilZero.isi.
  - by rewrite DecimalZ.of_to.
  - destruct z; cbn; [done| |done].
    intros [= E]. by apply DecimalPos.Unsigned.to_uint_nonnil in E.
  - destruct z; cbn; [done|done|].
    intros [= E]. by apply DecimalPos.Unsigned.to_uint_nonnil in E.
Qed.

Global Instance tf_strings_as_string_inj : Inj (=) (=) tf_strings_as_string.
Proof.
  intros x y E. assert (Ok x = Ok y) as [= ->]; [|done].
  by rewrite <- !py_int_as_string, E.
Qed.

Lemma list_comprehension_py_int l :
  list_comprehension py_int (map tf_strings_as_string l) = Ok l.
Proof.
  induction l as [|z l IH]; [done|]. cbn [map list_comprehension].
  rewrite py_int_as_string, IH. done.
Qed.

Lemma unique_from_map `{EqDecision A, EqDecision B} (f : A → B) `{!Inj (=) (=) f}
    (seen l : list A) :
  unique_from (map f seen) (map f l) = map f (unique_from seen l).
Proof.
  revert seen. induction l as [|x l IH]; intros seen; [done|].
  cbn [map unique_from].
  destruct (decide (x ∈ seen)) as [Hx|Hx].
  - rewrite decide_True by (by apply list_elem_of_fmap_2). apply IH.
  - rewrite decide_False.
    + cbn [map]. f_equal. apply (IH (x :: seen)).
    + intros (y & E & Hy)%list_elem_of_fmap. by apply (inj f) in E as ->.
Qed.

Lemma tf_unique_map `{EqDecision A, EqDecision B} (f : A → B) `{!Inj (=) (=) f}
    (l : list A) :
  tf_unique (map f l) = map f (tf_unique l).
Proof. apply (unique_from_map f []). Qed.

Lemma unique_from_NoDup `{EqDecision A} (seen l : list A) :
  NoDup l → (∀ x, x ∈ l → x ∉ seen) → unique_from seen l = l.
Proof.
  intros Hl. revert seen. induction Hl as [|x l Hx Hl IH]; intros seen Hseen; [done|].
  cbn. rewrite decide_False by (apply Hseen; left). f_equal. apply IH.
  intros y Hy [->|Hin]%elem_of_cons; [done|]. by apply (Hseen y); [right|].
Qed.

Lemma tf_unique_NoDup `{EqDecision A} (l : list A) : NoDup l → tf_unique l = l.
Proof. intros Hl. apply unique_from_NoDup; [done|]. intros x _. apply not_elem_of_nil. Qed.

Lemma unique_from_ext `{EqDecision A} (seen seen' l : list A) :
  (∀ x, x ∈ seen ↔ x ∈ seen') → unique_from seen l = unique_from seen' l.
Proof.
  revert seen seen'. induction l as [|x l IH]; intros seen seen' Hseen; [done|].
  cbn. destruct (decide (x ∈ seen)) as [Hx|Hx].
  - rewrite decide_True by (by apply Hseen). by apply IH.
  - rewrite decide_False by (by rewrite <- Hseen). f_equal. apply IH.
    intros y. rewrite !elem_of_cons, Hseen. done.
Qed.

Lemma unique_from_app `{EqDecision A} (seen l1 l2 : list A) :
  unique_from seen (l1 ++ l2)
  = unique_from seen l1 ++ unique_from (l1 ++ seen) l2.
Proof.
  revert seen. induction l1 as [|x l1 IH]; intros seen; [done|].
  cbn. destruct (decide (x ∈ seen)) as [Hx|Hx].
  - rewrite IH. f_equal. apply unique_from_ext. intros y.
    rewrite elem_of_cons, !elem_of_app. split; [tauto|].
    intros [->|?]; tauto.
  - rewrite IH. cbn. do 2 f_equal. apply unique_from_ext. intros y.
    rewrite !elem_of_cons, !elem_of_app, elem_of_cons. tauto.
Qed.

(** Deduplicating batch after batch is deduplicating the whole stream. *)
Lemma tf_unique_merge `{EqDecision A} (l m : list A) :
  tf_unique (tf_unique l ++ m) = tf_unique (l ++ m).
Proof.
  unfold tf_unique. rewrite !unique_from_app.
  fold (tf_unique l). fold (tf_unique (tf_unique l)).
  rewrite (tf_unique_NoDup (tf_unique l)) by apply NoDup_tf_unique.
  f_equal. apply unique_from_ext. intros x.
  by rewrite !elem_of_app, elem_of_tf_unique.
Qed.

(** ** The categorical and text accumulators *)

Lemma text_words_batch (texts : list string) :
  map tf_strings_lower (flat_map tf_strings_split (map regex_replace_spaces texts))
  = flat_map words_of_text texts.
Proof.
  induction texts as [|text texts IH]; [done|].
  cbn [map flat_map]. rewrite map_app, IH. f_equal.
  unfold words_of_text. by rewrite split_regex_replace, split_whitespace_split.
Qed.

Lemma categorical_update_int32 (self : CategoricalAccumulator.t) (v : list Z) :
  CategoricalAccumulator.update self (Int32Tensor v)
  = Ok {| CategoricalAccumulator.values := CategoricalAccumulator.values self;
          CategoricalAccumulator.int_values :=
            tf_unique (CategoricalAccumulator.int_values self ++ v) |}.
Proof. reflexivity. Qed.

Lemma categorical_update_string (self : CategoricalAccumulator.t) (v : list string) :
  CategoricalAccumulator.update self (StringTensor v)
  = Ok {| CategoricalAccumulator.values :=
            tf_unique (CategoricalAccumulator.values self ++ v);
          CategoricalAccumulator.int_values := CategoricalAccumulator.int_values self |}.
Proof. reflexivity. Qed.

Lemma text_update_string (self : TextAccumulator.t) (texts : list string) :
  TextAccumulator.update self (StringTensor texts)
  = Ok {| TextAccumulator.words :=
            tf_unique (TextAccumulator.words self ++ flat_map words_of_text texts) |}.
Proof.
  unfold TextAccumulator.update. cbn [dtype string_values].
  rewrite decide_False by (intros E; by apply E). by rewrite text_words_batch.
Qed.

Lemma categorical_int_stream (batches : list (list Z)) (vs : list string) (ints : list Z) :
  NoDup ints →
  for_each CategoricalAccumulator.update (map Int32Tensor batches)
    (CategoricalAccumulator.Build vs ints)
  = Ok (CategoricalAccumulator.Build vs (tf_unique (ints ++ concat batches))).
Proof.
  revert ints. induction batches as [|b batches IH]; intros ints Hints.
  - cbn. by rewrite app_nil_r, tf_unique_NoDup.
  - cbn [map for_each concat]. rewrite categorical_update_int32.
    cbn [mbind result_bind CategoricalAccumulator.values
         CategoricalAccumulator.int_values].
    rewrite IH by apply NoDup_tf_unique.
    by rewrite tf_unique_merge, app_assoc.
Qed.

Lemma text_stream (batches : list (list string)) (ws : list string) :
  NoDup ws →
  for_each TextAccumulator.update (map StringTensor batches) (TextAccumulator.Build ws)
  = Ok (TextAccumulator.Build
          (tf_unique (ws ++ flat_map words_of_text (concat batches)))).
Proof.
  revert ws. induction batches as [|b batches IH]; intros ws Hws.
  - cbn. by rewrite app_nil_r, tf_unique_NoDup.
  - cbn [map for_each concat]. rewrite text_update_string.
    cbn [mbind result_bind TextAccumulator.words].
    rewrite IH by apply NoDup_tf_unique.
    by rewrite tf_unique_merge, flat_map_app, app_assoc.
Qed.

(** ** The engine on a single feature *)

Lemma dict_get_head {V : Type} (k : string) (v : V) (d : dict V) :
  dict_get ((k, v) :: d) k = Some v.
Proof. cbn. by rewrite decide_True. Qed.

Lemma dict_item_head {V : Type} (k : string) (v : V) (d : dict V) :
  dict_item ((k, v) :: d) k = Ok v.
Proof. unfold dict_item. by rewrite dict_get_head. Qed.

Lemma dict_set_head {V : Type} (k : string) (v v' : V) (d : dict V) :
  dict_set ((k, v) :: d) k v' = (k, v') :: d.
Proof. cbn. by rewrite decide_True. Qed.

(** One batch through an engine that declares one feature. *)
Ltac one_batch Hcol :=
  unfold DatasetStatistics._process_batch at 1; cbn;
  rewrite !dict_item_head; cbn; rewrite ?Hcol; cbn;
  rewrite decide_True by done.

Lemma get_unique_values_int ints :
  NoDup ints →
  CategoricalAccumulator.get_unique_values (CategoricalAccumulator.Build [] ints)
  = map tf_strings_as_string ints.
Proof.
  intros Hints. unfold CategoricalAccumulator.get_unique_values. cbn [app
    CategoricalAccumulator.values CategoricalAccumulator.int_values].
  rewrite tf_unique_map by apply _. by rewrite tf_unique_NoDup.
Qed.

Section single_feature.
Context {trig : Trig}.
Import DatasetStatistics.
Local Arguments CategoricalAccumulator.get_unique_values : simpl never.

Lemma process_numeric f cols acc :
  for_each _process_batch (column_dataset f (map Float32Tensor cols))
    (set_numeric_stats (numeric_engine f) [(f, acc)])
  = Ok (set_numeric_stats (numeric_engine f)
          [(f, foldl WelfordAccumulator.update acc cols)]).
Proof.
  revert acc. induction cols as [|col cols IH]; intros acc; [done|].
  cbn [for_each column_dataset map foldl]. one_batch I. apply IH.
Qed.

Lemma process_categorical f d cols acc acc' :
  for_each CategoricalAccumulator.update cols acc = Ok acc' →
  for_each _process_batch (column_dataset f cols)
    (set_categorical_stats (categorical_engine f d) [(f, acc)])
  = Ok (set_categorical_stats (categorical_engine f d) [(f, acc')]).
Proof.
  revert acc. induction cols as [|col cols IH]; intros acc Hcols.
  - cbn in *. by simplify_eq.
  - cbn [for_each column_dataset map] in *.
    destruct (CategoricalAccumulator.update acc col) as [acc1|e] eqn:Hcol; [|done].
    cbn [mbind result_bind] in Hcols. one_batch Hcol. by apply IH.
Qed.

Lemma process_text f cols acc acc' :
  for_each TextAccumulator.update cols acc = Ok acc' →
  for_each _process_batch (column_dataset f cols)
    (set_text_stats (text_engine f) [(f, acc)])
  = Ok (set_text_stats (text_engine f) [(f, acc')]).
Proof.
  revert acc. induction cols as [|col cols IH]; intros acc Hcols.
  - cbn in *. by simplify_eq.
  - cbn [for_each column_dataset map] in *.
    destruct (TextAccumulator.update acc col) as [acc1|e] eqn:Hcol; [|done].
    cbn [mbind result_bind] in Hcols. one_batch Hcol. by apply IH.
Qed.

Lemma final_numeric f acc :
  _compute_final_statistics (set_numeric_stats (numeric_engine f) [(f, acc)])
  = Ok (report_of
          [(f, numeric_record_of (WelfordAccumulator.mean acc)
                 (WelfordAccumulator.count acc) (WelfordAccumulator.variance acc)
                 tf_float32)] [] [] []).
Proof.
  unfold _compute_final_statistics, collect, numeric_record. cbn.
  rewrite !dict_item_head. done.
Qed.

Lemma final_categorical_int f ints :
  NoDup ints →
  _compute_final_statistics
    (set_categorical_stats (categorical_engine f tf_int32)
       [(f, CategoricalAccumulator.Build [] ints)])
  = Ok (report_of []
          [(f, vocabulary_record (map PyInt (merge_sort Z.le ints)) tf_int32)] [] []).
Proof.
  intros Hints.
  unfold _compute_final_statistics, collect, categorical_record. cbn.
  rewrite !dict_item_head. cbn.
  rewrite get_unique_values_int, list_comprehension_py_int by done. cbn.
  unfold report_of, vocabulary_record. by rewrite length_map.
Qed.

Lemma final_text f ws :
  _compute_final_statistics (set_text_stats (text_engine f) [(f, TextAccumulator.Build ws)])
  = Ok (report_of [] [] [(f, vocabulary_record (map PyBytes ws) tf_string)] []).
Proof.
  unfold _compute_final_statistics, collect, text_record. cbn.
  rewrite !dict_item_head. cbn.
  unfold report_of, vocabulary_record. by rewrite length_map.
Qed.

Lemma final_date f acc :
  _compute_final_statistics (set_date_stats (date_engine f) [(f, acc)])
  = Ok (report_of [] [] [] [(f, zero_date_record)]).
Proof.
  unfold _compute_final_statistics, collect, date_record. cbn.
  rewrite !dict_item_head. done.
Qed.
End single_feature.

(** ** Properties of the accumulators *)

#[local] Arguments tf_unique : simpl never.

(** Decide the dtype tests of an update on a tensor of known kind. *)
Ltac dtype_tests :=
  cbn [dtype];
  repeat first
    [ rewrite decide_True by done
    | rewrite decide_False by done
    | rewrite decide_False by (intros E; by apply E) ];
  cbn.

(** C2.  A fresh accumulator fed [1, 2, 3] and then [4, 5] reports mean 3,
    count 5 and the sample variance 5/2: over the rationals, where the
    engine puts these three values in the record of the numeric feature,
    and exactly so in binary32, whichever way the sums are added. *)
Theorem welford_scenario (trig : Trig) (f : string)
    (order : WelfordAccumulator32.sum_order) :
  let acc :=
    WelfordAccumulator.update
      (WelfordAccumulator.update WelfordAccumulator.init [1; 2; 3]) [4; 5] in
  let acc32 :=
    WelfordAccumulator32.update order
      (WelfordAccumulator32.update order WelfordAccumulator32.init
         (map WelfordAccumulator32.of_Z [1; 2; 3]%Z))
      (map WelfordAccumulator32.of_Z [4; 5]%Z) in
  WelfordAccumulator.mean acc == 3
  ∧ WelfordAccumulator.count acc == 5
  ∧ WelfordAccumulator.variance acc == 5 # 2
  ∧ (∃ self',
      DatasetStatistics.calculate_dataset_statistics (numeric_engine f)
        (column_dataset f [Float32Tensor [1; 2; 3]; Float32Tensor [4; 5]])
      = Ok (self',
            report_of
              [(f, numeric_record_of (WelfordAccumulator.mean acc)
                     (WelfordAccumulator.count acc)
                     (WelfordAccumulator.variance acc) tf_float32)] [] [] []))
  ∧ WelfordAccumulator32.mean acc32 = WelfordAccumulator32.of_Z 3
  ∧ WelfordAccumulator32.count acc32 = WelfordAccumulator32.of_Z 5
  ∧ WelfordAccumulator32.variance acc32
    = WelfordAccumulator32.div (WelfordAccumulator32.of_Z 5) (WelfordAccumulator32.of_Z 2).
Proof.
  intros acc acc32.
  split; [|split; [|split; [|split]]]; [by vm_compute..| |].
  - unfold DatasetStatistics.calculate_dataset_statistics.
    rewrite (process_numeric f [[1; 2; 3]; [4; 5]] WelfordAccumulator.init).
    cbn [mbind result_bind]. rewrite final_numeric. cbn [mbind result_bind].
    eexists. reflexivity.
  - subst acc32. by destruct order; vm_compute.
Qed.

(** C8.  Finalizing before any batch reports count 0 and variance 0, at the
    accumulator and in the report of the engine; an empty batch leaves the
    count, the mean and the sum of squared deviations of any accumulator
    as they were.  No quotient is formed for an empty batch, and float
    division raises nothing: in binary32 an empty batch fed to a fresh
    accumulator, whose count is 0, gives the fresh accumulator back. *)
Theorem welford_empty (trig : Trig) (f : string) (self : WelfordAccumulator.t)
    (order : WelfordAccumulator32.sum_order) :
  WelfordAccumulator.count WelfordAccumulator.init == 0
  ∧ WelfordAccumulator.variance WelfordAccumulator.init == 0
  ∧ (∃ self',
       DatasetStatistics.calculate_dataset_statistics (numeric_engine f) []
       = Ok (self', report_of [(f, numeric_record_of 0 0 0 tf_float32)] [] [] []))
  ∧ WelfordAccumulator.equiv (WelfordAccumulator.update self []) self
  ∧ WelfordAccumulator32.update order WelfordAccumulator32.init []
    = WelfordAccumulator32.init
  ∧ WelfordAccumulator32.variance WelfordAccumulator32.init = WelfordAccumulator32.zero.
Proof.
  split; [|split; [|split; [|split; [|split]]]];
    [done | done | | apply update_nil | by destruct order | done].
  unfold DatasetStatistics.calculate_dataset_statistics.
  cbn [for_each mbind result_bind].
  change (numeric_engine f) with
    (DatasetStatistics.set_numeric_stats (numeric_engine f)
       [(f, WelfordAccumulator.init)]).
  rewrite final_numeric. cbn [mbind result_bind].
  eexists. reflexivity.
Qed.

(** C9.  No update makes an accumulator smaller: the count of a Welford
    accumulator does not decrease, and every value held by a categorical or
    text accumulator is still held after an update, whether the update
    succeeds or raises. *)
Theorem accumulators_never_shrink
    (w : WelfordAccumulator.t) (values : list Q)
    (c : CategoricalAccumulator.t) (x : TextAccumulator.t) (t : Tensor) :
  let c' := commit c (CategoricalAccumulator.update c t) in
  let x' := commit x (TextAccumulator.update x t) in
  WelfordAccumulator.count w <= WelfordAccumulator.count (WelfordAccumulator.update w values)
  ∧ list_to_set (CategoricalAccumulator.values c)
      ⊆@{gset string} list_to_set (CategoricalAccumulator.values c')
  ∧ list_to_set (CategoricalAccumulator.int_values c)
      ⊆@{gset Z} list_to_set (CategoricalAccumulator.int_values c')
  ∧ list_to_set (CategoricalAccumulator.get_unique_values c)
      ⊆@{gset string} list_to_set (CategoricalAccumulator.get_unique_values c')
  ∧ list_to_set (TextAccumulator.get_unique_words x)
      ⊆@{gset string} list_to_set (TextAccumulator.get_unique_words x').
Proof.
  intros c' x'. subst c' x'.
  unfold CategoricalAccumulator.update, TextAccumulator.update.
  split; [|split; [|split; [|split]]].
  - unfold WelfordAccumulator.count, WelfordAccumulator.update. cbn.
    pose proof (tf_size_nonneg values). lra.
  - intros s. rewrite !elem_of_list_to_set.
    destruct t; dtype_tests; try done. rewrite elem_of_tf_unique, elem_of_app. tauto.
  - intros z. rewrite !elem_of_list_to_set.
    destruct t; dtype_tests; try done. rewrite elem_of_tf_unique, elem_of_app. tauto.
  - intros s. rewrite !elem_of_list_to_set.
    unfold CategoricalAccumulator.get_unique_values.
    rewrite !elem_of_tf_unique, !elem_of_app, !list_elem_of_fmap.
    destruct t; dtype_tests; try done.
    + rewrite elem_of_tf_unique, elem_of_app. tauto.
    + intros [?|(z & -> & Hz)]; [tauto|]. right. exists z. split; [done|].
      rewrite elem_of_tf_unique, elem_of_app. tauto.
  - intros s. rewrite !elem_of_list_to_set.
    destruct t; dtype_tests; try done. rewrite elem_of_tf_unique, elem_of_app. tauto.
Qed.

(** C5.  The categorical update raises its unsupported-type error exactly
    when the column is neither [int32] nor [string], the text update exactly
    when the column is not [string]; a supported column is merged: the
    values held afterwards are those held before and those of the column,
    without duplicates. *)
Theorem unsupported_type_iff
    (c : CategoricalAccumulator.t) (x : TextAccumulator.t) (t : Tensor) :
  (CategoricalAccumulator.update c t
     = Raise (ValueError ("Unsupported data type for categorical features: "
                          +:+ DType_str (dtype t)))
   ↔ dtype t ≠ tf_int32 ∧ dtype t ≠ tf_string)
  ∧ (TextAccumulator.update x t
       = Raise (ValueError ("Unsupported data type for text features: "
                            +:+ DType_str (dtype t)))
     ↔ dtype t ≠ tf_string)
  ∧ (dtype t = tf_string →
     ∃ c', CategoricalAccumulator.update c t = Ok c'
       ∧ list_to_set (CategoricalAccumulator.values c')
         =@{gset string} list_to_set (CategoricalAccumulator.values c)
                        ∪ list_to_set (string_values t)
       ∧ NoDup (CategoricalAccumulator.values c')
       ∧ CategoricalAccumulator.int_values c' = CategoricalAccumulator.int_values c)
  ∧ (dtype t = tf_int32 →
     ∃ c', CategoricalAccumulator.update c t = Ok c'
       ∧ list_to_set (CategoricalAccumulator.int_values c')
         =@{gset Z} list_to_set (CategoricalAccumulator.int_values c)
                   ∪ list_to_set (int32_values t)
       ∧ NoDup (CategoricalAccumulator.int_values c')
       ∧ CategoricalAccumulator.values c' = CategoricalAccumulator.values c)
  ∧ (dtype t = tf_string →
     ∃ x', TextAccumulator.update x t = Ok x'
       ∧ list_to_set (TextAccumulator.words x')
         =@{gset string} list_to_set (TextAccumulator.words x)
                        ∪ list_to_set (flat_map words_of_text (string_values t))
       ∧ NoDup (TextAccumulator.words x')).
Proof.
  split; [|split; [|split; [|split]]].
  - unfold CategoricalAccumulator.update. repeat case_decide; split; try done.
    + intros [_ ?]. done.
    + intros [? _]. done.
  - unfold TextAccumulator.update. case_decide; split; try done.
  - intros Ht. destruct t; try done. eexists.
    split; [apply categorical_update_string|]. cbn. split; [|split; [|done]].
    + by rewrite tf_unique_set, list_to_set_app_L.
    + apply NoDup_tf_unique.
  - intros Ht. destruct t; try done. eexists.
    split; [apply categorical_update_int32|]. cbn. split; [|split; [|done]].
    + by rewrite tf_unique_set, list_to_set_app_L.
    + apply NoDup_tf_unique.
  - intros Ht. destruct t; try done. eexists.
    split; [apply text_update_string|]. cbn. split.
    + by rewrite tf_unique_set, list_to_set_app_L.
    + apply NoDup_tf_unique.
Qed.

(** The theorem at a string column and at a float column. *)
Lemma unsupported_type_iff_witness :
  (∃ c', CategoricalAccumulator.update CategoricalAccumulator.init
           (StringTensor ["a"; "b"; "a"]) = Ok c'
         ∧ NoDup (CategoricalAccumulator.values c'))
  ∧ CategoricalAccumulator.update CategoricalAccumulator.init (Float32Tensor [1])
    = Raise (ValueError "Unsupported data type for categorical features: <dtype: 'float32'>").
Proof.
  split.
  - destruct (unsupported_type_iff CategoricalAccumulator.init TextAccumulator.init
                (StringTensor ["a"; "b"; "a"])) as (_ & _ & Hstring & _).
    destruct (Hstring eq_refl) as (c' & Hc' & _ & Hdup & _). eauto.
  - apply (unsupported_type_iff CategoricalAccumulator.init TextAccumulator.init
             (Float32Tensor [1])).
    split; discriminate.
Defined.

(** ** Vocabularies *)

Lemma StronglySorted_le_lt (l : list Z) :
  StronglySorted Z.le l → NoDup l → StronglySorted Z.lt l.
Proof.
  induction 1 as [|z l Hl IH Hz]; intros Hdup; [constructor|].
  apply NoDup_cons in Hdup as [Hz' Hdup]. constructor; [by apply IH|].
  rewrite Forall_forall in Hz |- *. intros y Hy.
  assert (z ≠ y) by (by intros ->). specialize (Hz y Hy). lia.
Qed.

Lemma sorted_vocabulary (ints : list Z) :
  NoDup ints →
  StronglySorted Z.lt (merge_sort Z.le ints)
  ∧ ∀ z, z ∈ merge_sort Z.le ints ↔ z ∈ ints.
Proof.
  intros Hints. split.
  - apply StronglySorted_le_lt; [apply (StronglySorted_merge_sort Z.le)|].
    by rewrite merge_sort_Permutation.
  - intros z. by rewrite merge_sort_Permutation.
Qed.

Lemma sorted_vocabulary_unique (l1 l2 : list Z) :
  NoDup l1 → NoDup l2 → (∀ z, z ∈ l1 ↔ z ∈ l2) →
  merge_sort Z.le l1 = merge_sort Z.le l2.
Proof.
  intros H1 H2 Hsame. apply (StronglySorted_unique Z.le).
  - apply (StronglySorted_merge_sort Z.le).
  - apply (StronglySorted_merge_sort Z.le).
  - rewrite !merge_sort_Permutation. by apply NoDup_Permutation.
Qed.

(** The pass of the engine over the integer batches of one feature. *)
Lemma categorical_int_pass (trig : Trig) (f : string) (batches : list (list Z)) :
  ∃ self',
    DatasetStatistics.calculate_dataset_statistics (categorical_engine f tf_int32)
      (column_dataset f (map Int32Tensor batches))
    = Ok (self',
          report_of []
            [(f, vocabulary_record
                   (map PyInt (merge_sort Z.le (tf_unique (concat batches))))
                   tf_int32)] [] []).
Proof.
  unfold DatasetStatistics.calculate_dataset_statistics.
  change (categorical_engine f tf_int32) with
    (DatasetStatistics.set_categorical_stats (categorical_engine f tf_int32)
       [(f, CategoricalAccumulator.Build [] [])]).
  erewrite process_categorical;
    [|apply (categorical_int_stream batches [] []); constructor].
  cbn [mbind result_bind app].
  rewrite final_categorical_int by apply NoDup_tf_unique.
  cbn [mbind result_bind]. eexists. reflexivity.
Qed.

(** C6.  The vocabulary finalized for an integer feature lists the distinct
    integers of the batches in strictly ascending order, its size is their
    number, and another split or order of the same integers gives the same
    report; batches [3, 1, 2] and [2, 5] give [1, 2, 3, 5], size 4. *)
Theorem int_vocabulary_sorted
    (trig : Trig) (f : string) (batches batches' : list (list Z)) :
  (∃ self' vocab,
     DatasetStatistics.calculate_dataset_statistics (categorical_engine f tf_int32)
       (column_dataset f (map Int32Tensor batches))
     = Ok (self', report_of [] [(f, vocabulary_record (map PyInt vocab) tf_int32)] [] [])
     ∧ StronglySorted Z.lt vocab
     ∧ (∀ z, z ∈ vocab ↔ z ∈ concat batches)
     ∧ ((∀ z, z ∈ concat batches ↔ z ∈ concat batches') →
        ∃ self'',
          DatasetStatistics.calculate_dataset_statistics (categorical_engine f tf_int32)
            (column_dataset f (map Int32Tensor batches'))
          = Ok (self'',
                report_of [] [(f, vocabulary_record (map PyInt vocab) tf_int32)] [] [])))
  ∧ (∃ self',
       DatasetStatistics.calculate_dataset_statistics (categorical_engine f tf_int32)
         (column_dataset f [Int32Tensor [3; 1; 2]; Int32Tensor [2; 5]]%Z)
       = Ok (self',
             report_of []
               [(f, PyDict [ ("size", PyInt 4);
                             ("vocab", PyList [PyInt 1; PyInt 2; PyInt 3; PyInt 5]);
                             ("dtype", TfDType tf_int32) ])] [] [])).
Proof.
  split.
  - destruct (categorical_int_pass trig f batches) as [self' Hpass].
    exists self', (merge_sort Z.le (tf_unique (concat batches))).
    destruct (sorted_vocabulary (tf_unique (concat batches))) as [Hsorted Hmem];
      [apply NoDup_tf_unique|].
    split; [done|]. split; [done|]. split.
    + intros z. by rewrite Hmem, elem_of_tf_unique.
    + intros Hsame. destruct (categorical_int_pass trig f batches') as [self'' Hpass'].
      exists self''. rewrite Hpass'.
      rewrite (sorted_vocabulary_unique (tf_unique (concat batches))
                 (tf_unique (concat batches'))); [done|apply NoDup_tf_unique..|].
      intros z. by rewrite !elem_of_tf_unique.
  - apply (categorical_int_pass trig f [[3; 1; 2]; [2; 5]]%Z).
Qed.

(** The theorem on two splits of the integers 1, 2, 3, 5. *)
Lemma int_vocabulary_sorted_witness :
  ∃ self' self'' report,
    DatasetStatistics.calculate_dataset_statistics (trig := polynomial_trig)
      (categorical_engine "colour" tf_int32)
      (column_dataset "colour" [Int32Tensor [3; 1; 2]; Int32Tensor [2; 5]]%Z)
    = Ok (self', report)
    ∧ DatasetStatistics.calculate_dataset_statistics (trig := polynomial_trig)
        (categorical_engine "colour" tf_int32)
        (column_dataset "colour" [Int32Tensor [5; 2; 2]; Int32Tensor [1]; Int32Tensor [3]]%Z)
      = Ok (self'', report).
Proof.
  destruct (int_vocabulary_sorted polynomial_trig "colour"
              [[3; 1; 2]; [2; 5]]%Z [[5; 2; 2]; [1]; [3]]%Z)
    as [(self' & vocab & Hpass & _ & _ & Hother) _].
  destruct Hother as [self'' Hpass'].
  { intros z. cbn. rewrite !elem_of_cons, !elem_of_nil. tauto. }
  exists self', self''. eexists. split; [exact Hpass | exact Hpass'].
Defined.

Lemma split_nil_all_whitespace s : tf_strings_split s = [] → all_whitespace s = true.
Proof.
  induction s as [|c s IH]; [done|]. cbn.
  destruct (ascii_isspace c); [done|].
  destruct (at_token_end s); [done|]. by destruct (tf_strings_split s).
Qed.

Lemma words_of_text_nil s : words_of_text s = [] ↔ all_whitespace s = true.
Proof.
  unfold words_of_text. rewrite split_whitespace_split. split.
  - intros E. apply split_nil_all_whitespace.
    by destruct (tf_strings_split s).
  - intros E. by rewrite split_all_whitespace.
Qed.

(** The pass of the engine over the text batches of one feature. *)
Lemma text_pass (trig : Trig) (f : string) (batches : list (list string)) :
  ∃ self',
    DatasetStatistics.calculate_dataset_statistics (text_engine f)
      (column_dataset f (map StringTensor batches))
    = Ok (self',
          report_of [] []
            [(f, vocabulary_record
                   (map PyBytes (tf_unique (flat_map words_of_text (concat batches))))
                   tf_string)] []).
Proof.
  unfold DatasetStatistics.calculate_dataset_statistics.
  change (text_engine f) with
    (DatasetStatistics.set_text_stats (text_engine f) [(f, TextAccumulator.Build [])]).
  erewrite process_text; [|apply (text_stream batches []); constructor].
  cbn [mbind result_bind app]. rewrite final_text.
  cbn [mbind result_bind]. eexists. reflexivity.
Qed.

(** C7.  After any sequence of text batches the accumulator holds, without
    duplicates, exactly the words obtained by splitting every text on runs
    of whitespace and putting every token in lower case, and the engine
    reports them as the vocabulary; a text has no word exactly when it is
    empty or all whitespace; the texts "The Quick" and "fox jumps" give the
    words the, quick, fox, jumps. *)
Theorem text_words_split_lowercase
    (trig : Trig) (f : string) (batches : list (list string)) :
  (∃ acc,
     for_each TextAccumulator.update (map StringTensor batches) TextAccumulator.init
     = Ok acc
     ∧ list_to_set (TextAccumulator.get_unique_words acc)
       =@{gset string} list_to_set (flat_map words_of_text (concat batches))
     ∧ NoDup (TextAccumulator.get_unique_words acc)
     ∧ ∃ self',
         DatasetStatistics.calculate_dataset_statistics (text_engine f)
           (column_dataset f (map StringTensor batches))
         = Ok (self',
               report_of [] []
                 [(f, vocabulary_record
                        (map PyBytes (TextAccumulator.get_unique_words acc)) tf_string)]
                 []))
  ∧ words_of_text "" = []
  ∧ (∀ text, words_of_text text = [] ↔ all_whitespace text = true)
  ∧ (∃ acc,
       TextAccumulator.update TextAccumulator.init (StringTensor ["The Quick"; "fox jumps"])
       = Ok acc
       ∧ TextAccumulator.get_unique_words acc = ["the"; "quick"; "fox"; "jumps"]).
Proof.
  split; [|split; [done|split; [apply words_of_text_nil|]]].
  - eexists. split; [apply (text_stream batches []); constructor|].
    cbn [TextAccumulator.get_unique_words TextAccumulator.words app].
    split; [apply tf_unique_set|]. split; [apply NoDup_tf_unique|].
    apply text_pass.
  - eexists. split; [apply text_update_string|]. by vm_compute.
Qed.

(** ** The finalized report *)

Lemma for_each_invariant {S X : Type} (P : S → Prop) (body : S → X → result S)
    (xs : list X) (s s' : S) :
  (∀ s x s', P s → body s x = Ok s' → P s') →
  P s → for_each body xs s = Ok s' → P s'.
Proof.
  intros Hbody. revert s. induction xs as [|x xs IH]; intros s Hs Hrun; cbn in Hrun.
  - by simplify_eq.
  - destruct (body s x) as [s1|e] eqn:Hx; [|done]. eauto.
Qed.

Lemma bind_Ok {A B : Type} (r : result A) (k : A → result B) (b : B) :
  r ≫= k = Ok b → ∃ a, r = Ok a ∧ k a = Ok b.
Proof. destruct r as [a|e]; [eauto|done]. Qed.

Lemma dict_get_set {V : Type} (d : dict V) (k k' : string) (v : V) :
  dict_get (dict_set d k v) k' = if decide (k = k') then Some v else dict_get d k'.
Proof.
  induction d as [|[k0 v0] d IH]; cbn.
  - done.
  - destruct (decide (k0 = k)) as [->|Hk0]; cbn.
    + by destruct (decide (k = k')).
    + rewrite IH. destruct (decide (k0 = k')) as [->|]; [|done].
      by rewrite decide_False.
Qed.

(** What [collect] stores for the features it goes through. *)
Lemma collect_lookup (record : string → result pyval) (features : list string)
    (stats : dict pyval) (f : string) :
  DatasetStatistics.collect record features = Ok stats → f ∈ features →
  ∃ r, record f = Ok r ∧ dict_get stats f = Some r.
Proof.
  unfold DatasetStatistics.collect. generalize ([] : dict pyval) as stats0.
  induction features as [|x features IH]; intros stats0 Hrun Hf.
  - by apply elem_of_nil in Hf.
  - cbn in Hrun. apply bind_Ok in Hrun as (stats1 & Hx & Hrun).
    apply bind_Ok in Hx as (r & Hr & [= <-]).
    destruct (decide (f ∈ features)) as [Hin|Hout]; [by eapply IH|].
    apply elem_of_cons in Hf as [->|?]; [|done].
    exists r. split; [done|].
    assert (dict_get stats x = dict_get (dict_set stats0 x r) x) as ->.
    { clear IH Hr. revert Hrun. generalize (dict_set stats0 x r) as d.
      induction features as [|y features IH]; intros d Hrun; cbn in Hrun.
      - by simplify_eq.
      - apply bind_Ok in Hrun as (d1 & Hy & Hrun).
        apply bind_Ok in Hy as (ry & _ & [= <-]).
        rewrite (IH ltac:(set_solver) _ Hrun), dict_get_set.
        rewrite decide_False; [done|]. intros ->. apply Hout. by left. }
    by rewrite dict_get_set, decide_True.
Qed.

(** Whatever the date accumulator holds, its record is the same. *)
Lemma date_record_zero (self : DatasetStatistics.t) (f : string) (r : pyval) :
  DatasetStatistics.date_record self f = Ok r → r = zero_date_record.
Proof.
  unfold DatasetStatistics.date_record. intros (acc & _ & [= <-])%bind_Ok. done.
Qed.

Section process_batch.
Context {trig : Trig}.
Import DatasetStatistics.

Lemma process_batch_date_features self batch self' :
  _process_batch self batch = Ok self' → date_features self' = date_features self.
Proof.
  set (P := λ s : t, date_features s = date_features self).
  assert (∀ (X : Type) (body : t → X → result t) (xs : list X) (s s' : t),
            (∀ s x s', body s x = Ok s' → date_features s' = date_features s) →
            P s → for_each body xs s = Ok s' → P s') as Hloop.
  { intros X body xs s s' Hbody. apply for_each_invariant.
    intros s0 x s0' Hs0 Hx. unfold P. by rewrite (Hbody _ _ _ Hx). }
  unfold _process_batch. intros Hrun.
  apply bind_Ok in Hrun as (s1 & H1 & Hrun).
  apply bind_Ok in Hrun as (s2 & H2 & Hrun).
  apply bind_Ok in Hrun as (s3 & H3 & Hrun).
  eapply Hloop in H1; [|clear; intros s f s' Hbody|done].
  2: { repeat (apply bind_Ok in Hbody as (? & _ & Hbody)). by simplify_eq. }
  eapply Hloop in H2; [|clear; intros s f s' Hbody|done].
  2: { repeat (apply bind_Ok in Hbody as (? & _ & Hbody)). by simplify_eq. }
  eapply Hloop in H3; [|clear; intros s f s' Hbody|done].
  2: { repeat (apply bind_Ok in Hbody as (? & _ & Hbody)). by simplify_eq. }
  eapply Hloop in Hrun; [done|clear; intros s f s' Hbody|done].
  repeat (apply bind_Ok in Hbody as (? & _ & Hbody)). by simplify_eq.
Qed.
End process_batch.

(** C10.  Whatever state the engine is in when it finalizes, and so after
    any pass over any dataset, the record of every date feature is the same:
    the five keys [mean_<subfield>], each with the integer 0, and no key
    [var_<subfield>]; nothing the accumulators of the feature hold reaches
    it. *)
Theorem date_statistics_are_zero
    (self : DatasetStatistics.t) (report : pyval) (f : string) :
  DatasetStatistics._compute_final_statistics self = Ok report →
  f ∈ DatasetStatistics.date_features self →
  ∃ record,
    report_record report "date_stats" f = Some record
    ∧ record = zero_date_record
    ∧ (∀ key v, record_field record key = Some v → v = PyInt 0)
    ∧ (∀ subfield, subfield ∈ date_subfields →
         record_field record ("mean_" +:+ subfield) = Some (PyInt 0))
    ∧ (∀ subfield, record_field record ("var_" +:+ subfield) = None).
Proof.
  intros Hfinal Hf.
  unfold DatasetStatistics._compute_final_statistics in Hfinal.
  apply bind_Ok in Hfinal as (numeric & _ & Hfinal).
  apply bind_Ok in Hfinal as (categorical & _ & Hfinal).
  apply bind_Ok in Hfinal as (text & _ & Hfinal).
  apply bind_Ok in Hfinal as (date & Hdate & [= <-]).
  destruct (collect_lookup _ _ _ f Hdate Hf) as (r & Hr & Hget).
  apply date_record_zero in Hr as ->.
  exists zero_date_record. split; [exact Hget|]. split; [done|].
  split; [|split].
  - intros key v. cbn. repeat case_decide; naive_solver.
  - intros subfield Hsub. unfold date_subfields in Hsub.
    repeat (apply elem_of_cons in Hsub as [->|Hsub]; [done|]).
    by apply elem_of_nil in Hsub.
  - intros subfield. cbn. by repeat (rewrite decide_False by done).
Qed.

(** The theorem on an engine whose date feature holds the years 2020 and
    2022 in its year accumulator. *)
Lemma date_statistics_are_zero_witness :
  WelfordAccumulator.mean
    (DateAccumulator.year_accumulator sample_date_accumulator) == 2021
  ∧ ∃ record,
      report_record (report_of [] [] [] [("day", zero_date_record)]) "date_stats" "day"
      = Some record
      ∧ record = zero_date_record
      ∧ (∀ key v, record_field record key = Some v → v = PyInt 0)
      ∧ (∀ subfield, subfield ∈ date_subfields →
           record_field record ("mean_" +:+ subfield) = Some (PyInt 0))
      ∧ (∀ subfield, record_field record ("var_" +:+ subfield) = None).
Proof.
  split; [by vm_compute|].
  apply (date_statistics_are_zero
           (DatasetStatistics.set_date_stats (date_engine "day")
              [("day", sample_date_accumulator)])
           (report_of [] [] [] [("day", zero_date_record)]) "day").
  - reflexivity.
  - by left.
Defined.

(** The same for the report of a pass: the pass leaves some state, which
    declares the date features it started with. *)
Lemma date_statistics_after_pass
    (trig : Trig) (self self' : DatasetStatistics.t) (dataset : list (dict Tensor))
    (report : pyval) (f : string) :
  DatasetStatistics.calculate_dataset_statistics self dataset = Ok (self', report) →
  f ∈ DatasetStatistics.date_features self →
  report_record report "date_stats" f = Some zero_date_record.
Proof.
  unfold DatasetStatistics.calculate_dataset_statistics. intros Hrun Hf.
  apply bind_Ok in Hrun as (self1 & Hbatches & Hrun).
  apply bind_Ok in Hrun as (stats & Hfinal & [= _ <-]).
  assert (DatasetStatistics.date_features self1 = DatasetStatistics.date_features self)
    as Hfeatures.
  { eapply (for_each_invariant
              (λ s, DatasetStatistics.date_features s
                    = DatasetStatistics.date_features self)) in Hbatches; [done| |done].
    intros s batch s' Hs Hbatch.
    by rewrite (process_batch_date_features _ _ _ Hbatch). }
  unfold DatasetStatistics._compute_final_statistics in Hfinal.
  apply bind_Ok in Hfinal as (numeric & _ & Hfinal).
  apply bind_Ok in Hfinal as (categorical & _ & Hfinal).
  apply bind_Ok in Hfinal as (text & _ & Hfinal).
  apply bind_Ok in Hfinal as (date & Hdate & [= <-]).
  rewrite Hfeatures in Hdate.
  destruct (collect_lookup _ _ _ f Hdate Hf) as (r & Hr & Hget).
  by apply date_record_zero in Hr as ->.
Qed.

(** C3 (what the code does where the claim fails).  Finalizing an engine
    with a date feature before any batch gives a record with the integer 0
    under [mean_year] and no key [var_year].  The same record comes out
    whatever the accumulator of the feature holds: its mean and variance
    properties return the statistics of the five children, and neither loop
    of the finalization reads them. *)
Theorem date_record_drops_statistics (trig : Trig) (acc : DateAccumulator.t) :
  (∃ self' report record,
     DatasetStatistics.calculate_dataset_statistics (date_engine "day") []
     = Ok (self', report)
     ∧ report_record report "date_stats" "day" = Some record
     ∧ record_field record "mean_year" = Some (PyInt 0)
     ∧ record_field record "var_year" = None)
  ∧ (∃ report record,
       DatasetStatistics._compute_final_statistics
         (DatasetStatistics.set_date_stats (date_engine "day") [("day", acc)])
       = Ok report
       ∧ dict_get (DateAccumulator.mean acc) "year"
         = Some (NpFloating
                   (WelfordAccumulator.mean (DateAccumulator.year_accumulator acc)))
       ∧ dict_get (DateAccumulator.variance acc) "year"
         = Some (NpFloating
                   (WelfordAccumulator.variance (DateAccumulator.year_accumulator acc)))
       ∧ report_record report "date_stats" "day" = Some record
       ∧ record_field record "mean_year" = Some (PyInt 0)
       ∧ record_field record "var_year" = None).
Proof.
  split.
  - by eexists _, _, _.
  - exists (report_of [] [] [] [("day", zero_date_record)]), zero_date_record.
    split; [|by repeat split].
    unfold DatasetStatistics._compute_final_statistics, DatasetStatistics.collect,
      DatasetStatistics.date_record.
    cbn. rewrite !dict_item_head. done.
Qed.

(** C4 (what the code does where the claim fails).  The report of a text
    feature holds its words as byte strings; the file holds, and loading
    returns, the text of their [repr], which is a [str] and not equal to the
    word.  The loaded report differs from the one persisted. *)
Theorem text_vocabulary_not_restored :
  ∃ self' report loaded,
    DatasetStatistics.calculate_dataset_statistics (trig := polynomial_trig)
      (text_engine "title") (column_dataset "title" [StringTensor ["The Quick"]])
    = Ok (self', report)
    ∧ persist_then_load self' = Ok loaded
    ∧ (report_record report "text_stats" "title" ≫= λ r, record_field r "vocab")
      = Some (PyList [PyBytes "the"; PyBytes "quick"])
    ∧ (report_record loaded "text_stats" "title" ≫= λ r, record_field r "vocab")
      = Some (PyList [PyStr "b'the'"; PyStr "b'quick'"])
    ∧ py_eq loaded report = false
    ∧ py_eq report loaded = false.
Proof.
  eexists _, _, _. split; [by vm_compute|].
  split; [by vm_compute|]. split; [by vm_compute|]. split; [by vm_compute|].
  split; by vm_compute.
Qed.

(** Without a text feature the same journey gives back an equal report:
    dtype names become dtypes again and every number keeps its value. *)
Lemma report_restored_without_text :
  ∃ self' report loaded,
    DatasetStatistics.calculate_dataset_statistics (trig := polynomial_trig)
      (DatasetStatistics.init
         [ ("age", {| spec_dtype := tf_float32 |});
           ("code", {| spec_dtype := tf_int32 |});
           ("city", {| spec_dtype := tf_string |}) ]
         ["age"] ["code"; "city"] [] [] false)
      [ [ ("age", Float32Tensor [1; 2; 3]); ("code", Int32Tensor [3; 1; 2]%Z);
          ("city", StringTensor ["Oslo"; "Rome"]) ];
        [ ("age", Float32Tensor [4; 5]); ("code", Int32Tensor [2; 5]%Z);
          ("city", StringTensor ["Rome"]) ] ]
    = Ok (self', report)
    ∧ persist_then_load self' = Ok loaded
    ∧ py_eq loaded report = true
    ∧ (report_record loaded "categorical_stats" "code" ≫= λ r, record_field r "dtype")
      = Some (TfDType tf_int32)
    ∧ (report_record loaded "categorical_stats" "code" ≫= λ r, record_field r "vocab")
      = Some (PyList [PyInt 1; PyInt 2; PyInt 3; PyInt 5])
    ∧ (report_record loaded "categorical_stats" "city" ≫= λ r, record_field r "vocab")
      = Some (PyList [PyStr "Oslo"; PyStr "Rome"]).
Proof.
  eexists _, _, _. split; [by vm_compute|].
  split; [by vm_compute|]. split; [by vm_compute|]. split; [by vm_compute|].
  split; by vm_compute.
Qed.

(** * Further properties *)

(** ** Streams of categorical and text batches *)

Lemma unique_from_seen `{EqDecision A} (seen l : list A) :
  (∀ x, x ∈ l → x ∈ seen) → unique_from seen l = [].
Proof.
  induction l as [|x l IH]; intros Hl; [done|]. cbn.
  rewrite decide_True by (apply Hl; left). apply IH. intros y Hy. apply Hl. by right.
Qed.

Lemma tf_unique_absorb `{EqDecision A} (l m : list A) :
  (∀ x, x ∈ m → x ∈ l) → tf_unique (l ++ m) = tf_unique l.
Proof.
  intros Hm. unfold tf_unique.
  rewrite unique_from_app, (unique_from_seen (l ++ []) m).
  - apply app_nil_r.
  - intros x Hx. rewrite elem_of_app. left. by apply Hm.
Qed.

Lemma categorical_stream (cols : list Tensor) (vs : list string) (ints : list Z) :
  Forall categorical_kind cols → NoDup vs → NoDup ints →
  for_each CategoricalAccumulator.update cols (CategoricalAccumulator.Build vs ints)
  = Ok (CategoricalAccumulator.Build
          (tf_unique (vs ++ flat_map string_values cols))
          (tf_unique (ints ++ flat_map int32_values cols))).
Proof.
  intros Hcols. revert vs ints.
  induction Hcols as [|col cols Hcol _ IH]; intros vs ints Hvs Hints.
  - cbn. by rewrite !app_nil_r, !tf_unique_NoDup.
  - cbn [for_each flat_map]. destruct col; destruct Hcol as [Hcol|Hcol]; try done;
      cbn [string_values int32_values app].
    + rewrite categorical_update_string. cbn [mbind result_bind
        CategoricalAccumulator.values CategoricalAccumulator.int_values].
      rewrite (IH _ _ (NoDup_tf_unique _) Hints).
      by rewrite tf_unique_merge, app_assoc.
    + rewrite categorical_update_int32. cbn [mbind result_bind
        CategoricalAccumulator.values CategoricalAccumulator.int_values].
      rewrite (IH _ _ Hvs (NoDup_tf_unique _)).
      by rewrite tf_unique_merge, app_assoc.
Qed.

(** X4.  Fed any sequence of string and [int32] columns, a fresh categorical
    accumulator holds the distinct strings and the distinct integers of the
    whole stream, each kind in order of first occurrence, wherever the batch
    boundaries fall. *)
Theorem categorical_stream_first_occurrence (cols : list Tensor) :
  Forall categorical_kind cols →
  for_each CategoricalAccumulator.update cols CategoricalAccumulator.init
  = Ok {| CategoricalAccumulator.values := tf_unique (flat_map string_values cols);
          CategoricalAccumulator.int_values := tf_unique (flat_map int32_values cols) |}.
Proof.
  intros Hcols.
  apply (categorical_stream cols [] [] Hcols); constructor.
Qed.

(** The theorem on a stream that mixes the two kinds. *)
Lemma categorical_stream_first_occurrence_witness :
  for_each CategoricalAccumulator.update
    [StringTensor ["b"; "a"]; Int32Tensor [7; 7]%Z; StringTensor ["a"; "c"]]
    CategoricalAccumulator.init
  = Ok {| CategoricalAccumulator.values := ["b"; "a"; "c"];
          CategoricalAccumulator.int_values := [7%Z] |}.
Proof.
  apply (categorical_stream_first_occurrence
           [StringTensor ["b"; "a"]; Int32Tensor [7; 7]%Z; StringTensor ["a"; "c"]]).
  constructor; [by left|]. constructor; [by right|]. constructor; [by left|].
  constructor.
Defined.

(** X5.  A stream with a column of any other kind makes the categorical
    accumulator raise [ValueError], however many supported columns came
    first. *)
Theorem categorical_stream_unsupported (cols : list Tensor) (c : CategoricalAccumulator.t) :
  Exists (λ t, ¬ categorical_kind t) cols →
  ∃ msg, for_each CategoricalAccumulator.update cols c = Raise (ValueError msg).
Proof.
  intros Hcols. revert c. induction Hcols as [col cols Hcol|col cols _ IH]; intros c.
  - cbn [for_each]. unfold CategoricalAccumulator.update.
    rewrite !decide_False; [by eexists| |].
    + intros E. apply Hcol. by right.
    + intros E. apply Hcol. by left.
  - cbn [for_each].
    destruct (CategoricalAccumulator.update c col) as [c'|e] eqn:Hcol.
    + apply IH.
    + revert Hcol. unfold CategoricalAccumulator.update.
      repeat case_decide; try done. intros [= <-]. by eexists.
Qed.

(** The theorem on a stream whose second column holds floats. *)
Lemma categorical_stream_unsupported_witness :
  ∃ msg,
    for_each CategoricalAccumulator.update
      [StringTensor ["a"]; Float32Tensor [1]; StringTensor ["b"]]
      CategoricalAccumulator.init
    = Raise (ValueError msg).
Proof.
  apply (categorical_stream_unsupported
           [StringTensor ["a"]; Float32Tensor [1]; StringTensor ["b"]]).
  apply Exists_cons_tl, Exists_cons_hd. intros [E|E]; discriminate E.
Defined.

(** X6.  Feeding an accumulator a column it has already been fed changes
    nothing, for the categorical and for the text accumulator. *)
Theorem update_twice (c c' : CategoricalAccumulator.t) (x x' : TextAccumulator.t)
    (t : Tensor) :
  (CategoricalAccumulator.update c t = Ok c' → CategoricalAccumulator.update c' t = Ok c')
  ∧ (TextAccumulator.update x t = Ok x' → TextAccumulator.update x' t = Ok x').
Proof.
  split.
  - destruct t; try done.
    + rewrite categorical_update_string. intros [= <-].
      rewrite categorical_update_string. cbn. f_equal. f_equal.
      rewrite tf_unique_merge, <- app_assoc.
      rewrite app_assoc. apply tf_unique_absorb.
      intros s Hs. rewrite elem_of_app. by right.
    + rewrite categorical_update_int32. intros [= <-].
      rewrite categorical_update_int32. cbn. f_equal. f_equal.
      rewrite tf_unique_merge. apply tf_unique_absorb.
      intros s Hs. rewrite elem_of_app. by right.
  - destruct t; try done.
    rewrite text_update_string. intros [= <-].
    rewrite text_update_string. cbn. f_equal. f_equal.
    rewrite tf_unique_merge. apply tf_unique_absorb.
    intros s Hs. rewrite elem_of_app. by right.
Qed.

(** The theorem on one text column. *)
Lemma update_twice_witness :
  TextAccumulator.update (TextAccumulator.Build ["a"; "b"]) (StringTensor ["A b"])
  = Ok (TextAccumulator.Build ["a"; "b"]).
Proof.
  apply (update_twice CategoricalAccumulator.init CategoricalAccumulator.init
           TextAccumulator.init (TextAccumulator.Build ["a"; "b"]) (StringTensor ["A b"])).
  reflexivity.
Defined.

(** ** The words of the text accumulator *)

Lemma ascii_lower_isspace c : ascii_isspace (ascii_lower c) = ascii_isspace c.
Proof. destruct c as [[] [] [] [] [] [] [] []]; reflexivity. Qed.

Lemma ascii_lower_idemp c : ascii_lower (ascii_lower c) = ascii_lower c.
Proof. destruct c as [[] [] [] [] [] [] [] []]; reflexivity. Qed.

Lemma tf_strings_lower_idemp s : tf_strings_lower (tf_strings_lower s) = tf_strings_lower s.
Proof.
  induction s as [|c s IH]; [done|]. cbn. by rewrite ascii_lower_idemp, IH.
Qed.

Lemma whitespace_free_lower s :
  whitespace_free (tf_strings_lower s) = whitespace_free s.
Proof.
  induction s as [|c s IH]; [done|]. cbn. by rewrite ascii_lower_isspace, IH.
Qed.

Lemma tf_strings_lower_nonempty s : s ≠ EmptyString → tf_strings_lower s ≠ EmptyString.
Proof. by destruct s. Qed.

Lemma split_nonempty s : at_token_end s = false → tf_strings_split s ≠ [].
Proof.
  destruct s as [|c s]; [done|]. cbn. intros ->.
  destruct (at_token_end s); [done|]. by destruct (tf_strings_split s).
Qed.

(** Every token is a non-empty run without whitespace. *)
Lemma split_tokens s w :
  w ∈ tf_strings_split s → w ≠ EmptyString ∧ whitespace_free w = true.
Proof.
  revert w. induction s as [|c s IH]; intros w; cbn.
  - by intros ?%elem_of_nil.
  - destruct (ascii_isspace c) eqn:Hc; [apply IH|].
    destruct (at_token_end s) eqn:Hend.
    + intros [->|Hw]%elem_of_cons; [|by apply IH].
      split; [done|]. cbn. by rewrite Hc.
    + pose proof (split_nonempty s Hend) as Hne.
      destruct (tf_strings_split s) as [|w0 ws]; [done|]. cbn.
      intros [->|Hw]%elem_of_cons.
      * split; [done|]. cbn. rewrite Hc. cbn. apply IH. by left.
      * apply IH. by right.
Qed.

Lemma words_of_text_tokens text w :
  w ∈ words_of_text text →
  w ≠ EmptyString ∧ whitespace_free w = true ∧ tf_strings_lower w = w.
Proof.
  unfold words_of_text. rewrite split_whitespace_split.
  intros (t & -> & Ht)%list_elem_of_fmap.
  apply split_tokens in Ht as [Hne Hfree].
  split; [by apply tf_strings_lower_nonempty|].
  split; [by rewrite whitespace_free_lower | apply tf_strings_lower_idemp].
Qed.

(** X7.  Whatever texts a fresh text accumulator is fed, every word it holds
    is non-empty, has no whitespace character and no upper-case ASCII
    letter, and no word is held twice. *)
Theorem text_words_invariant (batches : list (list string)) :
  ∃ acc,
    for_each TextAccumulator.update (map StringTensor batches) TextAccumulator.init
    = Ok acc
    ∧ NoDup (TextAccumulator.get_unique_words acc)
    ∧ ∀ w, w ∈ TextAccumulator.get_unique_words acc →
        w ≠ EmptyString ∧ whitespace_free w = true ∧ tf_strings_lower w = w.
Proof.
  eexists. split; [apply (text_stream batches []); constructor|].
  cbn [TextAccumulator.get_unique_words TextAccumulator.words app].
  split; [apply NoDup_tf_unique|].
  intros w. rewrite elem_of_tf_unique.
  intros Hw%list_elem_of_In. apply in_flat_map in Hw as (text & _ & Hw).
  apply (words_of_text_tokens text). by apply list_elem_of_In.
Qed.

Lemma at_token_end_app a c b :
  ascii_isspace c = true → at_token_end (a +:+ String c b) = at_token_end a.
Proof. intros Hc. destruct a; [exact Hc|done]. Qed.

Lemma extend_first_app c ws ws' :
  ws ≠ [] → extend_first c (ws ++ ws') = extend_first c ws ++ ws'.
Proof. by destruct ws. Qed.

Lemma split_app a c b :
  ascii_isspace c = true →
  tf_strings_split (a +:+ String c b) = tf_strings_split a ++ tf_strings_split b.
Proof.
  intros Hc. induction a as [|d a IH].
  - change (EmptyString +:+ String c b) with (String c b).
    cbn [tf_strings_split app]. by rewrite Hc.
  - change (String d a +:+ String c b) with (String d (a +:+ String c b)).
    cbn [tf_strings_split]. rewrite at_token_end_app, IH by done.
    destruct (ascii_isspace d); [done|].
    destruct (at_token_end a) eqn:Hend; [done|].
    by rewrite extend_first_app by by apply split_nonempty.
Qed.

(** X8.  A whitespace character inside a text separates it as the boundary
    between two texts does: the update with the one text is the update with
    the two texts on either side of the character. *)
Theorem whitespace_separates_texts (x : TextAccumulator.t) (a b : string) (c : ascii) :
  ascii_isspace c = true →
  TextAccumulator.update x (StringTensor [a +:+ String c b])
  = TextAccumulator.update x (StringTensor [a; b]).
Proof.
  intros Hc. rewrite !text_update_string. cbn [flat_map]. rewrite !app_nil_r.
  do 3 f_equal. unfold words_of_text.
  by rewrite !split_whitespace_split, split_app, map_app.
Qed.

(** The theorem on a text with a line feed in the middle. *)
Lemma whitespace_separates_texts_witness :
  TextAccumulator.update TextAccumulator.init
    (StringTensor ["Red fox" +:+ String "010" "Blue  jay"])
  = TextAccumulator.update TextAccumulator.init (StringTensor ["Red fox"; "Blue  jay"]).
Proof. apply (whitespace_separates_texts TextAccumulator.init). reflexivity. Defined.

(** ** Batches and declared features *)

Lemma for_each_inv {S X : Type} (body : S → X → result S) (xs : list X) (s s' : S) (x : X) :
  for_each body xs s = Ok s' → x ∈ xs → ∃ s1 s2, body s1 x = Ok s2.
Proof.
  revert s. induction xs as [|y xs IH]; intros s Hrun Hx.
  - by apply elem_of_nil in Hx.
  - cbn in Hrun. apply bind_Ok in Hrun as (s1 & Hy & Hrun).
    apply elem_of_cons in Hx as [->|Hx]; eauto.
Qed.

Lemma for_each_ext {S X : Type} (body body' : S → X → result S) (xs : list X) (s : S) :
  (∀ s x, x ∈ xs → body s x = body' s x) →
  for_each body xs s = for_each body' xs s.
Proof.
  revert s. induction xs as [|y xs IH]; intros s Hbody; [done|].
  cbn. rewrite Hbody by left. destruct (body' s y); [|done]. cbn.
  apply IH. intros s0 x Hx. apply Hbody. by right.
Qed.

Section process_batch_declarations.
Context {trig : Trig}.
Import DatasetStatistics.

Global Instance same_declarations_equiv : Equivalence same_declarations.
Proof.
  split.
  - by intros a.
  - intros a b (? & ? & ? & ? & ?). by repeat split.
  - intros a b c (? & ? & ? & ? & ?) (? & ? & ? & ? & ?).
    repeat split; congruence.
Qed.

Lemma for_each_same_declarations {X : Type} (body : t → X → result t)
    (xs : list X) (s s' : t) :
  (∀ s x s', body s x = Ok s' → same_declarations s s') →
  for_each body xs s = Ok s' → same_declarations s s'.
Proof.
  intros Hbody Hrun.
  apply (for_each_invariant (same_declarations s) body xs s s'); [|done|done].
  intros s1 x s2 Hs1 Hx. etrans; [done|]. by eapply Hbody.
Qed.

(** The four loops of [_process_batch], with the engine between them. *)
Lemma process_batch_loops self batch self' :
  _process_batch self batch = Ok self' →
  ∃ s1 s2 s3 body1 body2 body3 body4,
    for_each body1 (numeric_features self) self = Ok s1
    ∧ for_each body2 (categorical_features self) s1 = Ok s2
    ∧ for_each body3 (text_features self) s2 = Ok s3
    ∧ for_each body4 (date_features self) s3 = Ok self'
    ∧ (∀ s f s', body1 s f = Ok s' → is_Some (dict_get batch f))
    ∧ (∀ s f s', body2 s f = Ok s' → is_Some (dict_get batch f))
    ∧ (∀ s f s', body3 s f = Ok s' → is_Some (dict_get batch f))
    ∧ (∀ s f s', body4 s f = Ok s' → is_Some (dict_get batch f))
    ∧ same_declarations self self'.
Proof.
  unfold _process_batch. intros Hrun.
  apply bind_Ok in Hrun as (s1 & H1 & Hrun).
  apply bind_Ok in Hrun as (s2 & H2 & Hrun).
  apply bind_Ok in Hrun as (s3 & H3 & Hrun).
  assert (∀ V (d : dict V) f v, dict_item d f = Ok v → is_Some (dict_get d f)) as Hitem.
  { intros V d f v. unfold dict_item. destruct (dict_get d f); [eauto|done]. }
  pose proof H1 as D1. apply for_each_same_declarations in D1.
  2: { clear. intros s f s' Hbody.
       repeat (apply bind_Ok in Hbody as (? & _ & Hbody)). by simplify_eq. }
  pose proof H2 as D2. apply for_each_same_declarations in D2.
  2: { clear. intros s f s' Hbody.
       repeat (apply bind_Ok in Hbody as (? & _ & Hbody)). by simplify_eq. }
  pose proof H3 as D3. apply for_each_same_declarations in D3.
  2: { clear. intros s f s' Hbody.
       repeat (apply bind_Ok in Hbody as (? & _ & Hbody)). by simplify_eq. }
  pose proof Hrun as D4. apply for_each_same_declarations in D4.
  2: { clear. intros s f s' Hbody.
       repeat (apply bind_Ok in Hbody as (? & _ & Hbody)). by simplify_eq. }
  destruct D1 as (N1 & C1 & T1 & A1 & S1), D2 as (N2 & C2 & T2 & A2 & S2),
    D3 as (N3 & C3 & T3 & A3 & S3), D4 as (N4 & C4 & T4 & A4 & S4).
  rewrite <- C1 in H2. rewrite <- T2, <- T1 in H3. rewrite <- A3, <- A2, <- A1 in Hrun.
  eexists s1, s2, s3, _, _, _, _.
  split; [exact H1|]. split; [exact H2|]. split; [exact H3|]. split; [exact Hrun|].
  split; [|split; [|split; [|split]]].
  - intros s f s' Hbody. apply bind_Ok in Hbody as (? & _ & Hbody).
    apply bind_Ok in Hbody as (? & Hcol & _). by eapply Hitem.
  - intros s f s' Hbody. apply bind_Ok in Hbody as (? & _ & Hbody).
    apply bind_Ok in Hbody as (? & Hcol & _). by eapply Hitem.
  - intros s f s' Hbody. apply bind_Ok in Hbody as (? & _ & Hbody).
    apply bind_Ok in Hbody as (? & Hcol & _). by eapply Hitem.
  - intros s f s' Hbody. apply bind_Ok in Hbody as (? & _ & Hbody).
    apply bind_Ok in Hbody as (? & Hcol & _). by eapply Hitem.
  - repeat split; congruence.
Qed.

(** X10.  A batch that lacks the column of a declared feature, of whatever
    category, is never processed: [_process_batch] raises. *)
Theorem missing_feature_aborts (self : t) (batch : dict Tensor) (f : string) :
  f ∈ declared_features self → dict_get batch f = None →
  ∃ e, _process_batch self batch = Raise e.
Proof.
  intros Hf Hmissing.
  destruct (_process_batch self batch) as [self'|e] eqn:Hrun; [|by eexists].
  apply process_batch_loops in Hrun
    as (s1 & s2 & s3 & b1 & b2 & b3 & b4 & H1 & H2 & H3 & H4 & B1 & B2 & B3 & B4 & _).
  unfold declared_features in Hf. rewrite !elem_of_app in Hf.
  assert (is_Some (dict_get batch f)) as [col Hcol]; [|congruence].
  destruct Hf as [Hf|[Hf|[Hf|Hf]]].
  - destruct (for_each_inv _ _ _ _ f H1 Hf) as (? & ? & ?). by eapply B1.
  - destruct (for_each_inv _ _ _ _ f H2 Hf) as (? & ? & ?). by eapply B2.
  - destruct (for_each_inv _ _ _ _ f H3 Hf) as (? & ? & ?). by eapply B3.
  - destruct (for_each_inv _ _ _ _ f H4 Hf) as (? & ? & ?). by eapply B4.
Qed.

(** X11.  Processing a batch changes accumulators only: the declared
    features of each category and the feature specifications stay as they
    were, over any number of batches. *)
Theorem process_batches_keep_declarations (self self' : t) (dataset : list (dict Tensor)) :
  for_each _process_batch dataset self = Ok self' → same_declarations self self'.
Proof.
  apply for_each_same_declarations. intros s batch s' Hbatch.
  by apply process_batch_loops in Hbatch
    as (? & ? & ? & ? & ? & ? & ? & _ & _ & _ & _ & _ & _ & _ & _ & ?).
Qed.

End process_batch_declarations.

(** The theorem on a batch without the declared text column. *)
Lemma missing_feature_aborts_witness :
  ∃ e,
    DatasetStatistics._process_batch (trig := polynomial_trig)
      (DatasetStatistics.init [("age", {| spec_dtype := tf_float32 |});
                               ("title", {| spec_dtype := tf_string |})]
         ["age"] [] ["title"] [] false)
      [("age", Float32Tensor [1; 2])]
    = Raise e.
Proof.
  apply (missing_feature_aborts (trig := polynomial_trig) _ _ "title").
  - apply elem_of_app. right. by left.
  - reflexivity.
Defined.

(** The theorem on a pass over two batches. *)
Lemma process_batches_keep_declarations_witness :
  ∃ self',
    for_each (DatasetStatistics._process_batch (trig := polynomial_trig))
      (column_dataset "age" [Float32Tensor [1; 2]; Float32Tensor [3]])
      (numeric_engine "age") = Ok self'
    ∧ DatasetStatistics.numeric_features self' = ["age"].
Proof.
  destruct (for_each (DatasetStatistics._process_batch (trig := polynomial_trig))
              (column_dataset "age" [Float32Tensor [1; 2]; Float32Tensor [3]])
              (numeric_engine "age")) as [self'|e] eqn:Hrun; [|by vm_compute in Hrun].
  exists self'. split; [done|].
  by destruct (process_batches_keep_declarations (trig := polynomial_trig) _ _ _ Hrun)
    as [<- _].
Defined.

Section undeclared_columns.
Context {trig : Trig}.
Import DatasetStatistics.

Lemma dict_item_other {V : Type} (g f : string) (v : V) (d : dict V) :
  g ≠ f → dict_item ((g, v) :: d) f = dict_item d f.
Proof. intros Hne. unfold dict_item. cbn. by rewrite decide_False. Qed.

(** X12.  A column for a feature that the engine does not declare is
    ignored: the batch with it is processed exactly as the batch without
    it. *)
Theorem undeclared_column_ignored (self : t) (batch : dict Tensor)
    (g : string) (column : Tensor) :
  g ∉ declared_features self →
  _process_batch self ((g, column) :: batch) = _process_batch self batch.
Proof.
  unfold declared_features. rewrite !not_elem_of_app. intros (Hn & Hc & Ht & Hd).
  assert (∀ f (features : list string), g ∉ features → f ∈ features →
            dict_item ((g, column) :: batch) f = dict_item batch f) as Hitem.
  { intros f features Hg Hf. apply dict_item_other. by intros ->. }
  unfold _process_batch.
  erewrite (for_each_ext _ _ (numeric_features self)); last first.
  { intros s f Hf. by rewrite (Hitem f _ Hn Hf). }
  destruct (for_each _ (numeric_features self) self) as [s1|e] eqn:H1; [|done].
  apply for_each_same_declarations in H1 as (_ & C1 & T1 & D1 & _).
  2: { clear. intros s f s' Hbody.
       repeat (apply bind_Ok in Hbody as (? & _ & Hbody)). by simplify_eq. }
  cbn [mbind result_bind].
  erewrite (for_each_ext _ _ (categorical_features s1)); last first.
  { intros s f Hf. rewrite <- C1 in Hf. by rewrite (Hitem f _ Hc Hf). }
  destruct (for_each _ (categorical_features s1) s1) as [s2|e] eqn:H2; [|done].
  apply for_each_same_declarations in H2 as (_ & _ & T2 & D2 & _).
  2: { clear. intros s f s' Hbody.
       repeat (apply bind_Ok in Hbody as (? & _ & Hbody)). by simplify_eq. }
  cbn [mbind result_bind].
  erewrite (for_each_ext _ _ (text_features s2)); last first.
  { intros s f Hf. rewrite <- T2, <- T1 in Hf. by rewrite (Hitem f _ Ht Hf). }
  destruct (for_each _ (text_features s2) s2) as [s3|e] eqn:H3; [|done].
  apply for_each_same_declarations in H3 as (_ & _ & _ & D3 & _).
  2: { clear. intros s f s' Hbody.
       repeat (apply bind_Ok in Hbody as (? & _ & Hbody)). by simplify_eq. }
  cbn [mbind result_bind].
  apply for_each_ext.
  intros s f Hf. rewrite <- D3, <- D2, <- D1 in Hf. by rewrite (Hitem f _ Hd Hf).
Qed.

End undeclared_columns.

(** The theorem on a batch with a column nobody declared. *)
Lemma undeclared_column_ignored_witness :
  DatasetStatistics._process_batch (trig := polynomial_trig) (numeric_engine "age")
    [("height", Float32Tensor [170]); ("age", Float32Tensor [1; 2])]
  = DatasetStatistics._process_batch (trig := polynomial_trig) (numeric_engine "age")
      [("age", Float32Tensor [1; 2])].
Proof.
  apply (undeclared_column_ignored (trig := polynomial_trig)).
  cbn. rewrite elem_of_cons, elem_of_nil. by intros [[=]|[]].
Defined.

(** ** The finalized report and the declared features *)

Lemma collect_keys (record : string → result pyval) (features : list string)
    (stats : dict pyval) (f : string) :
  DatasetStatistics.collect record features = Ok stats →
  is_Some (dict_get stats f) → f ∈ features.
Proof.
  unfold DatasetStatistics.collect.
  assert (∀ stats0, for_each (λ stats feature, r ← record feature;
                                Ok (dict_set stats feature r)) features stats0 = Ok stats →
            is_Some (dict_get stats f) → f ∈ features ∨ is_Some (dict_get stats0 f))
    as Hgen.
  { induction features as [|x features IH]; intros stats0 Hrun Hf; cbn in Hrun.
    - simplify_eq. by right.
    - apply bind_Ok in Hrun as (stats1 & Hx & Hrun).
      apply bind_Ok in Hx as (r & Hr & [= <-]).
      destruct (IH _ Hrun Hf) as [Hin|Hsome]; [left; by right|].
      rewrite dict_get_set in Hsome. case_decide; [subst; left; by left|by right]. }
  intros Hrun Hf. destruct (Hgen [] Hrun Hf) as [?|[? [=]]]. done.
Qed.

Lemma collect_Ok (record : string → result pyval) (features : list string) :
  (∀ f, f ∈ features → ∃ r, record f = Ok r) →
  ∃ stats, DatasetStatistics.collect record features = Ok stats.
Proof.
  unfold DatasetStatistics.collect. generalize ([] : dict pyval) as stats0.
  induction features as [|x features IH]; intros stats0 Hrecord; cbn.
  - by eexists.
  - destruct (Hrecord x) as [r ->]; [by left|]. cbn. apply IH.
    intros f Hf. apply Hrecord. by right.
Qed.

Lemma compute_final_statistics_Ok (self : DatasetStatistics.t) (report : pyval) :
  DatasetStatistics._compute_final_statistics self = Ok report →
  ∃ numeric categorical text date,
    report = report_of numeric categorical text date
    ∧ DatasetStatistics.collect (DatasetStatistics.numeric_record self)
        (DatasetStatistics.numeric_features self) = Ok numeric
    ∧ DatasetStatistics.collect (DatasetStatistics.categorical_record self)
        (DatasetStatistics.categorical_features self) = Ok categorical
    ∧ DatasetStatistics.collect (DatasetStatistics.text_record self)
        (DatasetStatistics.text_features self) = Ok text
    ∧ DatasetStatistics.collect (DatasetStatistics.date_record self)
        (DatasetStatistics.date_features self) = Ok date.
Proof.
  unfold DatasetStatistics._compute_final_statistics. intros Hfinal.
  apply bind_Ok in Hfinal as (numeric & ? & Hfinal).
  apply bind_Ok in Hfinal as (categorical & ? & Hfinal).
  apply bind_Ok in Hfinal as (text & ? & Hfinal).
  apply bind_Ok in Hfinal as (date & ? & [= <-]).
  by eexists _, _, _, _.
Qed.

(** X13.  A finalized report has, in each of its four categories, a record
    for every feature declared in that category and for no other name. *)
Theorem report_has_declared_features (self : DatasetStatistics.t) (report : pyval)
    (f : string) :
  DatasetStatistics._compute_final_statistics self = Ok report →
  (is_Some (report_record report "numeric_stats" f)
   ↔ f ∈ DatasetStatistics.numeric_features self)
  ∧ (is_Some (report_record report "categorical_stats" f)
     ↔ f ∈ DatasetStatistics.categorical_features self)
  ∧ (is_Some (report_record report "text_stats" f)
     ↔ f ∈ DatasetStatistics.text_features self)
  ∧ (is_Some (report_record report "date_stats" f)
     ↔ f ∈ DatasetStatistics.date_features self).
Proof.
  intros (numeric & categorical & text & date & -> & Hn & Hc & Ht & Hd)
    %compute_final_statistics_Ok.
  assert (∀ record features stats,
            DatasetStatistics.collect record features = Ok stats →
            is_Some (dict_get stats f) ↔ f ∈ features) as Hkeys.
  { intros record features stats Hrun. split; [by eapply collect_keys|].
    intros Hf. destruct (collect_lookup _ _ _ f Hrun Hf) as (r & _ & ->). by eexists. }
  split; [exact (Hkeys _ _ _ Hn)|]. split; [exact (Hkeys _ _ _ Hc)|].
  split; [exact (Hkeys _ _ _ Ht) | exact (Hkeys _ _ _ Hd)].
Qed.

(** The theorem on the engine of one categorical feature, before any batch. *)
Lemma report_has_declared_features_witness :
  is_Some (report_record
             (report_of [] [("colour", vocabulary_record [] tf_int32)] [] [])
             "categorical_stats" "colour").
Proof.
  apply (report_has_declared_features (categorical_engine "colour" tf_int32) _ "colour");
    [reflexivity | by left].
Defined.

(** X14.  Finalization reads the specification of every numeric,
    categorical and text feature: if one of them has none, it raises.  (A
    date feature needs none.) *)
Theorem missing_specification_aborts (self : DatasetStatistics.t) (f : string) :
  f ∈ DatasetStatistics.numeric_features self
      ++ DatasetStatistics.categorical_features self
      ++ DatasetStatistics.text_features self →
  dict_get (DatasetStatistics.features_specs self) f = None →
  ∃ e, DatasetStatistics._compute_final_statistics self = Raise e.
Proof.
  intros Hf Hspec.
  destruct (DatasetStatistics._compute_final_statistics self) as [report|e] eqn:Hfinal;
    [|by eexists].
  apply compute_final_statistics_Ok in Hfinal
    as (numeric & categorical & text & date & -> & Hn & Hc & Ht & Hd).
  assert (dict_item (DatasetStatistics.features_specs self) f
          = Raise (KeyError f)) as Hitem.
  { unfold dict_item. by rewrite Hspec. }
  rewrite !elem_of_app in Hf. destruct Hf as [Hf|[Hf|Hf]].
  - destruct (collect_lookup _ _ _ f Hn Hf) as (r & Hr & _).
    unfold DatasetStatistics.numeric_record in Hr.
    apply bind_Ok in Hr as (? & _ & Hr). by rewrite Hitem in Hr.
  - destruct (collect_lookup _ _ _ f Hc Hf) as (r & Hr & _).
    unfold DatasetStatistics.categorical_record in Hr. by rewrite Hitem in Hr.
  - destruct (collect_lookup _ _ _ f Ht Hf) as (r & Hr & _).
    unfold DatasetStatistics.text_record in Hr.
    apply bind_Ok in Hr as (? & _ & Hr). by rewrite Hitem in Hr.
Qed.

(** The theorem on an engine whose text feature has no specification. *)
Lemma missing_specification_aborts_witness :
  ∃ e,
    DatasetStatistics._compute_final_statistics
      (DatasetStatistics.init [("age", {| spec_dtype := tf_float32 |})]
         ["age"] [] ["title"] [] false)
    = Raise e.
Proof.
  apply (missing_specification_aborts _ "title").
  - apply elem_of_app. right. by left.
  - reflexivity.
Defined.

(** ** Saving and loading a finalized report *)

Lemma json_encode_dict default d :
  json_encode default (PyDict d)
  = members ← list_comprehension
                (λ kv : string * pyval, v' ← json_encode default kv.2; Ok (kv.1, v')) d;
    Ok (JObject members).
Proof.
  cbn [json_encode]. f_equal. induction d as [|kv d IH]; [done|].
  cbn [list_comprehension]. rewrite <- IH. by destruct (json_encode default kv.2).
Qed.

Lemma json_encode_list default l :
  json_encode default (PyList l)
  = items ← list_comprehension (json_encode default) l; Ok (JArray items).
Proof.
  cbn [json_encode]. f_equal. induction l as [|x l IH]; [done|].
  cbn [list_comprehension]. by rewrite <- IH.
Qed.

Lemma dict_get_NoDup {V : Type} (d : dict V) (k : string) (v : V) :
  NoDup (map fst d) → (k, v) ∈ d → dict_get d k = Some v.
Proof.
  induction d as [|[k0 v0] d IH]; intros Hd Hin; [by apply elem_of_nil in Hin|].
  cbn in Hd. apply NoDup_cons in Hd as [Hk0 Hd]. cbn.
  apply elem_of_cons in Hin as [[= -> ->]|Hin].
  - by rewrite decide_True.
  - rewrite decide_False; [by apply IH|].
    intros ->. apply Hk0. apply list_elem_of_fmap. by exists (k, v).
Qed.

(** Two dicts with the same keys in the same order are equal when their
    values are, entry by entry. *)
Lemma py_eq_dict (d' d : dict pyval) :
  map fst d' = map fst d → NoDup (map fst d) →
  py_eq (PyDict d') (PyDict d)
  = forallb (λ p : pyval * pyval, py_eq p.1 p.2) (paired_values d' d).
Proof.
  intros Hkeys Hd. cbn [py_eq].
  rewrite bool_decide_true
    by (by rewrite <- (length_map fst d'), Hkeys, length_map).
  cbn [andb]. unfold paired_values.
  assert (∀ sub, sub ⊆ d → ∀ da, map fst da = map fst sub →
    (fix all (da : list (string * pyval)) : bool :=
       match da with
       | [] => true
       | kv :: da' =>
           match dict_get d kv.1 with
           | Some v => py_eq kv.2 v
           | None => false
           end && all da'
       end) da
    = forallb (λ p : pyval * pyval, py_eq p.1 p.2) (zip (map snd da) (map snd sub)))
    as Hgen.
  { intros sub Hsub da. revert sub Hsub.
    induction da as [|[k v'] da IH]; intros [|[k0 v] sub] Hsub Hk; try done.
    cbn in Hk. injection Hk as -> Hk. cbn [map zip forallb zip_with fst snd].
    rewrite (dict_get_NoDup d k0 v) by (done || apply Hsub; by left).
    f_equal. apply IH; [|done]. intros x Hx. apply Hsub. by right. }
  by apply Hgen.
Qed.

Lemma list_comprehension_length {X Y : Type} (f : X → result Y) xs ys :
  list_comprehension f xs = Ok ys → length ys = length xs.
Proof.
  revert ys. induction xs as [|x xs IH]; intros ys Hrun; cbn in Hrun.
  - by simplify_eq.
  - apply bind_Ok in Hrun as (y & _ & Hrun).
    apply bind_Ok in Hrun as (ys' & Hys & [= <-]). cbn. f_equal. by apply IH.
Qed.

Lemma as_dtype_name (d : DType) : as_dtype (PyStr (DType_name d)) = Ok d.
Proof. by destruct d. Qed.

Lemma vocabulary_record_restored (vocab : list pyval) (items : list json) (d : DType) :
  list_comprehension json_dump vocab = Ok items →
  record_restored (vocabulary_record vocab d)
    (vocabulary_record (map json_load items) d).
Proof.
  intros Hitems.
  exists (JObject [ ("size", JInt (Z.of_nat (length vocab)));
                    ("vocab", JArray items);
                    ("dtype", JString (DType_name d)) ]).
  split.
  - unfold json_dump, vocabulary_record. rewrite json_encode_dict.
    cbn [list_comprehension fst snd]. rewrite json_encode_list.
    change (list_comprehension _ vocab) with (list_comprehension json_dump vocab).
    rewrite Hitems. done.
  - unfold vocabulary_record. rewrite length_map, (list_comprehension_length _ _ _ Hitems).
    cbn [json_load map fst snd DatasetStatistics.restore_dtype].
    change (dict_get _ "dtype") with (Some (PyStr (DType_name d))).
    cbn match. rewrite as_dtype_name. done.
Qed.

Lemma numeric_record_restored (mean count var : Q) (d : DType) :
  record_restored (numeric_record_of mean count var d)
    (PyDict [ ("mean", PyFloat mean); ("count", PyFloat count);
              ("var", PyFloat var); ("dtype", TfDType d) ]).
Proof.
  exists (JObject [ ("mean", JFloat mean); ("count", JFloat count);
                    ("var", JFloat var); ("dtype", JString (DType_name d)) ]).
  split; [done|].
  cbn [json_load map fst snd DatasetStatistics.restore_dtype].
  change (dict_get _ "dtype") with (Some (PyStr (DType_name d))).
  cbn match. rewrite as_dtype_name. done.
Qed.

Lemma zero_date_record_restored : record_restored zero_date_record zero_date_record.
Proof. by eexists. Qed.

Lemma dump_integers (l : list Z) :
  list_comprehension json_dump (map PyInt l) = Ok (map JInt l).
Proof. induction l as [|z l IH]; [done|]. cbn [map list_comprehension]. by rewrite IH. Qed.

Lemma dump_strings (l : list string) :
  list_comprehension json_dump (map PyStr l) = Ok (map JString l).
Proof. induction l as [|z l IH]; [done|]. cbn [map list_comprehension]. by rewrite IH. Qed.

Lemma dump_bytes (l : list string) :
  list_comprehension json_dump (map PyBytes l)
  = Ok (map (λ w, JString (bytes_repr w)) l).
Proof. induction l as [|z l IH]; [done|]. cbn [map list_comprehension]. by rewrite IH. Qed.

Lemma py_eq_integers (l : list Z) : py_eq (PyList (map PyInt l)) (PyList (map PyInt l)) = true.
Proof.
  cbn [py_eq]. induction l as [|z l IH]; [done|].
  cbn [map]. rewrite IH. cbn. by rewrite Qeq_bool_refl.
Qed.

Lemma py_eq_strings (l : list string) :
  py_eq (PyList (map PyStr l)) (PyList (map PyStr l)) = true.
Proof.
  cbn [py_eq]. induction l as [|z l IH]; [done|].
  cbn [map]. rewrite IH. cbn. by rewrite bool_decide_true.
Qed.

Lemma py_eq_vocabulary_record (vocab' vocab : list pyval) (d : DType) :
  length vocab' = length vocab →
  py_eq (vocabulary_record vocab' d) (vocabulary_record vocab d)
  = py_eq (PyList vocab') (PyList vocab).
Proof.
  intros Hlength. unfold vocabulary_record.
  rewrite py_eq_dict; [|done|compute_done].
  cbn [paired_values map zip zip_with forallb fst snd]. rewrite Hlength.
  assert (∀ z, py_eq (PyInt z) (PyInt z) = true) as ->
    by (intros z; cbn; apply Qeq_bool_refl).
  assert (py_eq (TfDType d) (TfDType d) = true) as ->
    by (cbn; by rewrite bool_decide_true).
  cbn [andb]. by rewrite andb_true_r.
Qed.

Lemma plain_record_restored (r : pyval) :
  plain_record r →
  ∃ r', record_restored r r' ∧ py_eq r' r = true ∧ py_eq r r' = true.
Proof.
  intros [(mean & count & var & d & ->)
         |[(vocab & d & ->)|[(vocab & d & ->)| ->]]].
  - eexists. split; [apply numeric_record_restored|].
    unfold numeric_record_of.
    rewrite !py_eq_dict; [|done|compute_done|done|compute_done].
    cbn. rewrite !Qeq_bool_refl, bool_decide_true; done.
  - eexists. split; [apply vocabulary_record_restored, dump_integers|].
    rewrite map_map. cbn [json_load]. rewrite !py_eq_vocabulary_record by done.
    split; apply py_eq_integers.
  - eexists. split; [apply vocabulary_record_restored, dump_strings|].
    rewrite map_map. cbn [json_load]. rewrite !py_eq_vocabulary_record by done.
    split; apply py_eq_strings.
  - exists zero_date_record. split; [apply zero_date_record_restored|done].
Qed.

Lemma text_record_restored (words : list string) (d : DType) :
  ∃ r', record_restored (vocabulary_record (map PyBytes words) d) r'
        ∧ py_eq r' (vocabulary_record (map PyBytes words) d)
          = bool_decide (words = [])
        ∧ py_eq (vocabulary_record (map PyBytes words) d) r'
          = bool_decide (words = []).
Proof.
  eexists. split; [apply vocabulary_record_restored, dump_bytes|].
  rewrite map_map. cbn [json_load].
  rewrite !py_eq_vocabulary_record by (by rewrite !length_map).
  by destruct words.
Qed.

Lemma record_restored_functional (r r1 r2 : pyval) :
  record_restored r r1 → record_restored r r2 → r1 = r2.
Proof. intros (j1 & Hj1 & Hr1) (j2 & Hj2 & Hr2). congruence. Qed.

(** A category of the report, dumped and loaded record by record. *)
Lemma category_restored (d : dict pyval) :
  Forall (λ r, ∃ r', record_restored r r') (map snd d) →
  ∃ members d',
    json_dump (PyDict d) = Ok (JObject members)
    ∧ list_comprehension (λ fv : string * pyval,
          feature_stats ← DatasetStatistics.restore_dtype fv.2; Ok (fv.1, feature_stats))
        (map (λ kv : string * json, (kv.1, json_load kv.2)) members) = Ok d'
    ∧ map fst d' = map fst d
    ∧ Forall2 record_restored (map snd d) (map snd d').
Proof.
  unfold json_dump. rewrite json_encode_dict.
  induction d as [|[k r] d IH]; intros Hd.
  - by exists [], [].
  - cbn [map snd] in Hd. apply Forall_cons in Hd as [(r' & j & Hj & Hr') Hd].
    destruct (IH Hd) as (members & d' & Hmembers & Hd' & Hkeys & Hall).
    apply bind_Ok in Hmembers as (members' & Hmembers & [= <-]).
    exists ((k, j) :: members'), ((k, r') :: d').
    cbn [list_comprehension map fst snd].
    unfold json_dump in Hj. rewrite Hj, Hmembers, Hr', Hd', Hkeys.
    repeat split; try done. constructor; [by exists j|done].
Qed.

Lemma report_restored (numeric categorical text date : dict pyval) :
  Forall (λ r, ∃ r', record_restored r r') (map snd numeric) →
  Forall (λ r, ∃ r', record_restored r r') (map snd categorical) →
  Forall (λ r, ∃ r', record_restored r r') (map snd text) →
  Forall (λ r, ∃ r', record_restored r r') (map snd date) →
  ∃ document numeric' categorical' text' date',
    json_dump (report_of numeric categorical text date) = Ok document
    ∧ DatasetStatistics.restore_dtypes (json_load document)
      = Ok (report_of numeric' categorical' text' date')
    ∧ (map fst numeric' = map fst numeric
       ∧ Forall2 record_restored (map snd numeric) (map snd numeric'))
    ∧ (map fst categorical' = map fst categorical
       ∧ Forall2 record_restored (map snd categorical) (map snd categorical'))
    ∧ (map fst text' = map fst text
       ∧ Forall2 record_restored (map snd text) (map snd text'))
    ∧ (map fst date' = map fst date
       ∧ Forall2 record_restored (map snd date) (map snd date')).
Proof.
  intros (jn & numeric' & Hjn & Hn & ?)%category_restored
         (jc & categorical' & Hjc & Hc & ?)%category_restored
         (jt & text' & Hjt & Ht & ?)%category_restored
         (jd & date' & Hjd & Hd & ?)%category_restored.
  exists (JObject [ ("numeric_stats", JObject jn); ("categorical_stats", JObject jc);
                    ("text_stats", JObject jt); ("date_stats", JObject jd) ]),
    numeric', categorical', text', date'.
  split; [|split; [|done]].
  - unfold json_dump, report_of. rewrite json_encode_dict.
    cbn [list_comprehension fst snd].
    change (json_encode _ (PyDict numeric)) with (json_dump (PyDict numeric)).
    change (json_encode _ (PyDict categorical)) with (json_dump (PyDict categorical)).
    change (json_encode _ (PyDict text)) with (json_dump (PyDict text)).
    change (json_encode _ (PyDict date)) with (json_dump (PyDict date)).
    rewrite Hjn, Hjc, Hjt, Hjd. done.
  - cbn [json_load map fst snd DatasetStatistics.restore_dtypes list_comprehension].
    rewrite Hn, Hc, Ht, Hd. done.
Qed.

(** Two reports with the same features are equal when their records are. *)
Lemma py_eq_report (numeric' categorical' text' date'
    numeric categorical text date : dict pyval) :
  py_eq (report_of numeric' categorical' text' date')
    (report_of numeric categorical text date)
  = py_eq (PyDict numeric') (PyDict numeric)
    && py_eq (PyDict categorical') (PyDict categorical)
    && py_eq (PyDict text') (PyDict text)
    && py_eq (PyDict date') (PyDict date).
Proof.
  unfold report_of. rewrite py_eq_dict; [|done|compute_done].
  cbn [paired_values map zip zip_with forallb fst snd].
  by rewrite andb_true_r, !andb_assoc.
Qed.

Lemma py_eq_category (P : pyval → Prop) (d d' : dict pyval) :
  (∀ r r', P r → record_restored r r' → py_eq r' r = true ∧ py_eq r r' = true) →
  NoDup (map fst d) → Forall P (map snd d) →
  map fst d' = map fst d → Forall2 record_restored (map snd d) (map snd d') →
  py_eq (PyDict d') (PyDict d) = true ∧ py_eq (PyDict d) (PyDict d') = true.
Proof.
  intros HP Hd Hall Hkeys Hrestored.
  rewrite !py_eq_dict by (done || by rewrite Hkeys).
  unfold paired_values. clear Hd Hkeys.
  induction Hrestored as [|r r' rs rs' Hr Hrs IH]; [done|].
  apply Forall_cons in Hall as [HPr Hall]. destruct (IH Hall) as [IH1 IH2].
  destruct (HP r r' HPr Hr) as [E1 E2].
  cbn [zip zip_with forallb fst snd]. by rewrite E1, E2, IH1, IH2.
Qed.

Lemma dict_set_keys {V : Type} (d : dict V) (k k' : string) (v : V) :
  k' ∈ map fst (dict_set d k v) ↔ k' = k ∨ k' ∈ map fst d.
Proof.
  induction d as [|[k0 v0] d IH]; cbn.
  - rewrite elem_of_cons. by rewrite elem_of_nil.
  - destruct (decide (k0 = k)) as [->|Hk0]; cbn; rewrite !elem_of_cons; [tauto|].
    rewrite IH. tauto.
Qed.

Lemma dict_set_NoDup {V : Type} (d : dict V) (k : string) (v : V) :
  NoDup (map fst d) → NoDup (map fst (dict_set d k v)).
Proof.
  induction d as [|[k0 v0] d IH]; cbn; intros Hd.
  - apply NoDup_singleton.
  - apply NoDup_cons in Hd as [Hk0 Hd].
    destruct (decide (k0 = k)) as [->|Hne]; cbn; apply NoDup_cons; [done|].
    split; [|by apply IH]. rewrite dict_set_keys. intros [?|?]; done.
Qed.

Lemma dict_set_values {V : Type} (P : V → Prop) (d : dict V) (k : string) (v : V) :
  Forall P (map snd d) → P v → Forall P (map snd (dict_set d k v)).
Proof.
  induction d as [|[k0 v0] d IH]; cbn; intros Hd Hv.
  - by constructor.
  - apply Forall_cons in Hd as [Hv0 Hd].
    destruct (decide (k0 = k)); cbn; constructor; auto.
Qed.

Lemma dict_get_elem {V : Type} (d : dict V) (k : string) (v : V) :
  dict_get d k = Some v → (k, v) ∈ d.
Proof.
  induction d as [|[k0 v0] d IH]; cbn; [done|].
  destruct (decide (k0 = k)) as [->|]; [intros [= ->]; by left|right; auto].
Qed.

(** What [collect] returns: one entry per feature name, each a record that
    the feature's finalization returned. *)
Lemma collect_records (P : pyval → Prop) (record : string → result pyval)
    (features : list string) (stats : dict pyval) :
  (∀ f r, f ∈ features → record f = Ok r → P r) →
  DatasetStatistics.collect record features = Ok stats →
  NoDup (map fst stats) ∧ Forall P (map snd stats).
Proof.
  unfold DatasetStatistics.collect. intros Hrecord.
  assert (NoDup (map fst ([] : dict pyval)) ∧ Forall P (map snd ([] : dict pyval)))
    as Hinit by (split; constructor).
  revert Hinit. generalize ([] : dict pyval) as stats0.
  induction features as [|x features IH]; intros stats0 [Hkeys Hvalues] Hrun;
    cbn in Hrun.
  - by simplify_eq.
  - apply bind_Ok in Hrun as (stats1 & Hx & Hrun).
    apply bind_Ok in Hx as (r & Hr & [= <-]).
    apply (IH (λ f r Hf, Hrecord f r (proj2 (elem_of_cons _ _ _) (or_intror Hf))) _) in Hrun;
      [done|].
    split; [by apply dict_set_NoDup|].
    apply dict_set_values; [done|]. apply (Hrecord x); [by left|done].
Qed.

Lemma numeric_record_plain (self : DatasetStatistics.t) (f : string) (r : pyval) :
  DatasetStatistics.numeric_record self f = Ok r → plain_record r.
Proof.
  unfold DatasetStatistics.numeric_record.
  intros (acc & _ & (spec & _ & [= <-])%bind_Ok)%bind_Ok. left. by eexists _, _, _, _.
Qed.

Lemma categorical_record_plain (self : DatasetStatistics.t) (f : string) (r : pyval) :
  DatasetStatistics.categorical_record self f = Ok r → plain_record r.
Proof.
  unfold DatasetStatistics.categorical_record.
  intros (spec & _ & (acc & _ & Hr)%bind_Ok)%bind_Ok.
  destruct (decide (spec_dtype spec = tf_int32)).
  - apply bind_Ok in Hr as (vocab & _ & [= <-]). right; left.
    eexists _, _. unfold vocabulary_record. by rewrite length_map.
  - apply bind_Ok in Hr as (vocab & _ & [= <-]). right; right; left.
    eexists _, _. unfold vocabulary_record. by rewrite length_map.
Qed.

Lemma text_record_words (self : DatasetStatistics.t) (f : string) (r : pyval) :
  DatasetStatistics.text_record self f = Ok r →
  ∃ acc d, dict_get (DatasetStatistics.text_stats self) f = Some acc
           ∧ r = vocabulary_record
                   (map PyBytes (TextAccumulator.get_unique_words acc)) d.
Proof.
  unfold DatasetStatistics.text_record.
  intros (acc & Hacc & (spec & _ & [= <-])%bind_Ok)%bind_Ok.
  exists acc, (spec_dtype spec). split.
  - unfold dict_item in Hacc. by destruct (dict_get _ f); simplify_eq.
  - unfold vocabulary_record. by rewrite length_map.
Qed.

Lemma Forall2_paired {A B : Type} (R : A → B → Prop) (l : list A) (l' : list B) (x : A) :
  Forall2 R l l' → x ∈ l → ∃ y, R x y ∧ (y, x) ∈ zip l' l ∧ (x, y) ∈ zip l l'.
Proof.
  induction 1 as [|a b l l' Hab Hl IH]; intros Hx; [by apply elem_of_nil in Hx|].
  apply elem_of_cons in Hx as [->|Hx].
  - exists b. cbn. repeat split; [done|by left..].
  - destruct (IH Hx) as (y & ? & ? & ?). exists y. cbn. repeat split; [done|by right..].
Qed.

Lemma forallb_elem_false {A : Type} (f : A → bool) (l : list A) (x : A) :
  x ∈ l → f x = false → forallb f l = false.
Proof.
  induction l as [|a l IH]; intros Hx Hf; [by apply elem_of_nil in Hx|].
  cbn. apply elem_of_cons in Hx as [<-|Hx]; [by rewrite Hf|].
  rewrite IH by done. apply andb_false_r.
Qed.

(** Every record of a finalized report can be dumped and restored. *)
Lemma finalized_report_restored (self : DatasetStatistics.t) (report : pyval) :
  DatasetStatistics._compute_final_statistics self = Ok report →
  ∃ numeric categorical text date document numeric' categorical' text' date',
    report = report_of numeric categorical text date
    ∧ json_dump report = Ok document
    ∧ DatasetStatistics.restore_dtypes (json_load document)
      = Ok (report_of numeric' categorical' text' date')
    ∧ py_eq (PyDict numeric') (PyDict numeric) = true
    ∧ py_eq (PyDict numeric) (PyDict numeric') = true
    ∧ py_eq (PyDict categorical') (PyDict categorical) = true
    ∧ py_eq (PyDict categorical) (PyDict categorical') = true
    ∧ py_eq (PyDict date') (PyDict date) = true
    ∧ py_eq (PyDict date) (PyDict date') = true
    ∧ NoDup (map fst text)
    ∧ map fst text' = map fst text
    ∧ Forall2 record_restored (map snd text) (map snd text')
    ∧ DatasetStatistics.collect (DatasetStatistics.text_record self)
        (DatasetStatistics.text_features self) = Ok text.
Proof.
  intros (numeric & categorical & text & date & -> & Hn & Hc & Ht & Hd)
    %compute_final_statistics_Ok.
  apply (collect_records plain_record) in Hn as [Hnk Hnv];
    [|intros ? ? _; apply numeric_record_plain].
  apply (collect_records plain_record) in Hc as [Hck Hcv];
    [|intros ? ? _; apply categorical_record_plain].
  apply (collect_records plain_record) in Hd as [Hdk Hdv];
    [|intros ? ? _ ->%date_record_zero; by repeat right].
  pose proof Ht as Htext.
  apply (collect_records (λ r, ∃ r', record_restored r r')) in Ht as [Htk Htv].
  2:{ intros f r _ (acc & d & _ & ->)%text_record_words.
      destruct (text_record_restored (TextAccumulator.get_unique_words acc) d)
        as (r' & ? & _). by exists r'. }
  assert (∀ d : dict pyval, Forall plain_record (map snd d) →
               Forall (λ r, ∃ r', record_restored r r') (map snd d)) as Hplain.
  { intros d Hall. eapply Forall_impl; [exact Hall|].
    intros r (r' & ? & _)%plain_record_restored. by exists r'. }
  destruct (report_restored numeric categorical text date)
    as (document & numeric' & categorical' & text' & date' & Hdump & Hload
        & [? ?] & [? ?] & [? ?] & [? ?]); auto.
  assert (∀ r r', plain_record r → record_restored r r' →
                  py_eq r' r = true ∧ py_eq r r' = true) as Hequal.
  { intros r r' (r'' & Hr'' & ?)%plain_record_restored Hr'.
    by rewrite (record_restored_functional _ _ _ Hr' Hr''). }
  destruct (py_eq_category plain_record numeric numeric') as [? ?]; try done.
  destruct (py_eq_category plain_record categorical categorical') as [? ?]; try done.
  destruct (py_eq_category plain_record date date') as [? ?]; try done.
  exists numeric, categorical, text, date, document, numeric', categorical', text', date'.
  repeat split; done.
Qed.

Lemma persist_then_load_report (self : DatasetStatistics.t) (report loaded : pyval)
    (document : json) :
  DatasetStatistics.overwrite_stats self = false →
  json_dump report = Ok document →
  DatasetStatistics.restore_dtypes (json_load document) = Ok loaded →
  persist_then_load (DatasetStatistics.set_features_stats self report) = Ok loaded.
Proof.
  intros Hoverwrite Hdump Hload.
  unfold persist_then_load, DatasetStatistics._save_stats, DatasetStatistics._load_stats.
  cbn [DatasetStatistics.set_features_stats DatasetStatistics.features_stats
       DatasetStatistics.overwrite_stats].
  rewrite Hdump, Hoverwrite. cbn. rewrite Hload. done.
Qed.

Lemma plain_record_equal (r r' : pyval) :
  plain_record r → record_restored r r' → py_eq r' r = true ∧ py_eq r r' = true.
Proof.
  intros (r'' & Hr'' & ?)%plain_record_restored Hr'.
  by rewrite (record_restored_functional _ _ _ Hr' Hr'').
Qed.

Lemma float_free_record_plain (r : pyval) : float_free_record r → plain_record r.
Proof. intros Hr. by right. Qed.

Lemma float_free_record_restored (r : pyval) :
  float_free_record r → record_restored r r.
Proof.
  intros [(vocab & d & ->)|[(vocab & d & ->)| ->]].
  - pose proof (vocabulary_record_restored _ _ d (dump_integers vocab)) as Hr.
    rewrite map_map in Hr. exact Hr.
  - pose proof (vocabulary_record_restored _ _ d (dump_strings vocab)) as Hr.
    rewrite map_map in Hr. exact Hr.
  - apply zero_date_record_restored.
Qed.

Lemma category_unchanged (d d' : dict pyval) :
  Forall float_free_record (map snd d) → map fst d' = map fst d →
  Forall2 record_restored (map snd d) (map snd d') → d' = d.
Proof.
  revert d'. induction d as [|[k r] d IH]; intros [|[k' r'] d'] Hd Hkeys Hall;
    try done; cbn in *.
  apply Forall_cons in Hd as [Hr Hd]. injection Hkeys as -> Hkeys.
  apply Forall2_cons in Hall as [Hr' Hall].
  rewrite (record_restored_functional _ _ _ Hr' (float_free_record_restored _ Hr)).
  f_equal. by apply IH.
Qed.

Lemma categorical_record_float_free (self : DatasetStatistics.t) (f : string)
    (r : pyval) :
  DatasetStatistics.categorical_record self f = Ok r → float_free_record r.
Proof.
  unfold DatasetStatistics.categorical_record.
  intros (spec & _ & (acc & _ & Hr)%bind_Ok)%bind_Ok.
  destruct (decide (spec_dtype spec = tf_int32)).
  - apply bind_Ok in Hr as (vocab & _ & [= <-]). left.
    eexists _, _. unfold vocabulary_record. by rewrite length_map.
  - apply bind_Ok in Hr as (vocab & _ & [= <-]). right; left.
    eexists _, _. unfold vocabulary_record. by rewrite length_map.
Qed.

(** X15.  A finalized report of an engine without numeric features, in which
    no text feature holds a word, can be saved and loaded again, and loading
    returns the very report that was saved: the same vocabularies and sizes,
    and under [dtype] the dtype objects, not their names.  The report equals
    itself. *)
Theorem report_round_trip_without_words (self : DatasetStatistics.t) (report : pyval) :
  DatasetStatistics.overwrite_stats self = false →
  DatasetStatistics.numeric_features self = [] →
  DatasetStatistics._compute_final_statistics self = Ok report →
  (∀ f acc, dict_get (DatasetStatistics.text_stats self) f = Some acc →
            TextAccumulator.get_unique_words acc = []) →
  persist_then_load (DatasetStatistics.set_features_stats self report) = Ok report
  ∧ py_eq report report = true.
Proof.
  intros Hoverwrite Hnumeric Hfinal Hwords.
  apply compute_final_statistics_Ok in Hfinal
    as (numeric & categorical & text & date & -> & Hn & Hc & Ht & Hd).
  rewrite Hnumeric in Hn. injection Hn as <-.
  apply (collect_records float_free_record) in Hc as [Hck Hcv];
    [|intros ? ? _; apply categorical_record_float_free].
  apply (collect_records float_free_record) in Ht as [Htk Htv].
  2:{ intros f r _ (acc & d & Hacc & ->)%text_record_words.
      rewrite (Hwords f acc Hacc). left. by exists [], d. }
  apply (collect_records float_free_record) in Hd as [Hdk Hdv];
    [|intros ? ? _ ->%date_record_zero; by repeat right].
  assert (∀ d : dict pyval, Forall float_free_record (map snd d) →
            Forall (λ r, ∃ r', record_restored r r') (map snd d)) as Hrestored.
  { intros d Hall. eapply Forall_impl; [exact Hall|].
    intros r Hr. exists r. by apply float_free_record_restored. }
  destruct (report_restored [] categorical text date)
    as (document & numeric' & categorical' & text' & date' & Hdump & Hload
        & [Hn' _] & [Hc1 Hc2] & [Ht1 Ht2] & [Hd1 Hd2]); auto.
  destruct numeric'; [|done].
  rewrite (category_unchanged _ _ Hcv Hc1 Hc2), (category_unchanged _ _ Htv Ht1 Ht2),
    (category_unchanged _ _ Hdv Hd1 Hd2) in Hload.
  split; [by eapply persist_then_load_report|].
  assert (∀ d : dict pyval, NoDup (map fst d) → Forall float_free_record (map snd d) →
            py_eq (PyDict d) (PyDict d) = true) as Hequal.
  { intros d Hkeys Hall.
    apply (py_eq_category plain_record d d); [apply plain_record_equal|done| |done|].
    - eapply Forall_impl; [exact Hall|]. apply float_free_record_plain.
    - clear Hkeys. induction Hall; constructor; [|done].
      by apply float_free_record_restored. }
  rewrite py_eq_report, (Hequal categorical), (Hequal text), (Hequal date) by done.
  done.
Qed.

(** The theorem on an engine that holds three integers for a categorical
    feature and declares a text and a date feature. *)
Lemma report_round_trip_without_words_witness :
  persist_then_load
    (DatasetStatistics.set_features_stats
       (DatasetStatistics.set_categorical_stats
          (DatasetStatistics.init
             [ ("colour", {| spec_dtype := tf_int32 |});
               ("title", {| spec_dtype := tf_string |}) ]
             [] ["colour"] ["title"] ["day"] false)
          [("colour", CategoricalAccumulator.Build [] [3; 1; 2]%Z)])
       (report_of []
          [("colour", vocabulary_record [PyInt 1; PyInt 2; PyInt 3] tf_int32)]
          [("title", vocabulary_record [] tf_string)]
          [("day", zero_date_record)]))
  = Ok (report_of []
          [("colour", vocabulary_record [PyInt 1; PyInt 2; PyInt 3] tf_int32)]
          [("title", vocabulary_record [] tf_string)]
          [("day", zero_date_record)])
  ∧ py_eq
      (report_of []
         [("colour", vocabulary_record [PyInt 1; PyInt 2; PyInt 3] tf_int32)]
         [("title", vocabulary_record [] tf_string)]
         [("day", zero_date_record)])
      (report_of []
         [("colour", vocabulary_record [PyInt 1; PyInt 2; PyInt 3] tf_int32)]
         [("title", vocabulary_record [] tf_string)]
         [("day", zero_date_record)])
    = true.
Proof.
  apply (report_round_trip_without_words
           (DatasetStatistics.set_categorical_stats
              (DatasetStatistics.init
                 [ ("colour", {| spec_dtype := tf_int32 |});
                   ("title", {| spec_dtype := tf_string |}) ]
                 [] ["colour"] ["title"] ["day"] false)
              [("colour", CategoricalAccumulator.Build [] [3; 1; 2]%Z)])).
  - reflexivity.
  - reflexivity.
  - by vm_compute.
  - intros f acc Hacc. cbn in Hacc. destruct (decide ("title" = f)); by simplify_eq.
Defined.

(** X16.  If a text feature holds a word, the finalized report can still be
    saved and loaded, but the loaded report is not equal to it: the words
    went out as byte strings and came back as the text of their [repr]. *)
Theorem text_words_break_round_trip (self : DatasetStatistics.t) (report : pyval)
    (f : string) (acc : TextAccumulator.t) :
  DatasetStatistics.overwrite_stats self = false →
  DatasetStatistics._compute_final_statistics self = Ok report →
  f ∈ DatasetStatistics.text_features self →
  dict_get (DatasetStatistics.text_stats self) f = Some acc →
  TextAccumulator.get_unique_words acc ≠ [] →
  ∃ loaded,
    persist_then_load (DatasetStatistics.set_features_stats self report) = Ok loaded
    ∧ py_eq loaded report = false ∧ py_eq report loaded = false.
Proof.
  intros Hoverwrite Hfinal Hf Hacc Hwords.
  destruct (finalized_report_restored self report Hfinal)
    as (numeric & categorical & text & date & document
        & numeric' & categorical' & text' & date'
        & -> & Hdump & Hload & _ & _ & _ & _ & _ & _
        & Hkeys & Hkeys' & Hrestored & Htext).
  destruct (collect_lookup _ _ _ f Htext Hf) as (r & Hr & Hin).
  apply text_record_words in Hr as (acc' & d & Hacc' & ->).
  assert (acc' = acc) as -> by congruence.
  apply dict_get_elem in Hin.
  assert (vocabulary_record (map PyBytes (TextAccumulator.get_unique_words acc)) d
          ∈ map snd text) as Hvalue.
  { apply list_elem_of_fmap. by eexists (f, _). }
  destruct (Forall2_paired _ _ _ _ Hrestored Hvalue) as (r' & Hr' & Hpair & Hpair').
  destruct (text_record_restored (TextAccumulator.get_unique_words acc) d)
    as (r'' & Hr'' & E & E').
  rewrite <- (record_restored_functional _ _ _ Hr' Hr'') in E, E'.
  rewrite bool_decide_false in E, E' by done.
  assert (py_eq (PyDict text') (PyDict text) = false) as Ht.
  { rewrite py_eq_dict by done. by apply (forallb_elem_false _ _ _ Hpair). }
  assert (py_eq (PyDict text) (PyDict text') = false) as Ht'.
  { rewrite py_eq_dict by (done || by rewrite Hkeys').
    by apply (forallb_elem_false _ _ _ Hpair'). }
  eexists. split; [by eapply persist_then_load_report|].
  rewrite !py_eq_report, Ht, Ht'. by rewrite !andb_false_r.
Qed.

(** The theorem on a text feature that holds one word. *)
Lemma text_words_break_round_trip_witness :
  ∃ loaded,
    persist_then_load
      (DatasetStatistics.set_features_stats
         (DatasetStatistics.set_text_stats (text_engine "title")
            [("title", {| TextAccumulator.words := ["the"] |})])
         (report_of [] [] [("title", vocabulary_record [PyBytes "the"] tf_string)] []))
    = Ok loaded
    ∧ py_eq loaded
        (report_of [] [] [("title", vocabulary_record [PyBytes "the"] tf_string)] [])
      = false
    ∧ py_eq
        (report_of [] [] [("title", vocabulary_record [PyBytes "the"] tf_string)] [])
        loaded
      = false.
Proof.
  apply (text_words_break_round_trip _ _ "title" {| TextAccumulator.words := ["the"] |});
    [reflexivity|reflexivity|by left|reflexivity|done].
Defined.

(** ** One feature among many, from the batches to the report *)

(** A loop that reads the accumulator of each feature, steps it and stores
    it back, as the four loops of [_process_batch] do. *)
Section feature_loop.
Context {S A : Type} (get : S → dict A).
Context (step : string → A → result A) (body : S → string → result S).
Hypothesis body_step : ∀ s feature s',
  body s feature = Ok s' →
  ∃ acc acc', dict_get (get s) feature = Some acc ∧ step feature acc = Ok acc'
              ∧ get s' = dict_set (get s) feature acc'.

Lemma loop_other (features : list string) (s s' : S) (f : string) :
  for_each body features s = Ok s' → f ∉ features →
  dict_get (get s') f = dict_get (get s) f.
Proof using body_step.
  revert s. induction features as [|x features IH]; intros s Hrun Hf; cbn in Hrun.
  - by simplify_eq.
  - apply bind_Ok in Hrun as (s1 & Hx & Hrun).
    apply body_step in Hx as (acc & acc' & _ & _ & Hs1).
    apply not_elem_of_cons in Hf as [Hne Hf].
    rewrite (IH _ Hrun Hf), Hs1, dict_get_set. by rewrite decide_False.
Qed.

Lemma loop_entry (features : list string) (s s' : S) (f : string) (acc : A) :
  for_each body features s = Ok s' → NoDup features → f ∈ features →
  dict_get (get s) f = Some acc →
  ∃ acc', step f acc = Ok acc' ∧ dict_get (get s') f = Some acc'.
Proof using body_step.
  revert s. induction features as [|x features IH]; intros s Hrun Hfeatures Hf Hacc.
  - by apply elem_of_nil in Hf.
  - cbn in Hrun. apply bind_Ok in Hrun as (s1 & Hx & Hrun).
    apply NoDup_cons in Hfeatures as [Hx' Hfeatures].
    apply body_step in Hx as (acc0 & acc' & Hacc0 & Hstep & Hs1).
    destruct (decide (x = f)) as [->|Hne].
    + rewrite Hacc in Hacc0. injection Hacc0 as <-.
      exists acc'. split; [done|].
      rewrite (loop_other _ _ _ _ Hrun Hx'), Hs1, dict_get_set.
      by rewrite decide_True.
    + apply elem_of_cons in Hf as [->|Hf]; [done|].
      apply (IH _ Hrun Hfeatures Hf).
      rewrite Hs1, dict_get_set. by rewrite decide_False.
Qed.
End feature_loop.

Lemma dict_item_Ok {V : Type} (d : dict V) (k : string) (v : V) :
  dict_item d k = Ok v ↔ dict_get d k = Some v.
Proof. unfold dict_item. destruct (dict_get d k); split; congruence. Qed.

Lemma dict_from_keys_lookup {V : Type} (cols : list string) (make : V) (f : string) :
  f ∈ cols → dict_get (dict_from_keys cols make) f = Some make.
Proof.
  unfold dict_from_keys. generalize ([] : dict V) as d.
  assert (∀ cols (d : dict V), dict_get d f = Some make →
            dict_get (foldl (λ d col, dict_set d col make) d cols) f = Some make)
    as Hkeep.
  { clear cols. induction cols as [|x cols IH]; intros d Hd; [done|]. cbn [foldl]. apply IH.
    cbn beta. rewrite dict_get_set. by case_decide. }
  induction cols as [|x cols IH]; intros d Hf; [by apply elem_of_nil in Hf|].
  cbn [foldl]. destruct (decide (x = f)) as [->|Hne].
  - apply Hkeep. cbn beta. rewrite dict_get_set. by rewrite decide_True.
  - apply elem_of_cons in Hf as [->|Hf]; [done|]. by apply IH.
Qed.

Section one_feature.
Context {trig : Trig}.
Import DatasetStatistics.

(** A loop whose steps leave a field alone leaves it alone. *)
Lemma loop_untouched {A X : Type} (get : t → A) (body : t → X → result t)
    (xs : list X) (s s' : t) :
  (∀ s x s', body s x = Ok s' → get s' = get s) →
  for_each body xs s = Ok s' → get s' = get s.
Proof.
  intros Hbody. apply (for_each_invariant (λ s0, get s0 = get s)); [|done].
  intros s1 x s2 Hs1 Hx. by rewrite (Hbody _ _ _ Hx).
Qed.

Local Ltac step_of_loop :=
  let Hbody := fresh in
  intros ? ? ? Hbody;
  apply bind_Ok in Hbody as (? & ?%dict_item_Ok & Hbody);
  apply bind_Ok in Hbody as (? & Hcolumn & Hbody);
  apply bind_Ok in Hbody as (? & Hstep & [= <-]);
  eexists _, _; split; [done|]; split; [by rewrite Hcolumn; cbn; rewrite Hstep|done].

Local Ltac untouched :=
  let Hbody := fresh in
  intros ? ? ? Hbody;
  repeat (apply bind_Ok in Hbody as (? & _ & Hbody)); by simplify_eq.

Lemma process_batch_numeric self batch self' f acc :
  _process_batch self batch = Ok self' →
  NoDup (numeric_features self) → f ∈ numeric_features self →
  dict_get (numeric_stats self) f = Some acc →
  ∃ column values,
    dict_get batch f = Some column ∧ tf_cast_float32 column = Ok values
    ∧ dict_get (numeric_stats self') f = Some (WelfordAccumulator.update acc values).
Proof.
  unfold _process_batch. intros Hrun Hfeatures Hf Hacc.
  apply bind_Ok in Hrun as (s1 & H1 & Hrun).
  apply bind_Ok in Hrun as (s2 & H2 & Hrun).
  apply bind_Ok in Hrun as (s3 & H3 & H4).
  eapply (loop_entry numeric_stats
            (λ feature acc, column ← dict_item batch feature;
                            values ← tf_cast_float32 column;
                            Ok (WelfordAccumulator.update acc values)))
    in H1 as (acc' & Hstep & Hacc'); [|by step_of_loop|done..].
  apply bind_Ok in Hstep as (column & Hcolumn%dict_item_Ok & Hstep).
  apply bind_Ok in Hstep as (values & Hvalues & [= <-]).
  exists column, values. split; [done|]. split; [done|].
  apply (loop_untouched numeric_stats) in H2; [|untouched].
  apply (loop_untouched numeric_stats) in H3; [|untouched].
  apply (loop_untouched numeric_stats) in H4; [|untouched].
  by rewrite H4, H3, H2.
Qed.

Lemma process_batch_categorical self batch self' f acc :
  _process_batch self batch = Ok self' →
  NoDup (categorical_features self) → f ∈ categorical_features self →
  dict_get (categorical_stats self) f = Some acc →
  ∃ acc',
    (column ← dict_item batch f; CategoricalAccumulator.update acc column) = Ok acc'
    ∧ dict_get (categorical_stats self') f = Some acc'.
Proof.
  unfold _process_batch. intros Hrun Hfeatures Hf Hacc.
  apply bind_Ok in Hrun as (s1 & H1 & Hrun).
  apply bind_Ok in Hrun as (s2 & H2 & Hrun).
  apply bind_Ok in Hrun as (s3 & H3 & H4).
  assert (categorical_features s1 = categorical_features self) as F1
    by (eapply (loop_untouched categorical_features); [|exact H1]; untouched).
  apply (loop_untouched categorical_stats) in H1; [|untouched].
  rewrite <- F1 in Hfeatures, Hf. rewrite <- H1 in Hacc.
  eapply (loop_entry categorical_stats
            (λ feature acc, column ← dict_item batch feature;
                            CategoricalAccumulator.update acc column))
    in H2 as (acc' & Hstep & Hacc'); [|by step_of_loop|done..].
  exists acc'. split; [done|].
  apply (loop_untouched categorical_stats) in H3; [|untouched].
  apply (loop_untouched categorical_stats) in H4; [|untouched].
  by rewrite H4, H3.
Qed.

Lemma process_batch_text self batch self' f acc :
  _process_batch self batch = Ok self' →
  NoDup (text_features self) → f ∈ text_features self →
  dict_get (text_stats self) f = Some acc →
  ∃ acc',
    (column ← dict_item batch f; TextAccumulator.update acc column) = Ok acc'
    ∧ dict_get (text_stats self') f = Some acc'.
Proof.
  unfold _process_batch. intros Hrun Hfeatures Hf Hacc.
  apply bind_Ok in Hrun as (s1 & H1 & Hrun).
  apply bind_Ok in Hrun as (s2 & H2 & Hrun).
  apply bind_Ok in Hrun as (s3 & H3 & H4).
  assert (text_features s1 = text_features self) as F1
    by (eapply (loop_untouched text_features); [|exact H1]; untouched).
  assert (text_features s2 = text_features s1) as F2
    by (eapply (loop_untouched text_features); [|exact H2]; untouched).
  apply (loop_untouched text_stats) in H1; [|untouched].
  apply (loop_untouched text_stats) in H2; [|untouched].
  rewrite <- F1, <- F2 in Hfeatures, Hf. rewrite <- H1, <- H2 in Hacc.
  eapply (loop_entry text_stats
            (λ feature acc, column ← dict_item batch feature;
                            TextAccumulator.update acc column))
    in H3 as (acc' & Hstep & Hacc'); [|by step_of_loop|done..].
  exists acc'. split; [done|].
  apply (loop_untouched text_stats) in H4; [|untouched].
  by rewrite H4.
Qed.

Lemma process_batch_features self batch self' :
  _process_batch self batch = Ok self' →
  numeric_features self' = numeric_features self
  ∧ categorical_features self' = categorical_features self
  ∧ text_features self' = text_features self
  ∧ features_specs self' = features_specs self.
Proof.
  intros Hrun. apply process_batch_loops in Hrun
    as (? & ? & ? & ? & ? & ? & ? & _ & _ & _ & _ & _ & _ & _ & _ & Hsame).
  by destruct Hsame as (-> & -> & -> & _ & ->).
Qed.

(** The accumulator of one feature over a whole pass. *)
Section dataset_pass.
Context {A : Type} (get : t → dict A) (features : t → list string).
Context (step : dict Tensor → string → A → result A).
Hypothesis batch_entry : ∀ self batch self' f acc,
  _process_batch self batch = Ok self' →
  NoDup (features self) → f ∈ features self → dict_get (get self) f = Some acc →
  ∃ acc', step batch f acc = Ok acc' ∧ dict_get (get self') f = Some acc'.
Hypothesis batch_features : ∀ self batch self',
  _process_batch self batch = Ok self' → features self' = features self.

Lemma dataset_entry dataset self self' f acc :
  for_each _process_batch dataset self = Ok self' →
  NoDup (features self) → f ∈ features self → dict_get (get self) f = Some acc →
  ∃ acc', for_each (λ acc batch, step batch f acc) dataset acc = Ok acc'
          ∧ dict_get (get self') f = Some acc'.
Proof using batch_entry batch_features.
  revert self acc. induction dataset as [|batch dataset IH];
    intros self acc Hrun Hfeatures Hf Hacc; cbn in Hrun.
  - simplify_eq. by exists acc.
  - apply bind_Ok in Hrun as (s1 & Hbatch & Hrun).
    destruct (batch_entry _ _ _ f acc Hbatch) as (acc1 & Hstep & Hacc1); [done..|].
    apply batch_features in Hbatch. rewrite <- Hbatch in Hfeatures, Hf.
    destruct (IH _ _ Hrun Hfeatures Hf Hacc1) as (acc' & Hsteps & Hacc').
    exists acc'. split; [|done]. cbn. by rewrite Hstep.
Qed.
End dataset_pass.

Lemma column_steps {A : Type} (update : A → Tensor → result A)
    (dataset : list (dict Tensor)) (f : string) (acc acc' : A) :
  for_each (λ acc batch, column ← dict_item batch f; update acc column) dataset acc
  = Ok acc' →
  ∃ columns, feature_columns f dataset = Ok columns
             ∧ for_each update columns acc = Ok acc'.
Proof.
  unfold feature_columns. revert acc.
  induction dataset as [|batch dataset IH]; intros acc Hrun; cbn in Hrun.
  - simplify_eq. by exists [].
  - apply bind_Ok in Hrun as (acc1 & Hbatch & Hrun).
    apply bind_Ok in Hbatch as (column & Hcolumn & Hupdate).
    destruct (IH _ Hrun) as (columns & Hcolumns & Hsteps).
    exists (column :: columns). cbn. by rewrite Hcolumn, Hcolumns, Hupdate.
Qed.

Lemma numeric_steps (columns : list Tensor) (acc acc' : WelfordAccumulator.t) :
  for_each (λ acc column, values ← tf_cast_float32 column;
                          Ok (WelfordAccumulator.update acc values)) columns acc
  = Ok acc' →
  ∃ batches, list_comprehension tf_cast_float32 columns = Ok batches
             ∧ acc' = foldl WelfordAccumulator.update acc batches.
Proof.
  revert acc. induction columns as [|column columns IH]; intros acc Hrun; cbn in Hrun.
  - simplify_eq. by exists [].
  - apply bind_Ok in Hrun as (acc1 & Hcolumn & Hrun).
    apply bind_Ok in Hcolumn as (values & Hvalues & [= <-]).
    destruct (IH _ Hrun) as (batches & Hbatches & ->).
    exists (values :: batches). cbn. by rewrite Hvalues, Hbatches.
Qed.

Lemma categorical_steps (columns : list Tensor) (acc acc' : CategoricalAccumulator.t) :
  for_each CategoricalAccumulator.update columns acc = Ok acc' →
  Forall categorical_kind columns.
Proof.
  revert acc. induction columns as [|column columns IH]; intros acc Hrun; [done|].
  cbn in Hrun. apply bind_Ok in Hrun as (acc1 & Hcolumn & Hrun).
  constructor; [|by eapply IH]. unfold CategoricalAccumulator.update in Hcolumn.
  unfold categorical_kind. repeat case_decide; auto. done.
Qed.

Lemma text_steps (columns : list Tensor) (acc acc' : TextAccumulator.t) :
  for_each TextAccumulator.update columns acc = Ok acc' →
  columns = map StringTensor (map string_values columns).
Proof.
  revert acc. induction columns as [|column columns IH]; intros acc Hrun; [done|].
  cbn in Hrun. apply bind_Ok in Hrun as (acc1 & Hcolumn & Hrun).
  cbn [map]. rewrite <- (IH _ Hrun). f_equal.
  unfold TextAccumulator.update in Hcolumn. case_decide; [done|].
  by destruct column.
Qed.

Lemma list_comprehension_decode (l l' : list string) :
  list_comprehension bytes_decode l = Ok l' →
  l' = l ∧ Forall (λ v, utf8_valid v = true) l.
Proof.
  revert l'. induction l as [|v l IH]; intros l' Hrun; cbn in Hrun.
  - by simplify_eq.
  - apply bind_Ok in Hrun as (v' & Hv & Hrun).
    apply bind_Ok in Hrun as (l1 & Hl & [= <-]).
    destruct (IH _ Hl) as [-> ?]. unfold bytes_decode in Hv.
    destruct (utf8_valid v) eqn:Hvalid; [|done]. simplify_eq. by split; [|constructor].
Qed.

(** The report of a pass, read at one feature. *)
Lemma calculate_dataset_statistics_Ok self dataset self' report :
  calculate_dataset_statistics self dataset = Ok (self', report) →
  ∃ s, for_each _process_batch dataset self = Ok s
       ∧ _compute_final_statistics s = Ok report.
Proof.
  unfold calculate_dataset_statistics. intros (s & Hpass & Hfinal)%bind_Ok.
  apply bind_Ok in Hfinal as (stats & Hfinal & [= <- <-]). by exists s.
Qed.

Lemma calculate_dataset_statistics_engine self dataset self' report :
  calculate_dataset_statistics self dataset = Ok (self', report) →
  ∃ s, for_each _process_batch dataset self = Ok s
       ∧ _compute_final_statistics s = Ok report
       ∧ self' = set_features_stats s report.
Proof.
  unfold calculate_dataset_statistics. intros (s & Hpass & Hfinal)%bind_Ok.
  apply bind_Ok in Hfinal as (stats & Hfinal & [= <- <-]). by exists s.
Qed.

Lemma dataset_features self dataset self' :
  for_each _process_batch dataset self = Ok self' →
  numeric_features self' = numeric_features self
  ∧ categorical_features self' = categorical_features self
  ∧ text_features self' = text_features self
  ∧ features_specs self' = features_specs self.
Proof.
  apply (for_each_invariant
           (λ s, numeric_features s = numeric_features self
                 ∧ categorical_features s = categorical_features self
                 ∧ text_features s = text_features self
                 ∧ features_specs s = features_specs self)); [|done].
  intros s batch s' (<- & <- & <- & <-) Hbatch.
  exact (process_batch_features _ _ _ Hbatch).
Qed.

(** An engine that declares one numeric feature and nothing else. *)
Lemma single_numeric_batch specs f overwrite acc batch :
  _process_batch (set_numeric_stats (init specs [f] [] [] [] overwrite) [(f, acc)]) batch
  = (column ← dict_item batch f;
     values ← tf_cast_float32 column;
     Ok (set_numeric_stats (init specs [f] [] [] [] overwrite)
           [(f, WelfordAccumulator.update acc values)])).
Proof.
  unfold _process_batch.
  cbn [numeric_features categorical_features text_features date_features
       numeric_stats set_numeric_stats init for_each].
  rewrite dict_item_head. cbn [mbind result_bind].
  destruct (dict_item batch f) as [column|e]; [|done]. cbn [mbind result_bind].
  destruct (tf_cast_float32 column) as [values|e]; [|done].
  cbn [mbind result_bind for_each set_numeric_stats numeric_stats init
       numeric_features categorical_features text_features date_features].
  by rewrite dict_set_head.
Qed.

Lemma single_numeric_pass specs f overwrite dataset columns batches acc :
  feature_columns f dataset = Ok columns →
  list_comprehension tf_cast_float32 columns = Ok batches →
  for_each _process_batch dataset
    (set_numeric_stats (init specs [f] [] [] [] overwrite) [(f, acc)])
  = Ok (set_numeric_stats (init specs [f] [] [] [] overwrite)
          [(f, foldl WelfordAccumulator.update acc batches)]).
Proof.
  unfold feature_columns. revert columns batches acc.
  induction dataset as [|batch dataset IH]; intros columns batches acc Hcolumns Hbatches;
    cbn [list_comprehension] in Hcolumns.
  - simplify_eq. cbn in Hbatches. by simplify_eq.
  - apply bind_Ok in Hcolumns as (column & Hcolumn & Hcolumns).
    apply bind_Ok in Hcolumns as (columns' & Hcolumns & [= <-]).
    cbn [list_comprehension] in Hbatches.
    apply bind_Ok in Hbatches as (values & Hvalues & Hbatches).
    apply bind_Ok in Hbatches as (batches' & Hbatches & [= <-]).
    cbn [for_each foldl]. rewrite single_numeric_batch, Hcolumn.
    cbn [mbind result_bind]. rewrite Hvalues. cbn [mbind result_bind].
    by apply (IH columns').
Qed.

Lemma single_numeric_report specs f overwrite acc spec :
  dict_get specs f = Some spec →
  _compute_final_statistics
    (set_numeric_stats (init specs [f] [] [] [] overwrite) [(f, acc)])
  = Ok (report_of
          [(f, numeric_record_of (WelfordAccumulator.mean acc)
                 (WelfordAccumulator.count acc) (WelfordAccumulator.variance acc)
                 (spec_dtype spec))] [] [] []).
Proof.
  intros Hspec%dict_item_Ok.
  unfold _compute_final_statistics, collect, numeric_record.
  cbn [numeric_features categorical_features text_features date_features
       numeric_stats features_specs set_numeric_stats init for_each].
  rewrite dict_item_head, Hspec. done.
Qed.

(** X17.  The features of an engine do not interfere: the record reported
    for a numeric feature declared once, and the accumulator the engine holds
    for it, are those of an engine that declares this feature alone and makes
    the same pass. *)
Theorem numeric_feature_alone (specs : dict FeatureSpec)
    (numeric categorical text date : list string) (overwrite : bool)
    (dataset : list (dict Tensor)) (self' : t) (report : pyval) (f : string) :
  NoDup numeric → f ∈ numeric →
  calculate_dataset_statistics (init specs numeric categorical text date overwrite)
    dataset = Ok (self', report) →
  ∃ self1 report1,
    calculate_dataset_statistics (init specs [f] [] [] [] overwrite) dataset
    = Ok (self1, report1)
    ∧ is_Some (report_record report "numeric_stats" f)
    ∧ report_record report "numeric_stats" f = report_record report1 "numeric_stats" f
    ∧ dict_get (numeric_stats self') f = dict_get (numeric_stats self1) f.
Proof.
  intros Hnumeric Hf (s & Hpass & Hfinal & ->)%calculate_dataset_statistics_engine.
  destruct (dataset_entry numeric_stats numeric_features
              (λ batch f acc, column ← dict_item batch f;
                              values ← tf_cast_float32 column;
                              Ok (WelfordAccumulator.update acc values)))
    with (dataset := dataset) (self := init specs numeric categorical text date overwrite)
         (self' := s) (f := f) (acc := WelfordAccumulator.init)
    as (acc' & Hsteps & Hacc'); try done.
  { intros s0 batch s1 g acc Hbatch Hg1 Hg2 Hacc.
    destruct (process_batch_numeric _ _ _ _ _ Hbatch Hg1 Hg2 Hacc)
      as (column & values & Hcolumn%dict_item_Ok & Hvalues & Hs1).
    eexists. split; [|done]. rewrite Hcolumn. cbn [mbind result_bind].
    by rewrite Hvalues. }
  { intros s0 batch s1 Hbatch. by apply process_batch_features in Hbatch as (? & _). }
  { by apply dict_from_keys_lookup. }
  apply (column_steps (λ acc column, values ← tf_cast_float32 column;
                                     Ok (WelfordAccumulator.update acc values)))
    in Hsteps as (columns & Hcolumns & Hsteps).
  apply numeric_steps in Hsteps as (batches & Hbatches & ->).
  apply dataset_features in Hpass as (Fn & _ & _ & Fs).
  apply compute_final_statistics_Ok in Hfinal
    as (n & c & x & d & -> & Hn & _ & _ & _).
  destruct (collect_lookup _ _ _ f Hn) as (r & Hr & Hget); [by rewrite Fn|].
  unfold numeric_record in Hr.
  apply bind_Ok in Hr as (acc0 & Hacc0%dict_item_Ok & Hr).
  apply bind_Ok in Hr as (spec & Hspec%dict_item_Ok & [= <-]).
  rewrite Hacc' in Hacc0. injection Hacc0 as <-. rewrite Fs in Hspec.
  cbn [features_specs init] in Hspec.
  eexists _, _. split.
  - unfold calculate_dataset_statistics.
    change (init specs [f] [] [] [] overwrite)
      with (set_numeric_stats (init specs [f] [] [] [] overwrite)
              (dict_set [] f WelfordAccumulator.init)).
    change (dict_set [] f WelfordAccumulator.init)
      with [(f, WelfordAccumulator.init)].
    rewrite (single_numeric_pass _ _ _ _ _ _ _ Hcolumns Hbatches).
    cbn [mbind result_bind].
    rewrite (single_numeric_report _ _ _ _ _ Hspec). cbn [mbind result_bind].
    reflexivity.
  - change (report_record (report_of n c x d) "numeric_stats" f) with (dict_get n f).
    rewrite Hget. split; [by eexists|]. split.
    + change (report_record (report_of ?n' [] [] []) "numeric_stats" f)
        with (dict_get n' f).
      by rewrite dict_get_head.
    + cbn [numeric_stats set_features_stats set_numeric_stats].
      by rewrite Hacc', dict_get_head.
Qed.

(** X18.  The vocabulary reported for a categorical feature declared once,
    in an engine with any number of features.  Declared with a dtype other
    than int32 and fed string columns, it lists the distinct values of the
    column over all batches in order of first occurrence, unsorted, each
    well-formed UTF-8.  Declared int32 and fed int32 columns, it lists the
    distinct integers in ascending order. *)
Theorem categorical_report_of_dataset (specs : dict FeatureSpec)
    (numeric categorical text date : list string) (overwrite : bool)
    (dataset : list (dict Tensor)) (self' : t) (report : pyval) (f : string) :
  NoDup categorical → f ∈ categorical →
  calculate_dataset_statistics (init specs numeric categorical text date overwrite)
    dataset = Ok (self', report) →
  ∃ columns spec,
    feature_columns f dataset = Ok columns
    ∧ Forall categorical_kind columns
    ∧ dict_get specs f = Some spec
    ∧ (spec_dtype spec ≠ tf_int32 → Forall (λ column, dtype column = tf_string) columns →
       report_record report "categorical_stats" f
       = Some (vocabulary_record
                 (map PyStr (tf_unique (flat_map string_values columns)))
                 (spec_dtype spec))
       ∧ Forall (λ v, utf8_valid v = true) (flat_map string_values columns))
    ∧ (spec_dtype spec = tf_int32 → Forall (λ column, dtype column = tf_int32) columns →
       report_record report "categorical_stats" f
       = Some (vocabulary_record
                 (map PyInt (merge_sort Z.le (tf_unique (flat_map int32_values columns))))
                 tf_int32)).
Proof.
  intros Hcategorical Hf (s & Hpass & Hfinal)%calculate_dataset_statistics_Ok.
  destruct (dataset_entry categorical_stats categorical_features
              (λ batch f acc, column ← dict_item batch f;
                              CategoricalAccumulator.update acc column))
    with (dataset := dataset) (self := init specs numeric categorical text date overwrite)
         (self' := s) (f := f) (acc := CategoricalAccumulator.init)
    as (acc' & Hsteps & Hacc'); try done.
  { intros s0 batch s1 g acc Hbatch Hg1 Hg2 Hacc.
    exact (process_batch_categorical _ _ _ _ _ Hbatch Hg1 Hg2 Hacc). }
  { intros s0 batch s1 Hbatch. by apply process_batch_features in Hbatch as (_ & ? & _). }
  { by apply dict_from_keys_lookup. }
  apply (column_steps CategoricalAccumulator.update) in Hsteps
    as (columns & Hcolumns & Hsteps).
  pose proof (categorical_steps _ _ _ Hsteps) as Hkind.
  change CategoricalAccumulator.init with (CategoricalAccumulator.Build [] []) in Hsteps.
  rewrite (categorical_stream columns [] [] Hkind NoDup_nil_2 NoDup_nil_2)
    in Hsteps.
  injection Hsteps as <-. cbn [app] in Hacc'.
  apply dataset_features in Hpass as (_ & Fc & _ & Fs).
  apply compute_final_statistics_Ok in Hfinal
    as (n & c & x & d & -> & _ & Hc & _ & _).
  destruct (collect_lookup _ _ _ f Hc) as (r & Hr & Hget); [by rewrite Fc|].
  unfold categorical_record in Hr.
  apply bind_Ok in Hr as (spec & Hspec%dict_item_Ok & Hr).
  apply bind_Ok in Hr as (acc0 & Hacc0%dict_item_Ok & Hr).
  rewrite Hacc' in Hacc0. injection Hacc0 as <-. rewrite Fs in Hspec.
  exists columns, spec. split; [done|]. split; [done|]. split; [done|].
  change (report_record _ "categorical_stats" f) with (dict_get c f). rewrite Hget.
  split.
  - intros Hdtype Hstrings. rewrite decide_False in Hr by done.
    assert (flat_map int32_values columns = []) as Hints.
    { clear -Hstrings. induction Hstrings as [|column columns Hcolumn _ IH]; [done|].
      cbn. rewrite IH. by destruct column. }
    rewrite Hints in Hr. unfold CategoricalAccumulator.get_unique_values in Hr.
    cbn [CategoricalAccumulator.values CategoricalAccumulator.int_values map] in Hr.
    change (tf_unique (@nil Z)) with (@nil Z) in Hr. cbn [map] in Hr.
    rewrite app_nil_r, (tf_unique_NoDup (tf_unique _)) in Hr by apply NoDup_tf_unique.
    apply bind_Ok in Hr as (vocab & [-> Hvalid]%list_comprehension_decode & [= <-]).
    split; [unfold vocabulary_record; by rewrite length_map|].
    apply Forall_forall. intros v Hv. rewrite Forall_forall in Hvalid.
    by apply Hvalid, elem_of_tf_unique.
  - intros Hdtype Hints. rewrite decide_True in Hr by done.
    assert (flat_map string_values columns = []) as Hstrings.
    { clear -Hints. induction Hints as [|column columns Hcolumn _ IH]; [done|].
      cbn. rewrite IH. by destruct column. }
    rewrite Hstrings in Hr. change (tf_unique (@nil string)) with (@nil string) in Hr.
    rewrite get_unique_values_int, list_comprehension_py_int in Hr
      by apply NoDup_tf_unique.
    injection Hr as <-. unfold vocabulary_record. by rewrite length_map, Hdtype.
Qed.

(** X19.  The vocabulary reported for a text feature declared once, in an
    engine with any number of features: every column of the feature is a
    string column, and the vocabulary lists the distinct lower-case words of
    its texts over all batches, in order of first occurrence, as byte
    strings. *)
Theorem text_report_of_dataset (specs : dict FeatureSpec)
    (numeric categorical text date : list string) (overwrite : bool)
    (dataset : list (dict Tensor)) (self' : t) (report : pyval) (f : string) :
  NoDup text → f ∈ text →
  calculate_dataset_statistics (init specs numeric categorical text date overwrite)
    dataset = Ok (self', report) →
  ∃ columns spec,
    feature_columns f dataset = Ok columns
    ∧ Forall (λ column, dtype column = tf_string) columns
    ∧ dict_get specs f = Some spec
    ∧ report_record report "text_stats" f
      = Some (vocabulary_record
                (map PyBytes
                   (tf_unique (flat_map words_of_text (flat_map string_values columns))))
                (spec_dtype spec)).
Proof.
  intros Htext Hf (s & Hpass & Hfinal)%calculate_dataset_statistics_Ok.
  destruct (dataset_entry text_stats text_features
              (λ batch f acc, column ← dict_item batch f;
                              TextAccumulator.update acc column))
    with (dataset := dataset) (self := init specs numeric categorical text date overwrite)
         (self' := s) (f := f) (acc := TextAccumulator.init)
    as (acc' & Hsteps & Hacc'); try done.
  { intros s0 batch s1 g acc Hbatch Hg1 Hg2 Hacc.
    exact (process_batch_text _ _ _ _ _ Hbatch Hg1 Hg2 Hacc). }
  { intros s0 batch s1 Hbatch.
    by apply process_batch_features in Hbatch as (_ & _ & ? & _). }
  { by apply dict_from_keys_lookup. }
  apply (column_steps TextAccumulator.update) in Hsteps as (columns & Hcolumns & Hsteps).
  pose proof (text_steps _ _ _ Hsteps) as Hstrings.
  change TextAccumulator.init with (TextAccumulator.Build []) in Hsteps.
  rewrite Hstrings, (text_stream _ [] NoDup_nil_2) in Hsteps.
  injection Hsteps as <-. cbn [app] in Hacc'.
  rewrite <- flat_map_concat_map in Hacc'.
  apply dataset_features in Hpass as (_ & _ & Ft & Fs).
  apply compute_final_statistics_Ok in Hfinal
    as (n & c & x & d & -> & _ & _ & Hx & _).
  destruct (collect_lookup _ _ _ f Hx) as (r & Hr & Hget); [by rewrite Ft|].
  unfold text_record in Hr.
  apply bind_Ok in Hr as (acc0 & Hacc0%dict_item_Ok & Hr).
  apply bind_Ok in Hr as (spec & Hspec%dict_item_Ok & [= <-]).
  rewrite Hacc' in Hacc0. injection Hacc0 as <-. rewrite Fs in Hspec.
  exists columns, spec. split; [done|]. split.
  { rewrite Hstrings. apply Forall_forall. by intros ? (? & -> & _)%list_elem_of_fmap. }
  split; [done|].
  change (report_record _ "text_stats" f) with (dict_get x f). rewrite Hget.
  unfold vocabulary_record, TextAccumulator.get_unique_words. cbn [TextAccumulator.words].
  by rewrite length_map.
Qed.

End one_feature.

(** The theorem on the sample pass: the feature [age]. *)
Lemma numeric_feature_alone_witness :
  ∃ self1 report1,
    DatasetStatistics.calculate_dataset_statistics (trig := polynomial_trig)
      (DatasetStatistics.init (DatasetStatistics.features_specs sample_engine)
         ["age"] [] [] [] false) sample_dataset
    = Ok (self1, report1)
    ∧ is_Some (report_record sample_pass.2 "numeric_stats" "age")
    ∧ report_record sample_pass.2 "numeric_stats" "age"
      = report_record report1 "numeric_stats" "age"
    ∧ dict_get (DatasetStatistics.numeric_stats sample_pass.1) "age"
      = dict_get (DatasetStatistics.numeric_stats self1) "age".
Proof.
  apply (numeric_feature_alone (trig := polynomial_trig) _ ["age"] ["code"; "city"]
           ["title"] [] false sample_dataset sample_pass.1 sample_pass.2 "age").
  - apply NoDup_singleton.
  - by left.
  - by vm_compute.
Defined.

(** The theorem on the sample pass: the feature [city]. *)
Lemma categorical_report_of_dataset_witness :
  ∃ columns spec,
    feature_columns "city" sample_dataset = Ok columns
    ∧ Forall categorical_kind columns
    ∧ dict_get (DatasetStatistics.features_specs sample_engine) "city" = Some spec
    ∧ (spec_dtype spec ≠ tf_int32 → Forall (λ column, dtype column = tf_string) columns →
       report_record sample_pass.2 "categorical_stats" "city"
       = Some (vocabulary_record
                 (map PyStr (tf_unique (flat_map string_values columns)))
                 (spec_dtype spec))
       ∧ Forall (λ v, utf8_valid v = true) (flat_map string_values columns))
    ∧ (spec_dtype spec = tf_int32 → Forall (λ column, dtype column = tf_int32) columns →
       report_record sample_pass.2 "categorical_stats" "city"
       = Some (vocabulary_record
                 (map PyInt (merge_sort Z.le (tf_unique (flat_map int32_values columns))))
                 tf_int32)).
Proof.
  apply (categorical_report_of_dataset (trig := polynomial_trig) _ ["age"]
           ["code"; "city"] ["title"] [] false sample_dataset sample_pass.1
           sample_pass.2 "city").
  - apply (bool_decide_unpack _). by vm_compute.
  - right. by left.
  - by vm_compute.
Defined.

(** The theorem on the sample pass: the feature [title]. *)
Lemma text_report_of_dataset_witness :
  ∃ columns spec,
    feature_columns "title" sample_dataset = Ok columns
    ∧ Forall (λ column, dtype column = tf_string) columns
    ∧ dict_get (DatasetStatistics.features_specs sample_engine) "title" = Some spec
    ∧ report_record sample_pass.2 "text_stats" "title"
      = Some (vocabulary_record
                (map PyBytes
                   (tf_unique (flat_map words_of_text (flat_map string_values columns))))
                (spec_dtype spec)).
Proof.
  apply (text_report_of_dataset (trig := polynomial_trig) _ ["age"] ["code"; "city"]
           ["title"] [] false sample_dataset sample_pass.1 sample_pass.2 "title").
  - apply NoDup_singleton.
  - by left.
  - by vm_compute.
Defined.

(** ** Saving after a pass, and a second pass *)

Lemma for_each_app {S X : Type} (body : S → X → result S) (xs ys : list X) (s : S) :
  for_each body (xs ++ ys) s = (s' ← for_each body xs s; for_each body ys s').
Proof.
  revert s. induction xs as [|x xs IH]; intros s; [done|].
  cbn. destruct (body s x); [apply IH|done].
Qed.

Lemma for_each_through {S X : Type} (g : S → S) (body : S → X → result S)
    (xs : list X) (s : S) :
  (∀ s x, body (g s) x = (s' ← body s x; Ok (g s'))) →
  for_each body xs (g s) = (s' ← for_each body xs s; Ok (g s')).
Proof.
  intros Hbody. revert s. induction xs as [|x xs IH]; intros s; [done|].
  cbn. rewrite Hbody. destruct (body s x); [apply IH|done].
Qed.

Section passes.
Context {trig : Trig}.
Import DatasetStatistics.

(** X20.  After a successful [calculate_dataset_statistics], saving never
    raises: the report attribute is set and every value of the report goes
    through the serializer; and the saved document can be loaded. *)
Theorem save_after_calculate (self : t) (dataset : list (dict Tensor))
    (self' : t) (report : pyval) :
  calculate_dataset_statistics self dataset = Ok (self', report) →
  ∃ document,
    _save_stats self' = Ok document
    ∧ ∃ loaded, _load_stats self' (Some document) = Ok loaded.
Proof.
  intros (s & _ & Hfinal & ->)%calculate_dataset_statistics_engine.
  destruct (finalized_report_restored s report Hfinal)
    as (numeric & categorical & text & date & document
        & numeric' & categorical' & text' & date' & _ & Hdump & Hload & _).
  exists document. split; [exact Hdump|].
  unfold _load_stats. cbn [overwrite_stats set_features_stats].
  destruct (overwrite_stats s); [by eexists|]. rewrite Hload. by eexists.
Qed.

(** The accumulators do not read the report attribute. *)
Lemma process_batch_features_stats (s : t) (r : pyval) (batch : dict Tensor) :
  _process_batch (set_features_stats s r) batch
  = (s' ← _process_batch s batch; Ok (set_features_stats s' r)).
Proof.
  unfold _process_batch.
  cbn [numeric_features categorical_features text_features date_features
       set_features_stats].
  rewrite (for_each_through (λ s, set_features_stats s r)).
  2:{ intros s0 x. cbn [numeric_stats set_features_stats].
      destruct (dict_item (numeric_stats s0) x); [|done]. cbn.
      destruct (dict_item batch x); [|done]. cbn. by destruct (tf_cast_float32 _). }
  destruct (for_each _ (numeric_features s) s) as [s1|e]; [|done].
  cbn [mbind result_bind categorical_features set_features_stats].
  rewrite (for_each_through (λ s, set_features_stats s r)).
  2:{ intros s0 x. cbn [categorical_stats set_features_stats].
      destruct (dict_item (categorical_stats s0) x); [|done]. cbn.
      destruct (dict_item batch x); [|done]. cbn.
      by destruct (CategoricalAccumulator.update _ _). }
  destruct (for_each _ (categorical_features s1) s1) as [s2|e]; [|done].
  cbn [mbind result_bind text_features set_features_stats].
  rewrite (for_each_through (λ s, set_features_stats s r)).
  2:{ intros s0 x. cbn [text_stats set_features_stats].
      destruct (dict_item (text_stats s0) x); [|done]. cbn.
      destruct (dict_item batch x); [|done]. cbn.
      by destruct (TextAccumulator.update _ _). }
  destruct (for_each _ (text_features s2) s2) as [s3|e]; [|done].
  cbn [mbind result_bind date_features set_features_stats].
  apply (for_each_through (λ s, set_features_stats s r)).
  intros s0 x. cbn [date_stats set_features_stats].
  destruct (dict_item (date_stats s0) x); [|done]. cbn.
  destruct (dict_item batch x); [|done]. cbn. by destruct (date_rows _).
Qed.

(** X21.  The accumulators are not reset between passes: a pass over a
    second dataset with the engine a first pass left behaves as one pass
    over the first dataset followed by the second, with the same report and
    the same engine. *)
Theorem second_pass_continues (self s1 : t) (r1 : pyval)
    (dataset1 dataset2 : list (dict Tensor)) :
  calculate_dataset_statistics self dataset1 = Ok (s1, r1) →
  calculate_dataset_statistics s1 dataset2
  = calculate_dataset_statistics self (dataset1 ++ dataset2).
Proof.
  intros (s & Hpass & Hfinal & ->)%calculate_dataset_statistics_engine.
  unfold calculate_dataset_statistics.
  rewrite for_each_app, Hpass. cbn [mbind result_bind].
  rewrite (for_each_through (λ s, set_features_stats s r1))
    by (intros; apply process_batch_features_stats).
  destruct (for_each _process_batch dataset2 s) as [s2|e]; [|done].
  cbn [mbind result_bind].
  change (_compute_final_statistics (set_features_stats s2 r1))
    with (_compute_final_statistics s2).
  by destruct (_compute_final_statistics s2).
Qed.

End passes.

(** The theorem on the sample pass. *)
Lemma save_after_calculate_witness :
  ∃ document,
    DatasetStatistics._save_stats sample_pass.1 = Ok document
    ∧ ∃ loaded, DatasetStatistics._load_stats sample_pass.1 (Some document) = Ok loaded.
Proof.
  apply (save_after_calculate (trig := polynomial_trig) sample_engine sample_dataset
           sample_pass.1 sample_pass.2).
  by vm_compute.
Defined.

(** The theorem on the two batches of the sample dataset, one pass each. *)
Lemma second_pass_continues_witness :
  DatasetStatistics.calculate_dataset_statistics (trig := polynomial_trig)
    sample_first_pass.1 (drop 1 sample_dataset)
  = DatasetStatistics.calculate_dataset_statistics (trig := polynomial_trig)
      sample_engine (take 1 sample_dataset ++ drop 1 sample_dataset).
Proof.
  apply (second_pass_continues (trig := polynomial_trig) sample_engine
           sample_first_pass.1 sample_first_pass.2).
  by vm_compute.
Defined.

(** ** A feature declared twice *)

Section declared_twice.
Context {trig : Trig}.
Import DatasetStatistics.

Lemma twice_init specs f overwrite :
  init specs [f; f] [] [] [] overwrite
  = set_numeric_stats (init specs [f; f] [] [] [] overwrite)
      [(f, WelfordAccumulator.init)].
Proof.
  assert (dict_from_keys [f; f] WelfordAccumulator.init
          = [(f, WelfordAccumulator.init)]) as Hkeys.
  { unfold dict_from_keys. cbn [foldl].
    change (dict_set [] f WelfordAccumulator.init)
      with [(f, WelfordAccumulator.init)].
    apply dict_set_head. }
  unfold init. by rewrite Hkeys.
Qed.

Lemma twice_batch specs f overwrite acc batch :
  _process_batch
    (set_numeric_stats (init specs [f; f] [] [] [] overwrite) [(f, acc)]) batch
  = (acc' ← fed_twice f acc batch;
     Ok (set_numeric_stats (init specs [f; f] [] [] [] overwrite) [(f, acc')])).
Proof.
  unfold _process_batch, fed_twice.
  cbn [numeric_features categorical_features text_features date_features
       numeric_stats set_numeric_stats init for_each].
  rewrite dict_item_head. cbn [mbind result_bind].
  destruct (dict_item batch f) as [column|e] eqn:Hcolumn; [|done].
  cbn [mbind result_bind].
  destruct (tf_cast_float32 column) as [values|e] eqn:Hvalues; [|done].
  repeat progress
    (cbn [mbind result_bind for_each set_numeric_stats numeric_stats init
          numeric_features categorical_features text_features date_features];
     rewrite ?dict_item_head, ?dict_set_head, ?Hcolumn, ?Hvalues).
  done.
Qed.

Lemma once_batches specs f overwrite acc batch :
  for_each _process_batch [batch; batch]
    (set_numeric_stats (init specs [f] [] [] [] overwrite) [(f, acc)])
  = (acc' ← fed_twice f acc batch;
     Ok (set_numeric_stats (init specs [f] [] [] [] overwrite) [(f, acc')])).
Proof.
  unfold fed_twice. cbn [for_each]. rewrite single_numeric_batch.
  destruct (dict_item batch f) as [column|e] eqn:Hcolumn; [|done].
  cbn [mbind result_bind].
  destruct (tf_cast_float32 column) as [values|e] eqn:Hvalues; [|done].
  cbn [mbind result_bind]. rewrite single_numeric_batch, Hcolumn.
  cbn [mbind result_bind]. by rewrite Hvalues.
Qed.

Lemma twice_pass specs f overwrite dataset acc :
  for_each _process_batch dataset
    (set_numeric_stats (init specs [f; f] [] [] [] overwrite) [(f, acc)])
  = (acc' ← for_each (fed_twice f) dataset acc;
     Ok (set_numeric_stats (init specs [f; f] [] [] [] overwrite) [(f, acc')])).
Proof.
  revert acc. induction dataset as [|batch dataset IH]; intros acc; [done|].
  cbn [for_each]. rewrite twice_batch.
  destruct (fed_twice f acc batch) as [acc'|e]; [|done]. apply IH.
Qed.

Lemma once_pass specs f overwrite dataset acc :
  for_each _process_batch (flat_map (λ batch, [batch; batch]) dataset)
    (set_numeric_stats (init specs [f] [] [] [] overwrite) [(f, acc)])
  = (acc' ← for_each (fed_twice f) dataset acc;
     Ok (set_numeric_stats (init specs [f] [] [] [] overwrite) [(f, acc')])).
Proof.
  revert acc. induction dataset as [|batch dataset IH]; intros acc; [done|].
  cbn [flat_map]. rewrite for_each_app, once_batches. cbn [for_each].
  destruct (fed_twice f acc batch) as [acc'|e]; [|done]. apply IH.
Qed.

Lemma twice_report specs f overwrite acc :
  _compute_final_statistics
    (set_numeric_stats (init specs [f; f] [] [] [] overwrite) [(f, acc)])
  = _compute_final_statistics
      (set_numeric_stats (init specs [f] [] [] [] overwrite) [(f, acc)]).
Proof.
  unfold _compute_final_statistics, collect, numeric_record.
  cbn [numeric_features categorical_features text_features date_features
       numeric_stats features_specs set_numeric_stats init for_each].
  rewrite !dict_item_head. cbn [mbind result_bind].
  destruct (dict_item specs f) as [spec|e]; [|done].
  cbn [mbind result_bind]. change (dict_set [] f ?r) with [(f, r)].
  by rewrite dict_set_head.
Qed.

(** X22.  The numeric loop goes through the list of declared names while
    the accumulators are keyed by name: a numeric feature declared twice has
    one accumulator that is fed every batch twice.  The pass returns, or
    raises, what the pass of an engine that declares the feature once does
    on the dataset with every batch repeated. *)
Theorem numeric_feature_declared_twice (specs : dict FeatureSpec) (f : string)
    (overwrite : bool) (dataset : list (dict Tensor)) :
  (pass ← calculate_dataset_statistics (init specs [f; f] [] [] [] overwrite) dataset;
   Ok pass.2)
  = (pass ← calculate_dataset_statistics (init specs [f] [] [] [] overwrite)
              (flat_map (λ batch, [batch; batch]) dataset);
     Ok pass.2).
Proof.
  unfold calculate_dataset_statistics.
  rewrite twice_init, twice_pass.
  change (init specs [f] [] [] [] overwrite)
    with (set_numeric_stats (init specs [f] [] [] [] overwrite)
            [(f, WelfordAccumulator.init)]).
  rewrite once_pass.
  destruct (for_each (fed_twice f) dataset WelfordAccumulator.init) as [acc|e]; [|done].
  cbn [mbind result_bind]. rewrite twice_report.
  by destruct (_compute_final_statistics _).
Qed.

End declared_twice.

(** ** Date features and batches *)

Section date_batches.
Context {trig : Trig}.
Import DatasetStatistics.

Lemma date_loop_raises (batch : dict Tensor) (features : list string) (s s' : t) :
  for_each (λ self feature,
      acc ← dict_item (date_stats self) feature;
      column ← dict_item batch feature;
      dates ← date_rows column;
      acc' ← DateAccumulator.update acc dates;
      Ok (set_date_stats self (dict_set (date_stats self) feature acc')))
    features s = Ok s' →
  features = [].
Proof.
  destruct features as [|f features]; [done|]. cbn [for_each]. intros Hrun.
  apply bind_Ok in Hrun as (s1 & Hbody & _).
  apply bind_Ok in Hbody as (acc & _ & Hbody).
  apply bind_Ok in Hbody as (column & _ & Hbody).
  apply bind_Ok in Hbody as (dates & _ & Hbody).
  by apply bind_Ok in Hbody as (acc' & Hupdate & _).
Qed.

(** X9.  [DateAccumulator.update] raises on every call, before it reaches
    its five children, so an engine that declares a date feature cannot
    process a batch: [_process_batch] raises on any batch, and
    [calculate_dataset_statistics] on any dataset that is not empty. *)
Theorem date_feature_blocks_every_batch (self : t) :
  date_features self ≠ [] →
  (∀ acc rows, DateAccumulator.update acc rows = Raise (AttributeError "pi"))
  ∧ (∀ batch, ∃ e, _process_batch self batch = Raise e)
  ∧ (∀ dataset, dataset ≠ [] →
       ∃ e, calculate_dataset_statistics self dataset = Raise e).
Proof.
  intros Hdate.
  assert (∀ batch, ∃ e, _process_batch self batch = Raise e) as Hbatch.
  { intros batch.
    destruct (_process_batch self batch) as [s'|e] eqn:Hrun; [exfalso|by eexists].
    pose proof (process_batch_date_features _ _ _ Hrun) as Hfeatures.
    unfold _process_batch in Hrun.
    apply bind_Ok in Hrun as (s1 & H1 & Hrun).
    apply bind_Ok in Hrun as (s2 & H2 & Hrun).
    apply bind_Ok in Hrun as (s3 & H3 & H4).
    pose proof (date_loop_raises _ _ _ _ H4) as Hnone.
    assert (date_features s' = date_features s3) as Hlast.
    { apply (for_each_invariant (λ s, date_features s = date_features s3)) in H4;
        [done| |done].
      intros s f s0 Hs Hbody.
      repeat (apply bind_Ok in Hbody as (? & _ & Hbody)). by simplify_eq. }
    apply Hdate. by rewrite <- Hfeatures, Hlast. }
  split; [done|]. split; [done|].
  intros [|batch dataset] Hdataset; [done|].
  destruct (Hbatch batch) as (e & He). exists e.
  unfold calculate_dataset_statistics. cbn [for_each]. by rewrite He.
Qed.

End date_batches.

(** The theorem on an engine with a numeric and a date feature. *)
Lemma date_feature_blocks_every_batch_witness :
  ∃ e,
    DatasetStatistics.calculate_dataset_statistics (trig := polynomial_trig)
      (DatasetStatistics.init [("age", {| spec_dtype := tf_float32 |})]
         ["age"] [] [] ["day"] false)
      [ [("age", Float32Tensor [1; 2]); ("day", DateTensor [(2020, 1, 1)])] ]
    = Raise e.
Proof.
  destruct (date_feature_blocks_every_batch (trig := polynomial_trig)
              (DatasetStatistics.init [("age", {| spec_dtype := tf_float32 |})]
                 ["age"] [] [] ["day"] false))
    as (_ & _ & Hdataset); [done|].
  by apply Hdataset.
Defined.

(** ** What loading returns *)

Lemma finalized_record_restored (r : pyval) :
  finalized_record r → record_restored r (python_view r).
Proof.
  intros [[(mean & count & var & d & ->)
          |[(vocab & d & ->)|[(vocab & d & ->)| ->]]]|(words & d & ->)].
  - apply numeric_record_restored.
  - pose proof (vocabulary_record_restored _ _ d (dump_integers vocab)) as Hr.
    rewrite map_map in Hr. unfold vocabulary_record in *.
    cbn [python_view map fst snd]. by rewrite map_map, !length_map in *.
  - pose proof (vocabulary_record_restored _ _ d (dump_strings vocab)) as Hr.
    rewrite map_map in Hr. unfold vocabulary_record in *.
    cbn [python_view map fst snd]. by rewrite map_map, !length_map in *.
  - apply zero_date_record_restored.
  - pose proof (vocabulary_record_restored _ _ d (dump_bytes words)) as Hr.
    rewrite map_map in Hr. unfold vocabulary_record in *.
    cbn [python_view map fst snd]. by rewrite map_map, !length_map in *.
Qed.

Lemma category_viewed (d d' : dict pyval) :
  Forall finalized_record (map snd d) → map fst d' = map fst d →
  Forall2 record_restored (map snd d) (map snd d') →
  d' = map (λ kv, (kv.1, python_view kv.2)) d.
Proof.
  revert d'. induction d as [|[k r] d IH]; intros [|[k' r'] d'] Hd Hkeys Hall;
    try done; cbn in *.
  apply Forall_cons in Hd as [Hr Hd]. injection Hkeys as -> Hkeys.
  apply Forall2_cons in Hall as [Hr' Hall].
  rewrite (record_restored_functional _ _ _ Hr' (finalized_record_restored _ Hr)).
  f_equal. by apply IH.
Qed.

(** X23.  What comes back when a finalized report is saved and loaded, with
    [overwrite_stats] off: the same report with every NumPy float as the
    Python float of the same value, every word of a text vocabulary as the
    text of the [repr] of its bytes, and everything else as it was, the
    dtype objects included. *)
Theorem finalized_report_reloaded (self : DatasetStatistics.t) (report : pyval) :
  DatasetStatistics.overwrite_stats self = false →
  DatasetStatistics._compute_final_statistics self = Ok report →
  persist_then_load (DatasetStatistics.set_features_stats self report)
  = Ok (python_view report).
Proof.
  intros Hoverwrite Hfinal.
  apply compute_final_statistics_Ok in Hfinal
    as (numeric & categorical & text & date & -> & Hn & Hc & Ht & Hd).
  apply (collect_records finalized_record) in Hn as [_ Hnv].
  2:{ intros f r _ Hr%numeric_record_plain. by left. }
  apply (collect_records finalized_record) in Hc as [_ Hcv].
  2:{ intros f r _ Hr%categorical_record_plain. by left. }
  apply (collect_records finalized_record) in Ht as [_ Htv].
  2:{ intros f r _ (acc & d & _ & ->)%text_record_words. right. by eexists _, _. }
  apply (collect_records finalized_record) in Hd as [_ Hdv].
  2:{ intros f r _ ->%date_record_zero. left. by repeat right. }
  assert (∀ d : dict pyval, Forall finalized_record (map snd d) →
            Forall (λ r, ∃ r', record_restored r r') (map snd d)) as Hrestored.
  { intros d Hall. eapply Forall_impl; [exact Hall|].
    intros r Hr. eexists. by apply finalized_record_restored. }
  destruct (report_restored numeric categorical text date)
    as (document & numeric' & categorical' & text' & date' & Hdump & Hload
        & [Hn1 Hn2] & [Hc1 Hc2] & [Ht1 Ht2] & [Hd1 Hd2]); auto.
  rewrite (category_viewed _ _ Hnv Hn1 Hn2), (category_viewed _ _ Hcv Hc1 Hc2),
    (category_viewed _ _ Htv Ht1 Ht2), (category_viewed _ _ Hdv Hd1 Hd2) in Hload.
  by eapply persist_then_load_report.
Qed.

(** The theorem on the report of the sample pass. *)
Lemma finalized_report_reloaded_witness :
  persist_then_load sample_pass.1 = Ok (python_view sample_pass.2).
Proof.
  apply (finalized_report_reloaded
           (DatasetStatistics.Build
              (DatasetStatistics.numeric_features sample_pass.1)
              (DatasetStatistics.categorical_features sample_pass.1)
              (DatasetStatistics.text_features sample_pass.1)
              (DatasetStatistics.date_features sample_pass.1)
              (DatasetStatistics.features_specs sample_pass.1)
              (DatasetStatistics.overwrite_stats sample_pass.1)
              (DatasetStatistics.numeric_stats sample_pass.1)
              (DatasetStatistics.categorical_stats sample_pass.1)
              (DatasetStatistics.text_stats sample_pass.1)
              (DatasetStatistics.date_stats sample_pass.1) None)
           sample_pass.2).
  - reflexivity.
  - by vm_compute.
Defined.
